(** * The PPC optimizer's decision engine, embedded and verified

    A shallow embedding of [amazon_ppc_optimizer_advanced.py]: the KPI
    normalizer, the dayparting selector, the bid rule cascade, report polling,
    campaign lifecycle management, keyword expansion and the run's stages.

    Numbers are the program's own: Python floats are IEEE binary64 values
    ([PrimFloat.float]), Python ints are [Z].  Calls to the advertising
    platform, the clock and the audit file are events recorded in a trace;
    what the outside world answers is given by an environment that sees the
    trace so far. *)

From Stdlib Require Import ZArith Floats Lia Bool List String Ascii.
From stdpp Require Import base gmap strings list.

Set Warnings "-inexact-float".

(** ** Exceptions and fallible results *)

Inductive exn : Type :=
| ValueError
| OverflowError
| KeyError
| RuntimeError
| TimeoutError
| TypeError
| HTTPError.

Inductive Outcome (A : Type) : Type :=
| Ok (a : A)
| Raise (e : exn).
Arguments Ok {A} a.
Arguments Raise {A} e.

Definition obind {A B : Type} (o : Outcome A) (k : A -> Outcome B) : Outcome B :=
  match o with
  | Ok a => k a
  | Raise e => Raise e
  end.

Declare Scope outcome_scope.
Delimit Scope outcome_scope with outcome.
Notation "'let?' x ':=' c 'in' k" := (obind c (fun x => k))
  (at level 10, x pattern, c at level 100, k at level 200)
  : outcome_scope.

(** ** Python floats and the built-ins the program applies to them *)

Module PyFloat.
Local Open Scope float_scope.

(** [x > y] on floats. *)
Definition gtb (x y : float) : bool := y <? x.

(** [x != y] on floats (true when either side is NaN). *)
Definition neqb (x y : float) : bool := negb (x =? y).

(** Truth value of a float in a condition: [if x]. *)
Definition truthy (x : float) : bool := neqb x 0.

(** The built-in [min(a, b)]: the first argument stays unless the second
    is smaller. *)
Definition py_min (a b : float) : float := if b <? a then b else a.

(** The built-in [max(a, b)]: the first argument stays unless the second
    is greater. *)
Definition py_max (a b : float) : float := if gtb b a then b else a.

(** [int(x)]: truncation towards zero; infinities and NaN raise. *)
Definition py_int (x : float) : Outcome Z :=
  match Prim2SF x with
  | S754_zero _ => Ok 0%Z
  | S754_finite s m e =>
      let a := Z.shiftl (Z.pos m) e in
      Ok (if s then (- a)%Z else a)
  | S754_infinity _ => Raise OverflowError
  | S754_nan => Raise ValueError
  end.

(** The conversion of an int operand in [int / float]: the nearest float,
    or OverflowError when the int is beyond the float range. *)
Definition of_int (z : Z) : Outcome float :=
  let f := SF2Prim (binary_normalize prec emax z 0 false) in
  if is_infinity f then Raise OverflowError else Ok f.

(** [float("inf")] *)
Definition inf : float := infinity.

(** The comparisons as propositions. *)
Definition lt (x y : float) : Prop := (x <? y) = true.
Definition le (x y : float) : Prop := (x <=? y) = true.
Definition eq (x y : float) : Prop := (x =? y) = true.
End PyFloat.

(** ** RulesConfig

    The rules dictionary.  A key the program reads with [rules[k]] is a
    field; a key it reads with [rules.get(k, default)] is an optional field,
    and the default is applied where the program applies it. *)

Record Rules : Type := {
  lookback_days : Z;
  min_clicks : Z;
  min_spend : float;
  target_acos : float;
  high_acos : float;
  low_acos : float;
  min_ctr : option float;
  up_pct : float;
  down_pct : float;
  min_bid : float;
  max_bid : float;
  dayparting_enabled : option bool;
  peak_hours : option (list Z);
  peak_multiplier : option float;
  off_peak_multiplier : option float;
  auto_activate_campaigns : option bool;
  auto_deactivate_campaigns : option bool;
  deactivate_acos_threshold : float;
  activate_acos_threshold : float;
  auto_add_keywords : option bool;
  keyword_research_enabled : option bool;
  max_keywords_per_campaign : option Z;
  new_keyword_bid : option float;
  auto_create_campaigns : option bool;
  new_campaign_daily_budget : option float
}.

Definition DEFAULT_RULES : Rules := {|
  lookback_days := 14;
  min_clicks := 10;
  min_spend := 5.0;
  target_acos := 0.45;
  high_acos := 0.45;
  low_acos := 0.30;
  min_ctr := Some 0.003%float;
  up_pct := 0.15;
  down_pct := 0.15;
  min_bid := 0.25;
  max_bid := 5.00;
  dayparting_enabled := Some true;
  peak_hours := Some [9; 10; 11; 12; 13; 14; 15; 16; 17; 18; 19; 20]%Z;
  peak_multiplier := Some 1.20%float;
  off_peak_multiplier := Some 0.85%float;
  auto_activate_campaigns := Some true;
  auto_deactivate_campaigns := Some true;
  deactivate_acos_threshold := 0.45;
  activate_acos_threshold := 0.45;
  auto_add_keywords := Some true;
  keyword_research_enabled := Some true;
  max_keywords_per_campaign := Some 50%Z;
  new_keyword_bid := Some 0.50%float;
  auto_create_campaigns := Some true;
  new_campaign_daily_budget := Some 10.00%float
|}.

(** [rules.get(k)] used as a condition: an absent flag is falsy. *)
Definition flag (b : option bool) : bool := default false b.

(** ** KPI calculations *)

Section Kpis.
(** Python's [float(s)] on a string; [None] is the ValueError it raises on
    text that is not a number. *)
Variable py_float : string -> option float.

(** [float(row.get(k, 0) or 0)]: an absent or empty cell reads as zero. *)
Definition cell_float (row : gmap string string) (k : string) : Outcome float :=
  match row !! k with
  | None => Ok 0%float
  | Some s =>
      if String.eqb s "" then Ok 0%float
      else match py_float s with
           | Some f => Ok f
           | None => Raise ValueError
           end
  end.

Local Open Scope outcome_scope.

(** [compute_kpis(row)]: CTR, ACOS, cost, sales, clicks. *)
Definition compute_kpis (row : gmap string string)
  : Outcome (float * float * float * float * Z) :=
  let? fclicks := cell_float row "clicks" in
  let? clicks := PyFloat.py_int fclicks in
  let? impressions := cell_float row "impressions" in
  let? cost := cell_float row "cost" in
  let? sales := cell_float row "attributedSales14d" in
  let? ctr :=
    (if PyFloat.truthy impressions
     then (let? c := PyFloat.of_int clicks in Ok (c / impressions)%float)
     else Ok 0%float) in
  let acos :=
    (if PyFloat.gtb sales 0 then (cost / sales)%float
     else if PyFloat.gtb cost 0 then PyFloat.inf
     else 0%float) in
  Ok (ctr, acos, cost, sales, clicks).
End Kpis.

(** ** Dayparting *)

(** [get_dayparting_multiplier(rules)]; the reading of
    [datetime.now().hour] is the argument [current_hour]. *)
Definition get_dayparting_multiplier (rules : Rules) (current_hour : Z) : float :=
  if negb (flag (dayparting_enabled rules)) then 1.0%float
  else
    if bool_decide (current_hour ∈ default [] (peak_hours rules))
    then default 1.0%float (peak_multiplier rules)
    else default 1.0%float (off_peak_multiplier rules).

(** ** Bid optimization *)

(** [clamp(v, lo, hi)] *)
Definition clamp (v lo hi : float) : float :=
  PyFloat.py_max lo (PyFloat.py_min hi v).

(** [decide_bid_change(rules, ctr, acos, clicks, cost, sales, current_bid)],
    with the wall-clock hour the dayparting selector reads as an argument. *)
Definition decide_bid_change (rules : Rules) (current_hour : Z)
    (ctr acos : float) (clicks : Z) (cost sales current_bid : float)
  : option float :=
  if (clicks <? min_clicks rules)%Z && (cost <? min_spend rules)%float then None
  else
    let daypart_mult := get_dayparting_multiplier rules current_hour in
    if (ctr <? default 0%float (min_ctr rules))%float
       && (clicks >=? min_clicks rules)%Z then
      let new_bid := (current_bid * (1 - down_pct rules) * daypart_mult)%float in
      Some (clamp new_bid (min_bid rules) (max_bid rules))
    else if (sales <=? 0)%float && (clicks >=? min_clicks rules)%Z then
      let new_bid := (current_bid * (1 - down_pct rules) * daypart_mult)%float in
      Some (clamp new_bid (min_bid rules) (max_bid rules))
    else if PyFloat.gtb acos (high_acos rules) then
      let new_bid := (current_bid * (1 - down_pct rules) * daypart_mult)%float in
      Some (clamp new_bid (min_bid rules) (max_bid rules))
    else if (acos <? low_acos rules)%float && PyFloat.gtb sales 0 then
      let new_bid := (current_bid * (1 + up_pct rules) * daypart_mult)%float in
      Some (clamp new_bid (min_bid rules) (max_bid rules))
    else if PyFloat.neqb daypart_mult 1.0 then
      let new_bid := (current_bid * daypart_mult)%float in
      Some (clamp new_bid (min_bid rules) (max_bid rules))
    else None.

(** ** The outside world: events, answers and the run monad *)

(** The JSON objects the platform returns and accepts.  An identifier the
    program only ever passes through [str(...)] is held as that string.  A
    text or a bid the program operates on is held when the entry is a string
    or a number, and is [None] when the key is absent; an answer in which
    such an entry has another JSON type (null, for one) is outside these
    records, and so are the exceptions the program raises on it. *)

Record StatusData : Type := {
  sd_status : option string;
  sd_location : option string
}.

Record Keyword : Type := {
  kw_keywordId : string;
  kw_keywordText : option string;
  kw_bid : option float
}.

Record Suggestion : Type := {
  sg_keywordText : option string;
  sg_matchType : option string
}.

Record NewKeyword : Type := {
  nk_campaignId : Z;
  nk_adGroupId : Z;
  nk_keywordText : string;
  nk_matchType : string;
  nk_state : string;
  nk_bid : float
}.

Record KeywordResult : Type := { kr_code : option string }.

Record AddedKeyword : Type := {
  ak_ad_group_id : string;
  ak_keyword : string;
  ak_match_type : string;
  ak_bid : float;
  ak_status : string
}.

Record AdGroup : Type := {
  ag_adGroupId : string;
  ag_campaignId : string
}.

Record BidUpdate : Type := {
  bu_keywordId : Z;
  bu_bid : float
}.

(** An entry of [campaign_performance]; the program reads it with [.get]. *)
Record Perf : Type := {
  perf_acos : option float;
  perf_ctr : option float;
  perf_cost : option float;
  perf_sales : option float;
  perf_clicks : option Z;
  perf_state : option string
}.

(** An entry of the list [manage_campaigns_by_acos] returns; the reason is
    kept without the formatted percentage. *)
Record CampaignAction : Type := {
  ca_campaign_id : option string;
  ca_action : string;
  ca_reason : string;
  ca_acos : float
}.

(** A line of the bid audit file (the timestamp is left out); [None] in
    [au_acos] is the text "inf". *)
Record AuditLine : Type := {
  au_keyword_id : string;
  au_keyword_text : string;
  au_old_bid : float;
  au_new_bid : float;
  au_change : float;
  au_ctr : float;
  au_acos : option float;
  au_clicks : Z;
  au_cost : float;
  au_sales : float;
  au_daypart_mult : float
}.

(** What the program does to the outside world, one event per call. *)
Inductive Event : Type :=
| EvTime
| EvHour
| EvSleep (interval : float)
| EvCreateReport (report_type : string) (lookback_days : Z)
| EvReportStatus (report_id : string)
| EvDownloadReport (url : string)
| EvGetCampaigns
| EvGetAdGroups
| EvGetProductAds
| EvGetKeywords (ad_group_id : option string)
| EvGetKeywordSuggestions (ad_group_id : string) (max_suggestions : Z)
| EvCreateKeywords (keywords : list NewKeyword)
| EvUpdateKeywordBids (updates : list BidUpdate)
| EvUpdateCampaignState (campaign_id : Z) (state : string)
| EvWriteAudit (lines : list AuditLine).

(** The trace of a run, most recent event first. *)
Definition Trace : Type := list Event.

(** The three mutating collaborator methods. *)
Definition mutating (ev : Event) : bool :=
  match ev with
  | EvCreateKeywords _ | EvUpdateKeywordBids _ | EvUpdateCampaignState _ _ => true
  | _ => false
  end.

(** The answers of the outside world, each a function of the trace so far.
    [Raise] is the exception the call raises ([raise_for_status], a
    connection error, an undecodable download). *)
Record Env : Type := {
  env_time : Trace -> float;
  env_hour : Trace -> Z;
  env_create_report : Trace -> string -> Z -> Outcome (option string);
  env_report_status : Trace -> string -> Outcome StatusData;
  env_download_report : Trace -> string -> Outcome (list (gmap string string));
  env_get_campaigns : Trace -> Outcome unit;
  env_get_ad_groups : Trace -> Outcome (list AdGroup);
  env_get_product_ads : Trace -> Outcome unit;
  env_get_keywords : Trace -> option string -> Outcome (list Keyword);
  env_get_keyword_suggestions : Trace -> string -> Z -> Outcome (list Suggestion);
  env_create_keywords : Trace -> list NewKeyword -> Outcome (list KeywordResult);
  env_update_keyword_bids : Trace -> list BidUpdate -> Outcome unit;
  env_update_campaign_state : Trace -> Z -> string -> Outcome unit;
  env_write_audit : Trace -> Outcome unit
}.

(** The result of a computation: a value, an exception, or a polling loop
    that has not ended within the steps allowed to it. *)
Inductive Res (A : Type) : Type :=
| Val (a : A)
| Exn (e : exn)
| Diverge.
Arguments Val {A} a.
Arguments Exn {A} e.
Arguments Diverge {A}.

Definition M (A : Type) : Type := Trace -> Res A * Trace.

Definition ret {A : Type} (a : A) : M A := fun tr => (Val a, tr).

Definition raise {A : Type} (e : exn) : M A := fun tr => (Exn e, tr).

Definition diverge {A : Type} : M A := fun tr => (Diverge, tr).

Definition bind {A B : Type} (m : M A) (k : A -> M B) : M B :=
  fun tr =>
    match m tr with
    | (Val a, tr') => k a tr'
    | (Exn e, tr') => (Exn e, tr')
    | (Diverge, tr') => (Diverge, tr')
    end.

(** [try: m except Exception as e: handler(e)] *)
Definition try_except {A : Type} (m : M A) (handler : exn -> M A) : M A :=
  fun tr =>
    match m tr with
    | (Exn e, tr') => handler e tr'
    | r => r
    end.

Definition lift {A : Type} (o : Outcome A) : M A :=
  fun tr => (match o with Ok a => Val a | Raise e => Exn e end, tr).

(** A call to the outside world: the answer is read at the current trace and
    the event is recorded. *)
Definition call {A : Type} (ev : Event) (answer : Trace -> Outcome A) : M A :=
  fun tr => (match answer tr with Ok a => Val a | Raise e => Exn e end, ev :: tr).

Declare Scope run_scope.
Delimit Scope run_scope with run.
Notation "'let*' x ':=' c 'in' k" := (bind c (fun x => k))
  (at level 10, x pattern, c at level 100, k at level 200) : run_scope.
Notation "c1 ;; c2" := (bind c1 (fun _ => c2))
  (at level 100, c2 at level 200, right associativity) : run_scope.

(** [for x in xs: s = body(s, x)] *)
Fixpoint for_each {A S : Type} (body : S -> A -> M S) (xs : list A) (s : S)
  : M S :=
  match xs with
  | [] => ret s
  | x :: xs' => bind (body s x) (for_each body xs')
  end.

(** An insertion-ordered dict as an association list: [d[k] = v]. *)
Fixpoint dict_set {K V : Type} `{EqDecision K} (k : K) (v : V)
    (d : list (K * V)) : list (K * V) :=
  match d with
  | [] => [(k, v)]
  | (k', v') :: d' =>
      if decide (k = k') then (k, v) :: d' else (k', v') :: dict_set k v d'
  end.

(** Truth value of a string in a condition. *)
Definition nonempty (s : string) : bool := negb (String.eqb s "").

(** The command-line switches the run reads. *)
Record Args : Type := {
  dry_run : bool;
  skip_bids : bool;
  skip_campaigns : bool;
  skip_keywords : bool;
  skip_new_campaigns : bool
}.

(** ** The program's calls, report polling, and the stages of a run *)

Section Run.
Variable env : Env.

(** Python's built-ins, which are not part of the program: [float(s)] and
    [int(s)] on a string ([None] is the ValueError), [s.lower()], and
    [round(x, ndigits)]. *)
Variable py_float : string -> option float.
Variable py_int_str : string -> option Z.
Variable py_lower : string -> string.
Variable py_round : float -> Z -> float.

Local Open Scope run_scope.

(** [time.time()], [datetime.now().hour], [time.sleep(interval)] *)
Definition time_time : M float := call EvTime (fun tr => Ok (env_time env tr)).
Definition now_hour : M Z := call EvHour (fun tr => Ok (env_hour env tr)).
Definition time_sleep (interval : float) : M unit :=
  call (EvSleep interval) (fun _ => Ok tt).

(** [int(s)] on an identifier held as a string. *)
Definition int_of_id (s : string) : Outcome Z :=
  match py_int_str s with
  | Some z => Ok z
  | None => Raise ValueError
  end.

(** [get_campaigns], [get_ad_groups] and [get_product_ads], unfiltered. *)
Definition get_campaigns : M unit :=
  call EvGetCampaigns (env_get_campaigns env).
Definition get_ad_groups : M (list AdGroup) :=
  call EvGetAdGroups (env_get_ad_groups env).
Definition get_product_ads : M unit :=
  call EvGetProductAds (env_get_product_ads env).

(** [update_campaign_state(auth, base, profile_id, campaign_id, state)]:
    the payload holds [int(campaign_id)], computed before the request. *)
Definition update_campaign_state (campaign_id : option string) (state : string)
  : M unit :=
  let* cid := lift (match campaign_id with
                    | Some s => int_of_id s
                    | None => Raise TypeError
                    end) in
  call (EvUpdateCampaignState cid state)
    (fun tr => env_update_campaign_state env tr cid state).

(** [get_keywords(auth, base, profile_id, ad_group_id)]: the filter is sent
    only when the identifier is truthy. *)
Definition get_keywords (ad_group_id : option string) : M (list Keyword) :=
  let filter := match ad_group_id with
                | Some s => if nonempty s then Some s else None
                | None => None
                end in
  call (EvGetKeywords filter) (fun tr => env_get_keywords env tr filter).

(** [get_keyword_suggestions]: any failure of the request yields []. *)
Definition get_keyword_suggestions (ad_group_id : string) (max_suggestions : Z)
  : M (list Suggestion) :=
  try_except
    (call (EvGetKeywordSuggestions ad_group_id max_suggestions)
       (fun tr => env_get_keyword_suggestions env tr ad_group_id max_suggestions))
    (fun _ => ret []).

Definition create_keywords (keywords : list NewKeyword) : M (list KeywordResult) :=
  call (EvCreateKeywords keywords) (fun tr => env_create_keywords env tr keywords).

Definition update_keyword_bids (updates : list BidUpdate) : M unit :=
  call (EvUpdateKeywordBids updates)
    (fun tr => env_update_keyword_bids env tr updates).

(** [create_sp_report]: the answer is the [reportId] of the response; the
    report date, computed from the UTC clock, is left out of the event. *)
Definition create_sp_report (report_type : string) (lookback_days : Z)
  : M string :=
  if String.eqb report_type "keywords" || String.eqb report_type "campaigns" then
    let* report_id :=
      call (EvCreateReport report_type lookback_days)
        (fun tr => env_create_report env tr report_type lookback_days) in
    match report_id with
    | Some id => if nonempty id then ret id else raise RuntimeError
    | None => raise RuntimeError
    end
  else raise ValueError.

(** The loop of [poll_report]; [fuel] bounds the number of iterations
    looked at. *)
Fixpoint poll_loop (fuel : nat) (report_id : string) (interval deadline : float)
  : M string :=
  match fuel with
  | O => diverge
  | S fuel' =>
      let* now := time_time in
      if (now <? deadline)%float then
        let* data :=
          call (EvReportStatus report_id)
            (fun tr => env_report_status env tr report_id) in
        if bool_decide (sd_status data = Some "SUCCESS"%string) then
          match sd_location data with
          | Some location => ret location
          | None => raise KeyError
          end
        else if bool_decide (sd_status data = Some "FAILURE"%string)
                || bool_decide (sd_status data = Some "CANCELLED"%string) then
          raise RuntimeError
        else
          time_sleep interval ;; poll_loop fuel' report_id interval deadline
      else raise TimeoutError
  end.

(** [poll_report(auth, base, profile_id, report_id, interval, timeout_s)] *)
Definition poll_report (fuel : nat) (report_id : string)
    (interval timeout_s : float) : M string :=
  let* start := time_time in
  poll_loop fuel report_id interval (start + timeout_s)%float.

(** [download_report(url)]: the answer is the decoded list of rows. *)
Definition download_report (url : string) : M (list (gmap string string)) :=
  call (EvDownloadReport url) (fun tr => env_download_report env tr url).

(** [get_dayparting_multiplier] and [decide_bid_change] with the hour read
    from the clock.  The clock is read here on every call; the program reads
    it only when dayparting is enabled and, in [decide_bid_change], past the
    insufficient-data guard. *)
Definition get_dayparting_multiplier_now (rules : Rules) : M float :=
  let* current_hour := now_hour in
  ret (get_dayparting_multiplier rules current_hour).

Definition decide_bid_change_now (rules : Rules) (ctr acos : float) (clicks : Z)
    (cost sales current_bid : float) : M (option float) :=
  let* current_hour := now_hour in
  ret (decide_bid_change rules current_hour ctr acos clicks cost sales
         current_bid).

(** *** Campaign management *)

Definition paused_action (campaign_id : option string) (dry : bool)
    (acos : float) : CampaignAction :=
  {| ca_campaign_id := campaign_id;
     ca_action := if dry then "paused (dry-run)" else "paused";
     ca_reason := "High ACOS";
     ca_acos := acos |}.

Definition enabled_action (campaign_id : option string) (dry : bool)
    (acos : float) : CampaignAction :=
  {| ca_campaign_id := campaign_id;
     ca_action := if dry then "enabled (dry-run)" else "enabled";
     ca_reason := "Good ACOS";
     ca_acos := acos |}.

(** The body of the loop of [manage_campaigns_by_acos]: one campaign. *)
Definition manage_campaign (rules : Rules) (dry_run : bool)
    (actions : list CampaignAction) (entry : option string * Perf)
  : M (list CampaignAction) :=
  let campaign_id := fst entry in
  let perf := snd entry in
  let acos := default 0%float (perf_acos perf) in
  let current_state := default "enabled"%string (perf_state perf) in
  let clicks := default 0%Z (perf_clicks perf) in
  if (clicks <? min_clicks rules)%Z then ret actions
  else if flag (auto_deactivate_campaigns rules)
          && PyFloat.gtb acos (deactivate_acos_threshold rules) then
    if String.eqb current_state "enabled" then
      if negb dry_run then
        try_except
          (update_campaign_state campaign_id "paused" ;;
           ret (actions ++ [paused_action campaign_id false acos]))
          (fun _ => ret actions)
      else ret (actions ++ [paused_action campaign_id true acos])
    else ret actions
  else if flag (auto_activate_campaigns rules)
          && (acos <=? activate_acos_threshold rules)%float then
    if String.eqb current_state "paused" then
      if negb dry_run then
        try_except
          (update_campaign_state campaign_id "enabled" ;;
           ret (actions ++ [enabled_action campaign_id false acos]))
          (fun _ => ret actions)
      else ret (actions ++ [enabled_action campaign_id true acos])
    else ret actions
  else ret actions.

(** [manage_campaigns_by_acos(auth, base, profile_id, campaign_performance,
    rules, dry_run)] *)
Definition manage_campaigns_by_acos
    (campaign_performance : list (option string * Perf)) (rules : Rules)
    (dry_run : bool) : M (list CampaignAction) :=
  if negb (flag (auto_activate_campaigns rules))
     && negb (flag (auto_deactivate_campaigns rules)) then ret []
  else for_each (manage_campaign rules dry_run) campaign_performance [].

(** *** Keyword research *)

(** [{kw.get("keywordText", "").lower() for kw in existing_keywords}] *)
Definition existing_texts (existing_keywords : list Keyword) : gset string :=
  list_to_set
    ((fun kw => py_lower (default ""%string (kw_keywordText kw)))
       <$> existing_keywords).

(** The loop [for suggestion in suggestions] of [research_and_add_keywords],
    with the set of texts seen and the list collected so far. *)
Fixpoint collect_new_keywords (rules : Rules) (campaign_id ad_group_id : string)
    (suggestions : list Suggestion) (existing_keyword_texts : gset string)
    (new_keywords : list NewKeyword) : Outcome (list NewKeyword) :=
  match suggestions with
  | [] => Ok new_keywords
  | suggestion :: rest =>
      let keyword_text := default ""%string (sg_keywordText suggestion) in
      if bool_decide (py_lower keyword_text ∈ existing_keyword_texts) then
        collect_new_keywords rules campaign_id ad_group_id rest
          existing_keyword_texts new_keywords
      else
        obind (int_of_id campaign_id) (fun cid =>
        obind (int_of_id ad_group_id) (fun aid =>
          let new_keywords' :=
            new_keywords ++
              [{| nk_campaignId := cid;
                  nk_adGroupId := aid;
                  nk_keywordText := keyword_text;
                  nk_matchType := default "broad"%string (sg_matchType suggestion);
                  nk_state := "enabled";
                  nk_bid := default 0.50%float (new_keyword_bid rules) |}] in
          let existing_keyword_texts' :=
            existing_keyword_texts ∪ {[ py_lower keyword_text ]} in
          if (Z.of_nat (length new_keywords') >=? 5)%Z then Ok new_keywords'
          else collect_new_keywords rules campaign_id ad_group_id rest
                 existing_keyword_texts' new_keywords'))
  end.

Definition added_entry (ad_group_id : string) (status : string)
    (kw : NewKeyword) : AddedKeyword :=
  {| ak_ad_group_id := ad_group_id;
     ak_keyword := nk_keywordText kw;
     ak_match_type := nk_matchType kw;
     ak_bid := nk_bid kw;
     ak_status := status |}.

(** The body of the loop of [research_and_add_keywords]: one ad group. *)
Definition research_ad_group (rules : Rules) (dry_run : bool)
    (added_keywords : list AddedKeyword) (ad_group : AdGroup)
  : M (list AddedKeyword) :=
  let ad_group_id := ag_adGroupId ad_group in
  let campaign_id := ag_campaignId ad_group in
  let* existing_keywords := get_keywords (Some ad_group_id) in
  let existing_keyword_texts := existing_texts existing_keywords in
  if (Z.of_nat (length existing_keywords)
      >=? default 50 (max_keywords_per_campaign rules))%Z then ret added_keywords
  else
    let* suggestions := get_keyword_suggestions ad_group_id 20 in
    let* new_keywords :=
      lift (collect_new_keywords rules campaign_id ad_group_id suggestions
              existing_keyword_texts []) in
    match new_keywords with
    | [] => ret added_keywords
    | _ :: _ =>
        if negb dry_run then
          try_except
            (let* results := create_keywords new_keywords in
             ret (added_keywords ++
                    ((fun p => added_entry ad_group_id
                                 (default "unknown"%string (kr_code (snd p)))
                                 (fst p))
                       <$> zip new_keywords results)))
            (fun _ => ret added_keywords)
        else
          ret (added_keywords ++
                 (added_entry ad_group_id "dry-run" <$> new_keywords))
    end.

(** [research_and_add_keywords(auth, base, profile_id, ad_groups, rules,
    dry_run)] *)
Definition research_and_add_keywords (ad_groups : list AdGroup) (rules : Rules)
    (dry_run : bool) : M (list AddedKeyword) :=
  if negb (flag (keyword_research_enabled rules))
     || negb (flag (auto_add_keywords rules)) then ret []
  else for_each (research_ad_group rules dry_run) ad_groups [].

(** [find_products_without_campaigns]: three fetches, then the empty list. *)
Definition find_products_without_campaigns : M (list unit) :=
  get_campaigns ;; get_ad_groups ;; get_product_ads ;; ret [].

(** *** The run *)

(** The [try]/[except] around report creation, polling and download in
    Steps 1 and 3: any exception leaves the stage with no rows. *)
Definition fetch_report_rows (fuel : nat) (rules : Rules) (report_type : string)
  : M (list (gmap string string)) :=
  try_except
    (let* report_id := create_sp_report report_type (lookback_days rules) in
     let* report_url := poll_report fuel report_id 5 180 in
     download_report report_url)
    (fun _ => ret []).

(** One row of the loop that builds [campaign_performance]. *)
Definition add_campaign_row (campaign_performance : list (option string * Perf))
    (row : gmap string string) : M (list (option string * Perf)) :=
  let campaign_id := row !! "campaignId" in
  let* kpis := lift (compute_kpis py_float row) in
  let '(ctr, acos, cost, sales, clicks) := kpis in
  ret (dict_set campaign_id
         {| perf_acos := Some acos;
            perf_ctr := Some ctr;
            perf_cost := Some cost;
            perf_sales := Some sales;
            perf_clicks := Some clicks;
            perf_state :=
              Some (default "enabled"%string (row !! "campaignStatus")) |}
         campaign_performance).

(** Step 2: campaign activation and deactivation. *)
Definition step_campaigns (args : Args) (rules : Rules)
    (campaign_performance : list (option string * Perf)) : M unit :=
  if negb (skip_campaigns args) then
    manage_campaigns_by_acos campaign_performance rules (dry_run args) ;; ret tt
  else ret tt.

(** The current bid of a keyword, from the keywords API; [None] is the
    [continue] of the loop (no such keyword, or the request failed). *)
Definition lookup_current_bid (keyword_id : string) : M (option float) :=
  try_except
    (let* keywords := get_keywords None in
     match List.find (fun k => String.eqb (kw_keywordId k) keyword_id) keywords with
     | Some keyword_data => ret (Some (default 0%float (kw_bid keyword_data)))
     | None => ret None
     end)
    (fun _ => ret None).

(** One row of the loop of Step 3, with the updates and audit lines so far. *)
Definition bid_row (rules : Rules) (daypart_mult : float)
    (acc : list BidUpdate * list AuditLine) (row : gmap string string)
  : M (list BidUpdate * list AuditLine) :=
  match row !! "keywordId" with
  | None => ret acc
  | Some keyword_id =>
      if negb (nonempty keyword_id) then ret acc
      else
        let* kpis := lift (compute_kpis py_float row) in
        let '(ctr, acos, cost, sales, clicks) := kpis in
        let* found := lookup_current_bid keyword_id in
        match found with
        | None => ret acc
        | Some current_bid =>
            let* decision :=
              decide_bid_change_now rules ctr acos clicks cost sales current_bid in
            match decision with
            | None => ret acc
            | Some new_bid =>
                if PyFloat.gtb (abs (new_bid - current_bid)) 0.01 then
                  let* kid := lift (int_of_id keyword_id) in
                  ret (fst acc ++ [{| bu_keywordId := kid;
                                      bu_bid := py_round new_bid 2 |}],
                       snd acc ++
                         [{| au_keyword_id := keyword_id;
                             au_keyword_text :=
                               default ""%string (row !! "keywordText");
                             au_old_bid := py_round current_bid 2;
                             au_new_bid := py_round new_bid 2;
                             au_change := py_round (new_bid - current_bid) 2;
                             au_ctr := py_round ctr 4;
                             au_acos :=
                               if PyFloat.neqb acos PyFloat.inf
                               then Some (py_round acos 4) else None;
                             au_clicks := clicks;
                             au_cost := py_round cost 2;
                             au_sales := py_round sales 2;
                             au_daypart_mult := py_round daypart_mult 2 |}])
                else ret acc
            end
        end
  end.

(** Step 3: keyword bid optimization, the push and the audit file. *)
Definition step_bids (fuel : nat) (args : Args) (rules : Rules)
    (daypart_mult : float) : M unit :=
  if negb (skip_bids args) then
    let* keyword_rows := fetch_report_rows fuel rules "keywords" in
    let* acc := for_each (bid_row rules daypart_mult) keyword_rows ([], []) in
    let bid_updates := fst acc in
    let audit_lines := snd acc in
    (match bid_updates with
     | [] => ret tt
     | _ :: _ =>
         if negb (dry_run args) then
           try_except (update_keyword_bids bid_updates) (fun _ => ret tt)
         else ret tt
     end) ;;
    match audit_lines with
    | [] => ret tt
    | _ :: _ =>
        call (EvWriteAudit audit_lines) (fun tr => env_write_audit env tr)
    end
  else ret tt.

(** Step 4: keyword research and addition. *)
Definition step_keywords (args : Args) (rules : Rules) : M unit :=
  if negb (skip_keywords args) then
    try_except
      (let* ad_groups := get_ad_groups in
       research_and_add_keywords ad_groups rules (dry_run args) ;; ret tt)
      (fun _ => ret tt)
  else ret tt.

(** Step 5: new campaigns.  [find_products_without_campaigns] returns the
    empty list, so the loop over the products has no iteration. *)
Definition step_new_campaigns (args : Args) : M unit :=
  if negb (skip_new_campaigns args) then
    try_except (find_products_without_campaigns ;; ret tt) (fun _ => ret tt)
  else ret tt.

(** The run from the campaign rows on: Steps 2 to 5. *)
Definition run_from_campaign_rows (fuel : nat) (args : Args) (rules : Rules)
    (daypart_mult : float) (campaign_rows : list (gmap string string))
  : M unit :=
  let* campaign_performance := for_each add_campaign_row campaign_rows [] in
  step_campaigns args rules campaign_performance ;;
  step_bids fuel args rules daypart_mult ;;
  step_keywords args rules ;;
  step_new_campaigns args.

(** [main()], from the point where the profile is chosen and the rules are
    copied from [DEFAULT_RULES]; printing is left out. *)
Definition main (fuel : nat) (args : Args) : M unit :=
  let rules := DEFAULT_RULES in
  let* current_hour := now_hour in
  let* daypart_mult := get_dayparting_multiplier_now rules in
  let* campaign_rows := fetch_report_rows fuel rules "campaigns" in
  run_from_campaign_rows fuel args rules daypart_mult campaign_rows.

End Run.

(** ** Vocabulary of the properties *)

(** Running [m] only adds events that satisfy [P] to the trace. *)
Definition appends {A : Type} (P : Event -> Prop) (m : M A) : Prop :=
  forall tr : Trace, exists new : Trace, snd (m tr) = new ++ tr /\ Forall P new.

(** The event is not a call of a mutating collaborator method. *)
Definition read_only (ev : Event) : Prop := mutating ev = false.

(** What licenses a campaign action, given the campaign's entry: enough
    clicks, and either the deactivate branch on an enabled campaign or,
    the deactivate test having failed, the activate branch on a paused one. *)
Definition licensed (rules : Rules) (perf : Perf) (a : CampaignAction) : Prop :=
  let acos := default 0%float (perf_acos perf) in
  let current_state := default "enabled"%string (perf_state perf) in
  let clicks := default 0%Z (perf_clicks perf) in
  (min_clicks rules <= clicks)%Z
  /\ ca_acos a = acos
  /\ (((ca_action a = "paused"%string \/ ca_action a = "paused (dry-run)"%string)
       /\ current_state = "enabled"%string
       /\ flag (auto_deactivate_campaigns rules) = true
       /\ PyFloat.lt (deactivate_acos_threshold rules) acos)
      \/ ((ca_action a = "enabled"%string \/ ca_action a = "enabled (dry-run)"%string)
          /\ current_state = "paused"%string
          /\ ~ (flag (auto_deactivate_campaigns rules) = true
                /\ PyFloat.lt (deactivate_acos_threshold rules) acos)
          /\ flag (auto_activate_campaigns rules) = true
          /\ PyFloat.le acos (activate_acos_threshold rules))).

(** An action and the entry of [campaign_performance] it was emitted for. *)
Definition action_for (rules : Rules) (entry : option string * Perf)
    (a : CampaignAction) : Prop :=
  ca_campaign_id a = fst entry /\ licensed rules (snd entry) a.

(** A batch of candidate texts respects the ceiling of five and the dedupe
    set: the lower-cased texts are pairwise distinct and none is in
    [existing]. *)
Definition proposal_ok (py_lower : string -> string) (existing : gset string)
    (texts : list string) : Prop :=
  length texts <= 5
  /\ NoDup (py_lower <$> texts)
  /\ Forall (fun t => py_lower t ∉ existing) texts.

(** The event, if it is a call of [create_keywords], carries such a batch. *)
Definition creates_ok (py_lower : string -> string) (existing : gset string)
    (ev : Event) : Prop :=
  match ev with
  | EvCreateKeywords keywords =>
      proposal_ok py_lower existing (nk_keywordText <$> keywords)
  | _ => True
  end.

(** The existing keyword texts of an ad group, as the platform answers the
    [get_keywords] request made at trace [tr]. *)
Definition existing_at (env : Env) (py_lower : string -> string)
    (ad_group : AdGroup) (tr : Trace) : gset string :=
  let ad_group_id := ag_adGroupId ad_group in
  match env_get_keywords env tr
          (if nonempty ad_group_id then Some ad_group_id else None) with
  | Ok existing_keywords => existing_texts py_lower existing_keywords
  | Raise _ => ∅
  end.

(** The events of one polling round that finds the report pending, and the
    trace after [k] such rounds. *)
Definition poll_round (report_id : string) (interval : float) : Trace :=
  [EvSleep interval; EvReportStatus report_id; EvTime].

Fixpoint after_rounds (k : nat) (report_id : string) (interval : float)
    (tr : Trace) : Trace :=
  match k with
  | O => tr
  | S k' => poll_round report_id interval ++ after_rounds k' report_id interval tr
  end.

(** The status is none of SUCCESS, FAILURE and CANCELLED. *)
Definition pending_status (d : StatusData) : Prop :=
  sd_status d <> Some "SUCCESS"%string
  /\ sd_status d <> Some "FAILURE"%string
  /\ sd_status d <> Some "CANCELLED"%string.

(** A polling round started at trace [tr] finds the clock before the
    deadline and the report pending. *)
Definition round_pending (env : Env) (report_id : string) (deadline : float)
    (tr : Trace) : Prop :=
  PyFloat.lt (env_time env tr) deadline
  /\ exists d, env_report_status env (EvTime :: tr) report_id = Ok d
               /\ pending_status d.

(** ** The rule cascade as the specification words it

    Section 4.3 of the specification lists the bid rules as an ordered table
    of conditions and proposals, the first matching row winning.  The table
    below follows those words; [decide_bid_change] above follows the code. *)

Inductive BidRule : Type :=
| InsufficientData
| LowCTR
| NoSalesDespiteClicks
| HighACOS
| LowACOSWithSales
| DaypartingOnly.

Definition spec_rule_order : list BidRule :=
  [InsufficientData; LowCTR; NoSalesDespiteClicks; HighACOS; LowACOSWithSales;
   DaypartingOnly].

Definition spec_rule_fires (rules : Rules) (daypart_mult ctr acos : float)
    (clicks : Z) (cost sales : float) (r : BidRule) : bool :=
  match r with
  | InsufficientData =>
      (clicks <? min_clicks rules)%Z && (cost <? min_spend rules)%float
  | LowCTR =>
      (ctr <? default 0%float (min_ctr rules))%float
      && (clicks >=? min_clicks rules)%Z
  | NoSalesDespiteClicks =>
      (sales <=? 0)%float && (clicks >=? min_clicks rules)%Z
  | HighACOS => PyFloat.gtb acos (high_acos rules)
  | LowACOSWithSales => (acos <? low_acos rules)%float && PyFloat.gtb sales 0
  | DaypartingOnly => PyFloat.neqb daypart_mult 1.0
  end.

Definition spec_rule_proposal (rules : Rules) (daypart_mult current_bid : float)
    (r : BidRule) : option float :=
  match r with
  | InsufficientData => None
  | LowCTR | NoSalesDespiteClicks | HighACOS =>
      Some (clamp (current_bid * (1 - down_pct rules) * daypart_mult)%float
              (min_bid rules) (max_bid rules))
  | LowACOSWithSales =>
      Some (clamp (current_bid * (1 + up_pct rules) * daypart_mult)%float
              (min_bid rules) (max_bid rules))
  | DaypartingOnly =>
      Some (clamp (current_bid * daypart_mult)%float
              (min_bid rules) (max_bid rules))
  end.

(** The first rule of the table that fires, if any. *)
Definition spec_first_match (rules : Rules) (daypart_mult ctr acos : float)
    (clicks : Z) (cost sales : float) : option BidRule :=
  List.find (spec_rule_fires rules daypart_mult ctr acos clicks cost sales)
    spec_rule_order.

Definition spec_bid_cascade (rules : Rules) (current_hour : Z)
    (ctr acos : float) (clicks : Z) (cost sales current_bid : float)
  : option float :=
  let daypart_mult := get_dayparting_multiplier rules current_hour in
  match spec_first_match rules daypart_mult ctr acos clicks cost sales with
  | Some r => spec_rule_proposal rules daypart_mult current_bid r
  | None => None
  end.

(** The rows of the table below the insufficient-data guard. *)
Definition spec_rules_after_guard : list BidRule :=
  [LowCTR; NoSalesDespiteClicks; HighACOS; LowACOSWithSales; DaypartingOnly].

(** ** Sample inputs

    [float(s)] on an optionally signed string of decimal digits, the only
    cells the sample rows below hold: Python reads such a string as the float
    nearest to the integer it spells. *)

Fixpoint digits_value (s : string) (acc : Z) : option Z :=
  match s with
  | EmptyString => Some acc
  | String c s' =>
      let n := Z.of_N (N_of_ascii c) in
      if (48 <=? n)%Z && (n <=? 57)%Z
      then digits_value s' (10 * acc + (n - 48))%Z
      else None
  end.

Definition float_of_digits (s : string) : option float :=
  match s with
  | EmptyString => None
  | _ =>
      match digits_value s 0 with
      | Some z => match PyFloat.of_int z with Ok f => Some f | Raise _ => None end
      | None => None
      end
  end.

Definition float_of_int_literal (s : string) : option float :=
  match s with
  | String "-"%char s' => option_map PrimFloat.opp (float_of_digits s')
  | _ => float_of_digits s
  end.

(** A row of a report: column name to cell text. *)
Definition sample_row (clicks impressions cost sales : string)
  : gmap string string :=
  <["clicks" := clicks]>
    (<["impressions" := impressions]>
       (<["cost" := cost]> (<["attributedSales14d" := sales]> ∅))).

(** The rules with the dayparting, auto-add and keyword-research switches
    replaced. *)
Definition with_flags (r : Rules) (dayparting auto_add research : option bool)
  : Rules := {|
  lookback_days := lookback_days r;
  min_clicks := min_clicks r;
  min_spend := min_spend r;
  target_acos := target_acos r;
  high_acos := high_acos r;
  low_acos := low_acos r;
  min_ctr := min_ctr r;
  up_pct := up_pct r;
  down_pct := down_pct r;
  min_bid := min_bid r;
  max_bid := max_bid r;
  dayparting_enabled := dayparting;
  peak_hours := peak_hours r;
  peak_multiplier := peak_multiplier r;
  off_peak_multiplier := off_peak_multiplier r;
  auto_activate_campaigns := auto_activate_campaigns r;
  auto_deactivate_campaigns := auto_deactivate_campaigns r;
  deactivate_acos_threshold := deactivate_acos_threshold r;
  activate_acos_threshold := activate_acos_threshold r;
  auto_add_keywords := auto_add;
  keyword_research_enabled := research;
  max_keywords_per_campaign := max_keywords_per_campaign r;
  new_keyword_bid := new_keyword_bid r;
  auto_create_campaigns := auto_create_campaigns r;
  new_campaign_daily_budget := new_campaign_daily_budget r
|}.

(** The rules with the dayparting settings replaced. *)
Definition with_dayparting (r : Rules) (enabled : option bool)
    (hours : option (list Z)) (peak off_peak : option float) : Rules := {|
  lookback_days := lookback_days r;
  min_clicks := min_clicks r;
  min_spend := min_spend r;
  target_acos := target_acos r;
  high_acos := high_acos r;
  low_acos := low_acos r;
  min_ctr := min_ctr r;
  up_pct := up_pct r;
  down_pct := down_pct r;
  min_bid := min_bid r;
  max_bid := max_bid r;
  dayparting_enabled := enabled;
  peak_hours := hours;
  peak_multiplier := peak;
  off_peak_multiplier := off_peak;
  auto_activate_campaigns := auto_activate_campaigns r;
  auto_deactivate_campaigns := auto_deactivate_campaigns r;
  deactivate_acos_threshold := deactivate_acos_threshold r;
  activate_acos_threshold := activate_acos_threshold r;
  auto_add_keywords := auto_add_keywords r;
  keyword_research_enabled := keyword_research_enabled r;
  max_keywords_per_campaign := max_keywords_per_campaign r;
  new_keyword_bid := new_keyword_bid r;
  auto_create_campaigns := auto_create_campaigns r;
  new_campaign_daily_budget := new_campaign_daily_budget r
|}.

(** The default rules with dayparting switched off. *)
Definition RULES_NO_DAYPARTING : Rules :=
  with_flags DEFAULT_RULES (Some false) (Some true) (Some true).

(** [s.lower()] on ASCII text and [int(s)] on a string of decimal digits,
    for the sample runs. *)
Definition ascii_lower (c : ascii) : ascii :=
  let n := nat_of_ascii c in
  if (65 <=? n)%nat && (n <=? 90)%nat then ascii_of_nat (n + 32) else c.

Fixpoint lower_ascii (s : string) : string :=
  match s with
  | EmptyString => EmptyString
  | String c s' => String (ascii_lower c) (lower_ascii s')
  end.

Definition int_of_digits (s : string) : option Z :=
  match s with
  | EmptyString => None
  | _ => digits_value s 0
  end.

Definition float_of_nat (n : nat) : float :=
  match PyFloat.of_int (Z.of_nat n) with
  | Ok f => f
  | Raise _ => infinity
  end.

(** How often the status of a report has been asked for so far. *)
Definition polls_so_far (report_id : string) (tr : Trace) : nat :=
  length (List.filter (fun ev => match ev with
                            | EvReportStatus id => String.eqb id report_id
                            | _ => false
                            end) tr).

Definition sample_suggestion (text : string) : Suggestion :=
  {| sg_keywordText := Some text; sg_matchType := None |}.

(** A platform for the sample runs.  The clock advances one second per
    event.  A report is pending when first polled and settled from the
    second poll on: "r-failed" fails, "r-stuck" stays pending, any other
    report succeeds.  The campaign report gets the identifier given, the
    keyword report "r-keywords".  The campaign report has an enabled
    campaign with ACOS 0.6, a paused one with ACOS 0.1 and one with too few
    clicks. *)
Definition sample_env_with (campaign_report_id : string) : Env := {|
  env_time := fun tr => float_of_nat (length tr);
  env_hour := fun _ => 12%Z;
  env_create_report := fun _ report_type _ =>
    Ok (Some (if String.eqb report_type "campaigns" then campaign_report_id
              else "r-keywords"%string));
  env_report_status := fun tr report_id =>
    if (polls_so_far report_id tr =? 0)%nat || String.eqb report_id "r-stuck" then
      Ok {| sd_status := Some "IN_PROGRESS"%string; sd_location := None |}
    else if String.eqb report_id "r-failed" then
      Ok {| sd_status := Some "FAILURE"%string; sd_location := None |}
    else
      Ok {| sd_status := Some "SUCCESS"%string;
            sd_location := Some ("https://reports/" ++ report_id)%string |};
  env_download_report := fun _ url =>
    if String.eqb url "https://reports/r-campaigns" then
      Ok [ <["campaignId" := "101"%string]>
             (<["campaignStatus" := "enabled"%string]>
                (sample_row "20" "1000" "30" "50"));
           <["campaignId" := "102"%string]>
             (<["campaignStatus" := "paused"%string]>
                (sample_row "15" "1000" "3" "30"));
           <["campaignId" := "103"%string]>
             (<["campaignStatus" := "enabled"%string]>
                (sample_row "5" "1000" "30" "50")) ]
    else
      Ok [ <["keywordId" := "7"%string]>
             (<["keywordText" := "organic soil"%string]>
                (sample_row "20" "20000" "6" "50")) ];
  env_get_campaigns := fun _ => Ok tt;
  env_get_ad_groups := fun _ =>
    Ok [ {| ag_adGroupId := "55"; ag_campaignId := "101" |} ];
  env_get_product_ads := fun _ => Ok tt;
  env_get_keywords := fun _ _ =>
    Ok [ {| kw_keywordId := "7"; kw_keywordText := Some "Organic Soil"%string;
            kw_bid := Some 1.00%float |} ];
  env_get_keyword_suggestions := fun _ _ _ =>
    Ok (sample_suggestion <$>
          ["organic soil"; "Compost"; "compost"; "worm castings"; "Biochar";
           "liquid kelp"; "BIOCHAR"; "humic acid"; "bone meal"; "lawn food"]%string);
  env_create_keywords := fun _ keywords =>
    Ok ((fun _ => {| kr_code := Some "SUCCESS"%string |}) <$> keywords);
  env_update_keyword_bids := fun _ _ => Ok tt;
  env_update_campaign_state := fun _ _ _ => Ok tt;
  env_write_audit := fun _ => Ok tt
|}.

Definition sample_env : Env := sample_env_with "r-campaigns".

(** The campaign performance map of the sample campaign report. *)
Definition sample_campaign_performance : list (option string * Perf) :=
  [ (Some "101"%string,
     {| perf_acos := Some 0.6%float; perf_ctr := Some 0.02%float;
        perf_cost := Some 30%float; perf_sales := Some 50%float;
        perf_clicks := Some 20%Z; perf_state := Some "enabled"%string |});
    (Some "102"%string,
     {| perf_acos := Some 0.1%float; perf_ctr := Some 0.015%float;
        perf_cost := Some 3%float; perf_sales := Some 30%float;
        perf_clicks := Some 15%Z; perf_state := Some "paused"%string |});
    (Some "103"%string,
     {| perf_acos := Some 0.6%float; perf_ctr := Some 0.005%float;
        perf_cost := Some 30%float; perf_sales := Some 50%float;
        perf_clicks := Some 5%Z; perf_state := Some "enabled"%string |}) ].

Definition sample_ad_group : AdGroup :=
  {| ag_adGroupId := "55"; ag_campaignId := "101" |}.

(** The command line [--dry-run] and the empty command line. *)
Definition ARGS_DRY_RUN : Args :=
  {| dry_run := true; skip_bids := false; skip_campaigns := false;
     skip_keywords := false; skip_new_campaigns := false |}.

Definition ARGS_LIVE : Args :=
  {| dry_run := false; skip_bids := false; skip_campaigns := false;
     skip_keywords := false; skip_new_campaigns := false |}.

(** The sample runs carry the values to be rounded as they are. *)
Definition no_rounding (x : float) (ndigits : Z) : float := x.

(** The status a failed report is answered with. *)
Definition FAILED : StatusData :=
  {| sd_status := Some "FAILURE"%string; sd_location := None |}.

(** The hours of a day. *)
Definition hours_of_day : list Z := seqZ 0 24.

(** ** Further sample inputs and vocabulary *)

(** The rules with the bid bounds replaced. *)
Definition with_bid_bounds (r : Rules) (lo hi : float) : Rules := {|
  lookback_days := lookback_days r;
  min_clicks := min_clicks r;
  min_spend := min_spend r;
  target_acos := target_acos r;
  high_acos := high_acos r;
  low_acos := low_acos r;
  min_ctr := min_ctr r;
  up_pct := up_pct r;
  down_pct := down_pct r;
  min_bid := lo;
  max_bid := hi;
  dayparting_enabled := dayparting_enabled r;
  peak_hours := peak_hours r;
  peak_multiplier := peak_multiplier r;
  off_peak_multiplier := off_peak_multiplier r;
  auto_activate_campaigns := auto_activate_campaigns r;
  auto_deactivate_campaigns := auto_deactivate_campaigns r;
  deactivate_acos_threshold := deactivate_acos_threshold r;
  activate_acos_threshold := activate_acos_threshold r;
  auto_add_keywords := auto_add_keywords r;
  keyword_research_enabled := keyword_research_enabled r;
  max_keywords_per_campaign := max_keywords_per_campaign r;
  new_keyword_bid := new_keyword_bid r;
  auto_create_campaigns := auto_create_campaigns r;
  new_campaign_daily_budget := new_campaign_daily_budget r
|}.

(** The four columns [compute_kpis] reads. *)
Definition kpi_columns : list string :=
  ["clicks"; "impressions"; "cost"; "attributedSales14d"]%string.

(** The insufficient-data test of [decide_bid_change]. *)
Definition guarded (rules : Rules) (clicks : Z) (cost : float) : bool :=
  (clicks <? min_clicks rules)%Z && (cost <? min_spend rules)%float.

(** A computation raises only exceptions that satisfy [Q]. *)
Definition raises_only {A : Type} (Q : exn -> Prop) (m : M A) : Prop :=
  forall (tr : Trace) (e : exn), fst (m tr) = Exn e -> Q e.

(** A computation ends: it holds no polling loop cut short. *)
Definition no_diverge {A : Type} (m : M A) : Prop :=
  forall tr : Trace, fst (m tr) <> Diverge.

(** How [poll_report] ends when its last round starts at trace [t]: with
    the location of a report whose status is SUCCESS; with TimeoutError
    after a clock reading not before the deadline; or, the clock being
    before the deadline, with the exception of the status request, with
    RuntimeError on FAILURE or CANCELLED, or with KeyError on a SUCCESS that
    has no location. *)
Definition poll_end (env : Env) (report_id : string) (deadline : float)
    (t : Trace) (r : Res string * Trace) : Prop :=
  match r with
  | (Val location, tr') =>
      PyFloat.lt (env_time env t) deadline
      /\ tr' = EvReportStatus report_id :: EvTime :: t
      /\ exists d, env_report_status env (EvTime :: t) report_id = Ok d
                   /\ sd_status d = Some "SUCCESS"%string
                   /\ sd_location d = Some location
  | (Exn e, tr') =>
      (e = TimeoutError /\ ~ PyFloat.lt (env_time env t) deadline
       /\ tr' = EvTime :: t)
      \/ (PyFloat.lt (env_time env t) deadline
          /\ tr' = EvReportStatus report_id :: EvTime :: t
          /\ (env_report_status env (EvTime :: t) report_id = Raise e
              \/ exists d,
                  env_report_status env (EvTime :: t) report_id = Ok d
                  /\ ((e = RuntimeError
                       /\ (sd_status d = Some "FAILURE"%string
                           \/ sd_status d = Some "CANCELLED"%string))
                      \/ (e = KeyError
                          /\ sd_status d = Some "SUCCESS"%string
                          /\ sd_location d = None))))
  | (Diverge, _) => False
  end.

(** The first thing [m] does is the call [ev]: whatever [m] adds to the
    trace sits on top of that event. *)
Definition begins_with {A : Type} (ev : Event) (m : M A) : Prop :=
  forall tr : Trace, exists new : Trace, snd (m tr) = new ++ ev :: tr.

(** The command line [--skip-bids]. *)
Definition ARGS_SKIP_BIDS : Args :=
  {| dry_run := false; skip_bids := true; skip_campaigns := false;
     skip_keywords := false; skip_new_campaigns := false |}.

(** The event is neither a call of a mutating method nor the writing of the
    audit file. *)
Definition quiet (ev : Event) : Prop :=
  match ev with
  | EvCreateKeywords _ | EvUpdateKeywordBids _ | EvUpdateCampaignState _ _
  | EvWriteAudit _ => False
  | _ => True
  end.

(** A bid update and the audit line that goes with it: the update carries
    the keyword identifier of the line as a number and the line's new bid,
    which is the rounding of a bid within the bounds that differs from the
    keyword's current bid by more than 0.01. *)
Definition pushed (py_int_str : string -> option Z)
    (py_round : float -> Z -> float) (rules : Rules)
    (u : BidUpdate) (a : AuditLine) : Prop :=
  py_int_str (au_keyword_id a) = Some (bu_keywordId u)
  /\ bu_bid u = au_new_bid a
  /\ exists new_bid current_bid : float,
      au_new_bid a = py_round new_bid 2%Z
      /\ au_old_bid a = py_round current_bid 2%Z
      /\ PyFloat.le (min_bid rules) new_bid
      /\ PyFloat.le new_bid (max_bid rules)
      /\ PyFloat.lt 0.01 (abs (new_bid - current_bid)).

(** The events of the push and of the audit file at the end of Step 3. *)
Definition push_events (dry : bool) (updates : list BidUpdate) : Trace :=
  match updates with
  | [] => []
  | _ :: _ => if dry then [] else [EvUpdateKeywordBids updates]
  end.

Definition audit_events (lines : list AuditLine) : Trace :=
  match lines with
  | [] => []
  | _ :: _ => [EvWriteAudit lines]
  end.

(** A platform like the given one whose downloads are answered by [f]. *)
Definition with_download (e : Env)
    (f : Trace -> string -> Outcome (list (gmap string string))) : Env := {|
  env_time := env_time e;
  env_hour := env_hour e;
  env_create_report := env_create_report e;
  env_report_status := env_report_status e;
  env_download_report := f;
  env_get_campaigns := env_get_campaigns e;
  env_get_ad_groups := env_get_ad_groups e;
  env_get_product_ads := env_get_product_ads e;
  env_get_keywords := env_get_keywords e;
  env_get_keyword_suggestions := env_get_keyword_suggestions e;
  env_create_keywords := env_create_keywords e;
  env_update_keyword_bids := env_update_keyword_bids e;
  env_update_campaign_state := env_update_campaign_state e;
  env_write_audit := env_write_audit e
|}.

(** A sample platform whose reports hold a cost cell that is not a number. *)
Definition sample_env_bad_cell : Env :=
  with_download sample_env
    (fun _ _ => Ok [ <["campaignId" := "101"%string]>
                       (sample_row "20" "1000" "n/a" "50") ]).

(** [d.get(k)] on an insertion-ordered dict. *)
Fixpoint dict_get {K V : Type} `{EqDecision K} (k : K) (d : list (K * V))
  : option V :=
  match d with
  | [] => None
  | (k', v) :: d' => if decide (k = k') then Some v else dict_get k d'
  end.

(** The entry of [campaign_performance] that a report row gives. *)
Definition perf_of_row (py_float : string -> option float)
    (row : gmap string string) (perf : Perf) : Prop :=
  exists (ctr acos cost sales : float) (clicks : Z),
    compute_kpis py_float row = Ok (ctr, acos, cost, sales, clicks)
    /\ perf = {| perf_acos := Some acos; perf_ctr := Some ctr;
                 perf_cost := Some cost; perf_sales := Some sales;
                 perf_clicks := Some clicks;
                 perf_state :=
                   Some (default "enabled"%string (row !! "campaignStatus")) |}.

(** What identifies a campaign action apart from the dry-run mark: the
    campaign, the reason (pausing or enabling) and the ACOS. *)
Definition action_key (a : CampaignAction) : option string * string * float :=
  (ca_campaign_id a, ca_reason a, ca_acos a).

(** Campaign rows in which campaign 101 appears twice, first enabled with
    ACOS 0.6 and then paused with ACOS 0.1, and the map built from them. *)
Definition sample_campaign_rows : list (gmap string string) :=
  [ <["campaignId" := "101"%string]>
      (<["campaignStatus" := "enabled"%string]>
         (sample_row "20" "1000" "30" "50"));
    <["campaignId" := "102"%string]> (sample_row "15" "1000" "3" "30");
    <["campaignId" := "101"%string]>
      (<["campaignStatus" := "paused"%string]>
         (sample_row "15" "1000" "3" "30")) ].

Definition sample_campaign_map : list (option string * Perf) :=
  [ (Some "101"%string,
     {| perf_acos := Some (3 / 30)%float; perf_ctr := Some (15 / 1000)%float;
        perf_cost := Some 3%float; perf_sales := Some 30%float;
        perf_clicks := Some 15%Z; perf_state := Some "paused"%string |});
    (Some "102"%string,
     {| perf_acos := Some (3 / 30)%float; perf_ctr := Some (15 / 1000)%float;
        perf_cost := Some 3%float; perf_sales := Some 30%float;
        perf_clicks := Some 15%Z; perf_state := Some "enabled"%string |}) ].

(** The filter [get_keywords] sends for an ad group. *)
Definition keyword_filter (ad_group : AdGroup) : option string :=
  if nonempty (ag_adGroupId ad_group) then Some (ag_adGroupId ad_group)
  else None.

(** The text of a suggestion, as the loop reads it. *)
Definition suggestion_text (s : Suggestion) : string :=
  default ""%string (sg_keywordText s).

(** A candidate made for the ad group from one of the suggestions: the ad
    group's identifiers as numbers, state "enabled", the bid of the rules
    (0.50 when absent). *)
Definition candidate_of (py_int_str : string -> option Z) (rules : Rules)
    (campaign_id ad_group_id : string) (kw : NewKeyword) : Prop :=
  py_int_str campaign_id = Some (nk_campaignId kw)
  /\ py_int_str ad_group_id = Some (nk_adGroupId kw)
  /\ nk_state kw = "enabled"%string
  /\ nk_bid kw = default 0.50%float (new_keyword_bid rules).

(** The [create_keywords] event of a batch, none for the empty batch. *)
Definition create_events (batch : list NewKeyword) : Trace :=
  match batch with
  | [] => []
  | _ :: _ => [EvCreateKeywords batch]
  end.

(** A platform like the given one whose keyword requests are answered by
    [f]. *)
Definition with_keywords (e : Env)
    (f : Trace -> option string -> Outcome (list Keyword)) : Env := {|
  env_time := env_time e;
  env_hour := env_hour e;
  env_create_report := env_create_report e;
  env_report_status := env_report_status e;
  env_download_report := env_download_report e;
  env_get_campaigns := env_get_campaigns e;
  env_get_ad_groups := env_get_ad_groups e;
  env_get_product_ads := env_get_product_ads e;
  env_get_keywords := f;
  env_get_keyword_suggestions := env_get_keyword_suggestions e;
  env_create_keywords := env_create_keywords e;
  env_update_keyword_bids := env_update_keyword_bids e;
  env_update_campaign_state := env_update_campaign_state e;
  env_write_audit := env_write_audit e
|}.

(** A platform like the given one whose [create_keywords] calls are
    answered by [f], and a sample platform that refuses them. *)
Definition with_create_keywords (e : Env)
    (f : Trace -> list NewKeyword -> Outcome (list KeywordResult)) : Env := {|
  env_time := env_time e;
  env_hour := env_hour e;
  env_create_report := env_create_report e;
  env_report_status := env_report_status e;
  env_download_report := env_download_report e;
  env_get_campaigns := env_get_campaigns e;
  env_get_ad_groups := env_get_ad_groups e;
  env_get_product_ads := env_get_product_ads e;
  env_get_keywords := env_get_keywords e;
  env_get_keyword_suggestions := env_get_keyword_suggestions e;
  env_create_keywords := f;
  env_update_keyword_bids := env_update_keyword_bids e;
  env_update_campaign_state := env_update_campaign_state e;
  env_write_audit := env_write_audit e
|}.

Definition sample_env_create_fails : Env :=
  with_create_keywords sample_env (fun _ _ => Raise HTTPError).

(** A platform like the given one whose report requests are answered by
    [f], and a sample platform on which every report fails. *)
Definition with_create_report (e : Env)
    (f : Trace -> string -> Z -> Outcome (option string)) : Env := {|
  env_time := env_time e;
  env_hour := env_hour e;
  env_create_report := f;
  env_report_status := env_report_status e;
  env_download_report := env_download_report e;
  env_get_campaigns := env_get_campaigns e;
  env_get_ad_groups := env_get_ad_groups e;
  env_get_product_ads := env_get_product_ads e;
  env_get_keywords := env_get_keywords e;
  env_get_keyword_suggestions := env_get_keyword_suggestions e;
  env_create_keywords := env_create_keywords e;
  env_update_keyword_bids := env_update_keyword_bids e;
  env_update_campaign_state := env_update_campaign_state e;
  env_write_audit := env_write_audit e
|}.

Definition sample_env_reports_fail : Env :=
  with_create_report sample_env (fun _ _ _ => Ok (Some "r-failed"%string)).

(** The sample suggestions, and a sample platform on which every ad group
    already has fifty keywords. *)
Definition sample_suggestions : list Suggestion :=
  sample_suggestion <$>
    ["organic soil"; "Compost"; "compost"; "worm castings"]%string.

Definition sample_env_full : Env :=
  with_keywords sample_env
    (fun _ _ => Ok (replicate 50 {| kw_keywordId := "7";
                                    kw_keywordText := Some "soil"%string;
                                    kw_bid := None |})).

Definition sample_candidate (text : string) : NewKeyword :=
  {| nk_campaignId := 101; nk_adGroupId := 55; nk_keywordText := text;
     nk_matchType := "broad"; nk_state := "enabled"; nk_bid := 0.50 |}.

(** ** Start-up: credentials, token, endpoint and profile *)

(** A parsed JSON value, as [json.load] and [r.json()] give it.  The
    fields of an object are those of the Python dict, one per key. *)
#[local] Unset Elimination Schemes.
Inductive Json : Type :=
| JNull
| JBool (b : bool)
| JInt (z : Z)
| JFloat (f : float)
| JStr (s : string)
| JArr (items : list Json)
| JObj (fields : list (string * Json)).
#[local] Set Elimination Schemes.

(** Truth value of a parsed value in a condition. *)
Definition json_truthy (v : Json) : bool :=
  match v with
  | JNull => false
  | JBool b => b
  | JInt z => negb (z =? 0)%Z
  | JFloat f => PyFloat.truthy f
  | JStr s => nonempty s
  | JArr items => match items with [] => false | _ => true end
  | JObj fields => match fields with [] => false | _ => true end
  end.

(** The entry of a dict for a key. *)
Definition fields_get (fields : list (string * Json)) (key : string)
  : option Json :=
  snd <$> List.find (fun kv => String.eqb (fst kv) key) fields.

(** [v.get(key, dflt)]; [None] is the AttributeError of a value that is
    not a dict. *)
Definition json_get (v : Json) (key : string) (dflt : Json) : option Json :=
  match v with
  | JObj fields => Some (default dflt (fields_get fields key))
  | _ => None
  end.

(** [v[key]] with a string key; [None] is the KeyError of an absent key
    or the TypeError of a value that is not a dict. *)
Definition json_item (v : Json) (key : string) : option Json :=
  match v with
  | JObj fields => fields_get fields key
  | _ => None
  end.

(** How a stretch of the program ends that can call [sys.exit]. *)
Inductive Exit (A : Type) : Type :=
| Returns (a : A)
| SysExit (code : Z).
Arguments Returns {A} a.
Arguments SysExit {A} code.

(** The secrets file: absent, present but not readable as JSON ([open] or
    [json.load] raises), or parsed. *)
Inductive SecretsFile : Type :=
| NoSecretsFile
| UnreadableSecretsFile
| SecretsJson (data : Json).

Definition SECRET_NAMES : list string :=
  ["client_id"; "client_secret"; "refresh_token"; "access_token"]%string.

(** The required credentials with their environment variables. *)
Definition REQUIRED_CREDENTIALS : list (string * string) :=
  [("client_id", "AMAZON_CLIENT_ID");
   ("client_secret", "AMAZON_CLIENT_SECRET");
   ("refresh_token", "AMAZON_REFRESH_TOKEN")]%string.

(** [amazon_api.get(name, {}).get("value", "")] *)
Definition read_secret (amazon_api : Json) (name : string) : option Json :=
  match json_get amazon_api name (JObj []) with
  | Some entry => json_get entry "value" (JStr "")
  | None => None
  end.

(** The assignments to [creds] inside the [try]: the first that raises
    ends them, and the entries assigned before it stay. *)
Fixpoint read_secrets (amazon_api : Json) (names : list string)
    (creds : gmap string Json) : gmap string Json :=
  match names with
  | [] => creds
  | name :: names' =>
      match read_secret amazon_api name with
      | Some v => read_secrets amazon_api names' (<[name := v]> creds)
      | None => creds
      end
  end.

(** [data.get("amazon advertising api", {}).get("secrets", {})] *)
Definition secrets_object (data : Json) : option Json :=
  match json_get data "amazon advertising api" (JObj []) with
  | Some section => json_get section "secrets" (JObj [])
  | None => None
  end.

(** [creds] after the secrets file has been tried. *)
Definition creds_from_file (file : SecretsFile) : gmap string Json :=
  match file with
  | SecretsJson data =>
      match secrets_object data with
      | Some amazon_api => read_secrets amazon_api SECRET_NAMES ∅
      | None => ∅
      end
  | NoSecretsFile | UnreadableSecretsFile => ∅
  end.

(** [creds.get(key)] used as a condition. *)
Definition creds_truthy (creds : gmap string Json) (key : string) : bool :=
  match creds !! key with
  | Some v => json_truthy v
  | None => false
  end.

Section Startup.
(** [os.getenv(name)]: the value of an environment variable, if set. *)
Variable getenv : string -> option string.

(** [if not creds.get(key): creds[key] = os.getenv(var, "")] *)
Definition env_fallback (key var : string) (creds : gmap string Json)
  : gmap string Json :=
  if creds_truthy creds key then creds
  else <[key := JStr (default ""%string (getenv var))]> creds.

Definition load_credentials (file : SecretsFile) : Exit (gmap string Json) :=
  let creds := creds_from_file file in
  let creds := env_fallback "client_id" "AMAZON_CLIENT_ID" creds in
  let creds := env_fallback "client_secret" "AMAZON_CLIENT_SECRET" creds in
  let creds := env_fallback "refresh_token" "AMAZON_REFRESH_TOKEN" creds in
  if creds_truthy creds "client_id" && creds_truthy creds "client_secret"
     && creds_truthy creds "refresh_token"
  then Returns creds
  else SysExit 2.

(** Where a required credential comes from: the secrets file when it gave
    a truthy value, else the environment variable, empty when unset. *)
Definition credential (file : SecretsFile) (key var : string) : Json :=
  if creds_truthy (creds_from_file file) key
  then default JNull (creds_from_file file !! key)
  else JStr (default ""%string (getenv var)).

(** The [Auth] dataclass. *)
Record Auth : Type := {
  access_token : Json;
  token_type : Json;
  expires_at : float;
  client_id : Json
}.

(** [int(s)] on a string; [None] is the ValueError. *)
Variable py_int_str : string -> option Z.

(** [int(v)] on a parsed value; [None] is the exception it raises. *)
Definition json_int (v : Json) : option Z :=
  match v with
  | JInt z => Some z
  | JBool b => Some (if b then 1 else 0)%Z
  | JFloat f => match PyFloat.py_int f with Ok z => Some z | Raise _ => None end
  | JStr s => py_int_str s
  | JNull | JArr _ | JObj _ => None
  end.

(** The body of the [try] of [oauth]: the token request, answered by
    [post_token] for the refresh token, client id and client secret sent
    ([None] when the request, [raise_for_status] or [r.json()] raises), and
    the making of the [Auth] at the clock reading [now]; [None] is any
    exception. *)
Definition request_token
    (post_token : Json -> Json -> Json -> option Json) (now : float)
    (refresh_token client_id client_secret : Json) : option Auth :=
  match post_token refresh_token client_id client_secret with
  | None => None
  | Some data =>
      match json_item data "access_token" with
      | None => None
      | Some token =>
          match json_get data "token_type" (JStr "Bearer") with
          | None => None
          | Some kind =>
              match json_get data "expires_in" (JInt 3600) with
              | None => None
              | Some expires_in =>
                  match json_int expires_in with
                  | None => None
                  | Some seconds =>
                      match PyFloat.of_int seconds with
                      | Raise _ => None
                      | Ok delta =>
                          Some {| access_token := token;
                                  token_type := kind;
                                  expires_at := (now + delta)%float;
                                  client_id := client_id |}
                      end
                  end
              end
          end
      end
  end.

(** [creds[key]] *)
Definition creds_item (creds : gmap string Json) (key : string)
  : Outcome Json :=
  match creds !! key with
  | Some v => Ok v
  | None => Raise KeyError
  end.

Definition oauth (file : SecretsFile)
    (post_token : Json -> Json -> Json -> option Json) (now : float)
  : Outcome (Exit Auth) :=
  match load_credentials file with
  | SysExit code => Ok (SysExit code)
  | Returns creds =>
      (let? refresh_token := creds_item creds "refresh_token" in
       let? client_id := creds_item creds "client_id" in
       let? client_secret := creds_item creds "client_secret" in
       match request_token post_token now refresh_token client_id
               client_secret with
       | Some auth => Ok (Returns auth)
       | None => Ok (SysExit 1)
       end)%outcome
  end.

Definition ENDPOINT_NA : string := "https://advertising-api.amazon.com".
Definition ENDPOINT_EU : string := "https://advertising-api-eu.amazon.com".
Definition ENDPOINT_FE : string := "https://advertising-api-fe.amazon.com".

Definition ENDPOINTS : gmap string string :=
  <["NA"%string := ENDPOINT_NA]>
    (<["EU"%string := ENDPOINT_EU]> (<["FE"%string := ENDPOINT_FE]> ∅)).

(** [s.upper()] *)
Variable py_upper : string -> string.

(** [os.getenv("AMAZON_API_SCOPE", "NA")] *)
Definition env_scope : string :=
  default "NA"%string (getenv "AMAZON_API_SCOPE").

Definition resolve_endpoint (scope : option string) : string :=
  let scope := match scope with
               | Some s => if nonempty s then s else py_upper env_scope
               | None => py_upper env_scope
               end in
  default ENDPOINT_NA (ENDPOINTS !! scope).

(** [base] in [main]: [--scope] defaults to the environment variable, and
    the text is handed to [resolve_endpoint]. *)
Definition main_endpoint (cli_scope : option string) : string :=
  resolve_endpoint (Some (default env_scope cli_scope)).

(** [str(v)] on a parsed value. *)
Variable py_str : Json -> string.

(** [str(p.get("profileId"))] *)
Definition profile_id_text (p : list (string * Json)) : string :=
  match fields_get p "profileId" with
  | Some v => py_str v
  | None => "None"
  end.

(** The choice of the profile in [main], from the profiles that
    [get_profiles] returned (a list of dicts) and [--profile-id]: the
    profile identifier the run uses, [sys.exit(1)], or the KeyError of
    [profile["profileId"]]. *)
Definition select_profile (profiles : list (list (string * Json)))
    (profile_id : option string) : Outcome (Exit string) :=
  match profiles with
  | [] => Ok (SysExit 1)
  | first :: _ =>
      let wanted := match profile_id with
                    | Some w => if nonempty w then Some w else None
                    | None => None
                    end in
      let profile :=
        match wanted with
        | Some w =>
            List.find (fun p => String.eqb (profile_id_text p) w) profiles
        | None => Some first
        end in
      match profile with
      | None | Some [] => Ok (SysExit 1)
      | Some p =>
          match fields_get p "profileId" with
          | Some v => Ok (Returns (py_str v))
          | None => Raise KeyError
          end
      end
  end.
End Startup.

(** ** New campaign creation *)

Module NewCampaign.

(** A product of the catalogue, with the keys the program reads. *)
Record Product : Type := {
  pr_asin : option string;
  pr_sku : option string;
  pr_name : option string
}.

(** The calls of campaign creation. *)
Inductive Event : Type :=
| EvNow (format : string)
| EvCreateCampaign (name : string) (daily_budget : float) (start_date : string)
| EvCreateAdGroup (campaign_id : Z) (name : string) (default_bid : float)
| EvCreateProductAd (campaign_id ad_group_id : Z) (sku asin : option string).

Definition Trace : Type := list Event.

Definition creation (ev : Event) : bool :=
  match ev with
  | EvNow _ => false
  | _ => true
  end.

(** The answers of the outside world.  Of a creation call the program only
    reads [str(result[0].get(id_key))]: [None] stands for any exception on
    the way to it (the request, [raise_for_status], [r.json()], an empty
    list), and an answer without the key reads as the text "None". *)
Record Env : Type := {
  env_now : Trace -> string -> string;
  env_create_campaign : Trace -> string -> float -> string -> option string;
  env_create_ad_group : Trace -> Z -> string -> float -> option string;
  env_create_product_ad :
    Trace -> Z -> Z -> option string -> option string -> option unit
}.

(** What [create_campaign_for_product] returns: the dict, with the two
    identifiers that only a live run records. *)
Record Created : Type := {
  cr_asin : option string;
  cr_campaign_id : option string;
  cr_campaign_name : string;
  cr_ad_group_id : option string;
  cr_daily_budget : float;
  cr_status : string
}.

Section Create.
Variable env : Env.
Variable py_int_str : string -> option Z.

(** A computation inside the [try]: [None] is an exception. *)
Definition T (A : Type) : Type := Trace -> option A * Trace.

(** [datetime.now().strftime(format)] *)
Definition now_text (format : string) : T string :=
  fun tr => (Some (env_now env tr format), EvNow format :: tr).

Definition create_campaign (name : string) (daily_budget : float) : T string :=
  fun tr =>
    match now_text "%Y%m%d" tr with
    | (Some start_date, tr1) =>
        (env_create_campaign env tr1 name daily_budget start_date,
         EvCreateCampaign name daily_budget start_date :: tr1)
    | (None, tr1) => (None, tr1)
    end.

Definition create_ad_group (campaign_id name : string) (default_bid : float)
  : T string :=
  fun tr =>
    match py_int_str campaign_id with
    | None => (None, tr)
    | Some cid =>
        (env_create_ad_group env tr cid name default_bid,
         EvCreateAdGroup cid name default_bid :: tr)
    end.

Definition create_product_ad (campaign_id ad_group_id : string)
    (sku asin : option string) : T unit :=
  fun tr =>
    match py_int_str campaign_id with
    | None => (None, tr)
    | Some cid =>
        match py_int_str ad_group_id with
        | None => (None, tr)
        | Some gid =>
            (env_create_product_ad env tr cid gid sku asin,
             EvCreateProductAd cid gid sku asin :: tr)
        end
    end.

(** [str(x)] of a text that may be [None]. *)
Definition str_of_optional (s : option string) : string :=
  default "None"%string s.

Definition product_name (product : Product) : string :=
  default ("Product " ++ str_of_optional (pr_asin product))%string
    (pr_name product).

Definition campaign_name (product : Product) (date : string) : string :=
  ("Auto - " ++ product_name product ++ " - " ++ date)%string.

Definition create_campaign_for_product (product : Product) (rules : Rules)
    (dry_run : bool) : T Created :=
  fun tr =>
    if negb (flag (auto_create_campaigns rules)) then (None, tr)
    else
      let asin := pr_asin product in
      let sku := pr_sku product in
      match now_text "%Y-%m-%d" tr with
      | (None, tr1) => (None, tr1)
      | (Some date, tr1) =>
          let name := campaign_name product date in
          let daily_budget :=
            default 10.00%float (new_campaign_daily_budget rules) in
          if dry_run then
            (Some {| cr_asin := asin; cr_campaign_id := None;
                     cr_campaign_name := name; cr_ad_group_id := None;
                     cr_daily_budget := daily_budget;
                     cr_status := "dry-run" |}, tr1)
          else
            match create_campaign name daily_budget tr1 with
            | (None, tr2) => (None, tr2)
            | (Some campaign_id, tr2) =>
                match create_ad_group campaign_id
                        ("AG - " ++ product_name product)%string 0.50 tr2 with
                | (None, tr3) => (None, tr3)
                | (Some ad_group_id, tr3) =>
                    match create_product_ad campaign_id ad_group_id sku asin
                            tr3 with
                    | (None, tr4) => (None, tr4)
                    | (Some _, tr4) =>
                        (Some {| cr_asin := asin;
                                 cr_campaign_id := Some campaign_id;
                                 cr_campaign_name := name;
                                 cr_ad_group_id := Some ad_group_id;
                                 cr_daily_budget := daily_budget;
                                 cr_status := "created" |}, tr4)
                    end
                end
            end
      end.
End Create.

(** The creation calls of a complete live run, in the order made. *)
Definition full_sequence (name : string) (daily_budget : float)
    (start_date : string) (cid gid : Z) (group_name : string)
    (sku asin : option string) : list Event :=
  [EvNow "%Y%m%d"; EvCreateCampaign name daily_budget start_date;
   EvCreateAdGroup cid group_name 0.50; EvCreateProductAd cid gid sku asin].

(** A sample world: the clock gives fixed texts and the platform numbers
    what it creates; [fail_ad_group] makes ad group creation fail. *)
Definition sample_env (fail_ad_group : bool) : Env := {|
  env_now := fun _ format =>
    if String.eqb format "%Y%m%d" then "20240102"%string
    else "2024-01-02"%string;
  env_create_campaign := fun _ _ _ _ => Some "11"%string;
  env_create_ad_group := fun _ _ _ _ =>
    if fail_ad_group then None else Some "22"%string;
  env_create_product_ad := fun _ _ _ _ _ => Some tt
|}.

Definition sample_product : Product :=
  {| pr_asin := Some "B000TEST01"%string; pr_sku := Some "SKU-1"%string;
     pr_name := None |}.
End NewCampaign.

(** Sample built-ins and inputs of start-up. *)
Definition ascii_upper (c : ascii) : ascii :=
  let n := nat_of_ascii c in
  if (97 <=? n)%nat && (n <=? 122)%nat then ascii_of_nat (n - 32) else c.

Fixpoint upper_ascii (s : string) : string :=
  match s with
  | EmptyString => EmptyString
  | String c s' => String (ascii_upper c) (upper_ascii s')
  end.

Definition env_of (vars : list (string * string)) (name : string)
  : option string :=
  snd <$> List.find (fun kv => String.eqb (fst kv) name) vars.

Definition secret_entry (value : Json) : Json := JObj [("value"%string, value)].

Definition secrets_data (secrets : list (string * Json)) : Json :=
  JObj [("amazon advertising api"%string,
         JObj [("secrets"%string, JObj secrets)])].

(** [str(v)] on the identifiers of the sample profiles: texts as they are;
    other values are not printed in the samples. *)
Definition str_of_text (v : Json) : string :=
  match v with
  | JStr s => s
  | JNull => "None"
  | _ => "?"
  end.

(** * Properties *)

(** ** Order facts about binary64 comparisons *)

Module PyFloatFacts.
Import PyFloat.
Local Open Scope float_scope.

Lemma SFcompare_Eq_sym (x y : spec_float) :
  SFcompare x y = Some Eq -> SFcompare y x = Some Eq.
Proof.
  destruct x as [sx|sx| |sx mx ex], y as [sy|sy| |sy my ey]; simpl;
    try destruct sx; try destruct sy; simpl; try discriminate; try reflexivity.
  all: destruct (ex ?= ey)%Z eqn:E; try discriminate;
    destruct (Pos.compare_cont Eq mx my) eqn:M; simpl; try discriminate;
    apply Z.compare_eq in E; apply Pcompare_Eq_eq in M; subst;
    rewrite Z.compare_refl, Pcompare_refl; reflexivity.
Qed.

Lemma SFcompare_Eq_trans (x y z : spec_float) :
  SFcompare x y = Some Eq -> SFcompare y z = Some Eq -> SFcompare x z = Some Eq.
Proof.
  destruct x as [sx|sx| |sx mx ex], y as [sy|sy| |sy my ey]; simpl;
    try destruct sx; try destruct sy; simpl; try discriminate; try (intros _; exact id).
  all: destruct (ex ?= ey)%Z eqn:E; try discriminate;
    destruct (Pos.compare_cont Eq mx my) eqn:M; simpl; try discriminate;
    apply Z.compare_eq in E; apply Pcompare_Eq_eq in M; subst; intros _; exact id.
Qed.

Lemma SFcompare_refl (x y : spec_float) (c : comparison) :
  SFcompare x y = Some c -> SFcompare x x = Some Eq.
Proof.
  destruct x as [sx|sx| |sx mx ex]; simpl; try discriminate; intros _;
    try destruct sx; try reflexivity;
    rewrite Z.compare_refl, Pcompare_refl; reflexivity.
Qed.

Lemma SFcompare_refl_r (x y : spec_float) (c : comparison) :
  SFcompare x y = Some c -> SFcompare y y = Some Eq.
Proof.
  destruct y as [sy|sy| |sy my ey]; simpl.
  1,2,4: intros _; try destruct sy; try reflexivity;
    rewrite Z.compare_refl, Pcompare_refl; reflexivity.
  destruct x; discriminate.
Qed.

Ltac float_cmp :=
  unfold lt, le, eq, gtb, neqb in *;
  rewrite ?ltb_spec, ?leb_spec, ?FloatAxioms.eqb_spec in *;
  unfold SFltb, SFleb, SFeqb in *.

Lemma lt_le (x y : float) : lt x y -> le x y.
Proof. float_cmp. destruct (SFcompare _ _) as [[]|]; congruence. Qed.

Lemma le_refl_l (x y : float) : le x y -> le x x.
Proof.
  float_cmp. destruct (SFcompare (Prim2SF x) (Prim2SF y)) as [c|] eqn:E;
    [|discriminate]. intros _. now rewrite (SFcompare_refl _ _ _ E).
Qed.

Lemma le_refl_r (x y : float) : le x y -> le y y.
Proof.
  float_cmp. destruct (SFcompare (Prim2SF x) (Prim2SF y)) as [c|] eqn:E;
    [|discriminate]. intros _. now rewrite (SFcompare_refl_r _ _ _ E).
Qed.

Lemma le_eq_refl (x y : float) : le x y -> eq x x.
Proof.
  float_cmp. destruct (SFcompare (Prim2SF x) (Prim2SF y)) as [c|] eqn:E;
    [|discriminate]. intros _. now rewrite (SFcompare_refl _ _ _ E).
Qed.

Lemma le_not_lt_eq (x y : float) : le x y -> (x <? y) = false -> eq x y.
Proof. float_cmp. destruct (SFcompare _ _) as [[]|]; congruence. Qed.

Lemma eq_sym (x y : float) : eq x y -> eq y x.
Proof.
  float_cmp. destruct (SFcompare (Prim2SF x) (Prim2SF y)) as [[]|] eqn:E;
    try discriminate. intros _. now rewrite (SFcompare_Eq_sym _ _ E).
Qed.

Lemma eq_trans (x y z : float) : eq x y -> eq y z -> eq x z.
Proof.
  float_cmp.
  destruct (SFcompare (Prim2SF x) (Prim2SF y)) as [[]|] eqn:E1; try discriminate.
  destruct (SFcompare (Prim2SF y) (Prim2SF z)) as [[]|] eqn:E2; try discriminate.
  intros _ _. now rewrite (SFcompare_Eq_trans _ _ _ E1 E2).
Qed.

Lemma eq_not_gt (x y : float) : eq x y -> gtb x y = false.
Proof.
  intros H. apply eq_sym in H. revert H. float_cmp.
  destruct (SFcompare _ _) as [[]|]; congruence.
Qed.

Lemma eq_not_truthy (x : float) : eq x 0 -> truthy x = false.
Proof. unfold truthy, neqb, eq. now intros ->. Qed.
End PyFloatFacts.

(** ** Sample evaluations *)

Example compute_kpis_sample_6_0 :
  compute_kpis float_of_int_literal (sample_row "20" "100" "6" "0")
  = Ok (0.2, infinity, 6, 0, 20%Z)%float.
Proof. vm_compute. reflexivity. Qed.

Example compute_kpis_sample_0_0 :
  compute_kpis float_of_int_literal (sample_row "20" "100" "0" "0")
  = Ok (0.2, 0, 0, 0, 20%Z)%float.
Proof. vm_compute. reflexivity. Qed.

Example compute_kpis_sample_6_12 :
  compute_kpis float_of_int_literal (sample_row "20" "100" "6" "12")
  = Ok (0.2, 0.5, 6, 12, 20%Z)%float.
Proof. vm_compute. reflexivity. Qed.

Example compute_kpis_sample_empty :
  compute_kpis float_of_int_literal ∅ = Ok (0, 0, 0, 0, 0%Z)%float.
Proof. vm_compute. reflexivity. Qed.

Example py_int_truncates :
  PyFloat.py_int 20.7%float = Ok 20%Z /\ PyFloat.py_int (-20.7)%float = Ok (-20)%Z
  /\ PyFloat.py_int infinity = Raise OverflowError.
Proof. vm_compute. auto. Qed.

(** ** The KPI normalizer *)

Section KpiFacts.
Variable py_float : string -> option float.
Import PyFloat PyFloatFacts.

(** What [compute_kpis] returns, field by field. *)
Lemma compute_kpis_inv (row : gmap string string)
    (ctr acos cost sales : float) (clicks : Z) :
  compute_kpis py_float row = Ok (ctr, acos, cost, sales, clicks) ->
  exists fclicks impressions,
    cell_float py_float row "clicks" = Ok fclicks
    /\ py_int fclicks = Ok clicks
    /\ cell_float py_float row "impressions" = Ok impressions
    /\ cell_float py_float row "cost" = Ok cost
    /\ cell_float py_float row "attributedSales14d" = Ok sales
    /\ (if truthy impressions
        then exists c, of_int clicks = Ok c /\ ctr = (c / impressions)%float
        else ctr = 0%float)
    /\ acos = (if gtb sales 0 then (cost / sales)%float
               else if gtb cost 0 then inf else 0%float).
Proof.
  unfold compute_kpis, obind.
  destruct (cell_float py_float row "clicks") as [fclicks|]; [|discriminate].
  destruct (py_int fclicks) as [k|] eqn:Hk; [|discriminate].
  destruct (cell_float py_float row "impressions") as [imp|]; [|discriminate].
  destruct (cell_float py_float row "cost") as [co|]; [|discriminate].
  destruct (cell_float py_float row "attributedSales14d") as [sa|]; [|discriminate].
  destruct (truthy imp) eqn:Himp.
  - destruct (of_int k) as [c|] eqn:Hc; [|discriminate].
    intros [= <- <- <- <- <-]. exists fclicks, imp. rewrite Himp.
    repeat split; eauto.
  - intros [= <- <- <- <- <-]. exists fclicks, imp. rewrite Himp.
    repeat split; eauto.
Qed.

(** [compute_kpis] returns whenever the four cells read as numbers and the
    clicks are finite. *)
Lemma compute_kpis_returns (row : gmap string string)
    (fclicks impressions cost sales : float) (clicks : Z) :
  cell_float py_float row "clicks" = Ok fclicks ->
  py_int fclicks = Ok clicks ->
  cell_float py_float row "impressions" = Ok impressions ->
  cell_float py_float row "cost" = Ok cost ->
  cell_float py_float row "attributedSales14d" = Ok sales ->
  (truthy impressions = true -> exists c, of_int clicks = Ok c) ->
  exists ctr acos,
    compute_kpis py_float row = Ok (ctr, acos, cost, sales, clicks).
Proof.
  intros Hf Hk Hi Hc Hs Hof. unfold compute_kpis, obind.
  rewrite Hf, Hk, Hi, Hc, Hs. destruct (truthy impressions).
  - destruct (Hof eq_refl) as [c ->]. eauto.
  - eauto.
Qed.

(** An absent or empty cell reads as zero. *)
Lemma cell_float_missing (row : gmap string string) (k : string) :
  row !! k = None \/ row !! k = Some ""%string ->
  cell_float py_float row k = Ok 0%float.
Proof. unfold cell_float. intros [-> | ->]; reflexivity. Qed.
End KpiFacts.

(** C2. [compute_kpis] returns on every performance record whose four
    cells read as numbers with finite clicks; and on every record on which
    it returns, the cost and sales it returns are the record's cost and
    attributed-sales cells, and the ACOS is [cost / sales] when [sales > 0],
    positive infinity when [sales == 0] and [cost > 0], and zero when
    [cost == 0] and [sales == 0]. *)
Theorem compute_kpis_acos (py_float : string -> option float)
    (row : gmap string string) :
  (forall (fclicks impressions cost sales : float) (clicks : Z),
      cell_float py_float row "clicks" = Ok fclicks ->
      PyFloat.py_int fclicks = Ok clicks ->
      cell_float py_float row "impressions" = Ok impressions ->
      cell_float py_float row "cost" = Ok cost ->
      cell_float py_float row "attributedSales14d" = Ok sales ->
      (PyFloat.truthy impressions = true ->
       exists c, PyFloat.of_int clicks = Ok c) ->
      exists ctr acos,
        compute_kpis py_float row = Ok (ctr, acos, cost, sales, clicks))
  /\ (forall (ctr acos cost sales : float) (clicks : Z),
         compute_kpis py_float row = Ok (ctr, acos, cost, sales, clicks) ->
         cell_float py_float row "cost" = Ok cost
         /\ cell_float py_float row "attributedSales14d" = Ok sales
         /\ (PyFloat.lt 0 sales -> acos = (cost / sales)%float)
         /\ (PyFloat.eq sales 0 -> PyFloat.lt 0 cost -> acos = infinity)
         /\ (PyFloat.eq cost 0 -> PyFloat.eq sales 0 -> acos = 0%float)).
Proof.
  split; [apply compute_kpis_returns|].
  intros ctr acos cost sales clicks H. apply compute_kpis_inv in H
    as (fclicks & imp & _ & _ & _ & Hcost & Hsales & _ & ->).
  repeat split; auto.
  - intros Hs. unfold PyFloat.gtb. now rewrite Hs.
  - intros Hs Hc. rewrite (PyFloatFacts.eq_not_gt _ _ Hs).
    unfold PyFloat.gtb. now rewrite Hc.
  - intros Hc Hs. now rewrite (PyFloatFacts.eq_not_gt _ _ Hs),
      (PyFloatFacts.eq_not_gt _ _ Hc).
Qed.

Lemma compute_kpis_acos_witness :
  cell_float float_of_int_literal (sample_row "20" "100" "6" "12") "cost"
    = Ok 6%float
  /\ cell_float float_of_int_literal (sample_row "20" "100" "6" "12")
       "attributedSales14d" = Ok 12%float
  /\ (PyFloat.lt 0 12 -> 0.5%float = (6 / 12)%float)
  /\ (PyFloat.eq 12 0 -> PyFloat.lt 0 6 -> 0.5%float = infinity)
  /\ (PyFloat.eq 6 0 -> PyFloat.eq 12 0 -> 0.5%float = 0%float).
Proof.
  apply (proj2 (compute_kpis_acos float_of_int_literal
                  (sample_row "20" "100" "6" "12"))
           0.2%float 0.5%float 6%float 12%float 20%Z).
  vm_compute. reflexivity.
Defined.

(** C9, as the code has it.  [compute_kpis] returns on every performance
    record whose four cells read as numbers with finite clicks; and on every
    record on which it returns, the CTR is [clicks / impressions] whenever
    the impressions cell is non-zero (positive, negative or NaN) and zero
    when the cell is zero, empty or absent. *)
Theorem compute_kpis_ctr (py_float : string -> option float)
    (row : gmap string string) :
  (forall (fclicks impressions cost sales : float) (clicks : Z),
      cell_float py_float row "clicks" = Ok fclicks ->
      PyFloat.py_int fclicks = Ok clicks ->
      cell_float py_float row "impressions" = Ok impressions ->
      cell_float py_float row "cost" = Ok cost ->
      cell_float py_float row "attributedSales14d" = Ok sales ->
      (PyFloat.truthy impressions = true ->
       exists c, PyFloat.of_int clicks = Ok c) ->
      exists ctr acos,
        compute_kpis py_float row = Ok (ctr, acos, cost, sales, clicks))
  /\ (forall (ctr acos cost sales : float) (clicks : Z),
         compute_kpis py_float row = Ok (ctr, acos, cost, sales, clicks) ->
         exists impressions,
           cell_float py_float row "impressions" = Ok impressions
           /\ (PyFloat.neqb impressions 0 = true ->
               exists c, PyFloat.of_int clicks = Ok c
                         /\ ctr = (c / impressions)%float)
           /\ (PyFloat.eq impressions 0 -> ctr = 0%float)
           /\ (row !! "impressions" = None
               \/ row !! "impressions" = Some ""%string ->
               ctr = 0%float)).
Proof.
  split; [apply compute_kpis_returns|].
  intros ctr acos cost sales clicks H. apply compute_kpis_inv in H
    as (fclicks & imp & _ & _ & Himp & _ & _ & Hctr & _).
  exists imp. split; [assumption|].
  assert (Hz : PyFloat.eq imp 0 -> ctr = 0%float).
  { intros Hi. now rewrite (PyFloatFacts.eq_not_truthy _ Hi) in Hctr. }
  repeat split; auto.
  - intros Hn. unfold PyFloat.truthy in Hctr. now rewrite Hn in Hctr.
  - intros Hm. rewrite (cell_float_missing _ _ _ Hm) in Himp.
    injection Himp as <-. now apply Hz.
Qed.

Lemma compute_kpis_ctr_witness :
  exists impressions,
    cell_float float_of_int_literal (sample_row "20" "20000" "6" "50")
      "impressions" = Ok impressions
    /\ (PyFloat.neqb impressions 0 = true ->
        exists c, PyFloat.of_int 20 = Ok c
                  /\ (20 / 20000)%float = (c / impressions)%float)
    /\ (PyFloat.eq impressions 0 -> (20 / 20000)%float = 0%float)
    /\ (sample_row "20" "20000" "6" "50" !! "impressions" = None
        \/ sample_row "20" "20000" "6" "50" !! "impressions" = Some ""%string ->
        (20 / 20000)%float = 0%float).
Proof.
  apply (proj2 (compute_kpis_ctr float_of_int_literal
                  (sample_row "20" "20000" "6" "50"))
           (20 / 20000)%float (6 / 50)%float 6%float 50%float 20%Z).
  vm_compute. reflexivity.
Defined.

(** C9 as stated fails: with -5 impressions, which is not positive, the CTR
    is [10 / -5 = -2], not zero. *)
Lemma compute_kpis_ctr_negative_impressions :
  compute_kpis float_of_int_literal (sample_row "10" "-5" "0" "0")
    = Ok ((-2)%float, 0%float, 0%float, 0%float, 10%Z)
  /\ ((0 <? -5)%float = false)
  /\ PyFloat.neqb (-2) 0 = true.
Proof. vm_compute. auto. Qed.

(** ** Clamping *)

Section ClampFacts.
Import PyFloat PyFloatFacts.
Variables lo hi : float.
Hypothesis lo_le_hi : le lo hi.

Lemma clamp_in_range (v : float) : le lo (clamp v lo hi) /\ le (clamp v lo hi) hi.
Proof.
  unfold clamp, py_max, py_min, gtb.
  destruct (v <? hi)%float eqn:Hv.
  - destruct (lo <? v)%float eqn:Hl.
    + split; now apply lt_le.
    + split; [exact (le_refl_l _ _ lo_le_hi) | exact lo_le_hi].
  - destruct (lo <? hi)%float eqn:Hl.
    + split; [exact lo_le_hi | exact (le_refl_r _ _ lo_le_hi)].
    + split; [exact (le_refl_l _ _ lo_le_hi) | exact lo_le_hi].
Qed.

Lemma clamp_fixes_range (v : float) : le lo v -> le v hi -> eq (clamp v lo hi) v.
Proof.
  intros Hlo Hhi. unfold clamp, py_max, py_min, gtb.
  destruct (v <? hi)%float eqn:Hv.
  - destruct (lo <? v)%float eqn:Hl.
    + exact (le_eq_refl _ _ Hhi).
    + exact (le_not_lt_eq _ _ Hlo Hl).
  - pose proof (le_not_lt_eq _ _ Hhi Hv) as Hvh.
    destruct (lo <? hi)%float eqn:Hl.
    + now apply eq_sym.
    + apply eq_trans with hi; [exact (le_not_lt_eq _ _ lo_le_hi Hl)|].
      now apply eq_sym.
Qed.

Lemma clamp_interior (v : float) : lt lo v -> lt v hi -> clamp v lo hi = v.
Proof.
  unfold lt, clamp, py_max, py_min, gtb. intros Hl Hv. now rewrite Hv, Hl.
Qed.
End ClampFacts.

(** Every proposal of [decide_bid_change] is a clamped value. *)
Lemma decide_bid_change_is_clamped (rules : Rules) (current_hour : Z)
    (ctr acos : float) (clicks : Z) (cost sales current_bid b : float) :
  decide_bid_change rules current_hour ctr acos clicks cost sales current_bid
    = Some b ->
  exists v, b = clamp v (min_bid rules) (max_bid rules).
Proof.
  unfold decide_bid_change.
  repeat match goal with
         | |- context [if ?c then _ else _] => destruct c
         end;
    try discriminate; intros [= <-]; eexists; reflexivity.
Qed.

(** C3. Provided [min_bid <= max_bid]: [clamp] returns a value within
    [[min_bid, max_bid]]; a value already in that range comes back equal
    (identical when strictly inside); and every bid that
    [decide_bid_change] proposes lies within [[min_bid, max_bid]]. *)
Theorem clamp_within_bounds (rules : Rules) :
  PyFloat.le (min_bid rules) (max_bid rules) ->
  (forall v : float,
      PyFloat.le (min_bid rules) (clamp v (min_bid rules) (max_bid rules))
      /\ PyFloat.le (clamp v (min_bid rules) (max_bid rules)) (max_bid rules))
  /\ (forall v : float,
         PyFloat.le (min_bid rules) v -> PyFloat.le v (max_bid rules) ->
         PyFloat.eq (clamp v (min_bid rules) (max_bid rules)) v)
  /\ (forall v : float,
         PyFloat.lt (min_bid rules) v -> PyFloat.lt v (max_bid rules) ->
         clamp v (min_bid rules) (max_bid rules) = v)
  /\ (forall (current_hour : Z) (ctr acos : float) (clicks : Z)
             (cost sales current_bid b : float),
         decide_bid_change rules current_hour ctr acos clicks cost sales
           current_bid = Some b ->
         PyFloat.le (min_bid rules) b /\ PyFloat.le b (max_bid rules)).
Proof.
  intros Hle. split; [|split; [|split]].
  - intros v. now apply clamp_in_range.
  - intros v. now apply clamp_fixes_range.
  - intros v. apply clamp_interior.
  - intros h ctr acos clicks cost sales bid b Hb.
    apply decide_bid_change_is_clamped in Hb as [v ->].
    now apply clamp_in_range.
Qed.

Lemma clamp_within_bounds_witness :
  (forall v : float,
      PyFloat.le 0.25 (clamp v 0.25 5.00) /\ PyFloat.le (clamp v 0.25 5.00) 5.00)
  /\ (forall v : float,
         PyFloat.le 0.25 v -> PyFloat.le v 5.00 ->
         PyFloat.eq (clamp v 0.25 5.00) v)
  /\ (forall v : float,
         PyFloat.lt 0.25 v -> PyFloat.lt v 5.00 -> clamp v 0.25 5.00 = v)
  /\ (forall (current_hour : Z) (ctr acos : float) (clicks : Z)
             (cost sales current_bid b : float),
         decide_bid_change DEFAULT_RULES current_hour ctr acos clicks cost sales
           current_bid = Some b ->
         PyFloat.le 0.25 b /\ PyFloat.le b 5.00).
Proof. apply (clamp_within_bounds DEFAULT_RULES). reflexivity. Defined.

(** Clamping at the default bounds: below, inside, above, and NaN. *)
Example clamp_samples :
  clamp 0.1 0.25 5.00 = 0.25%float /\ clamp 0.85 0.25 5.00 = 0.85%float
  /\ clamp 7.5 0.25 5.00 = 5.00%float /\ clamp nan 0.25 5.00 = 5.00%float.
Proof. vm_compute. auto. Qed.

(** On the boundary the value that comes back is equal in the sense of [==]
    and may be the bound itself: a negative zero clamped to [[-1, 0]] comes
    back as the upper bound, a positive zero. *)
Example clamp_signed_zero :
  clamp (-0) (-1) 0 = 0%float /\ PyFloat.eq (clamp (-0) (-1) 0) (-0)
  /\ Prim2SF (-0)%float <> Prim2SF 0%float.
Proof. vm_compute. repeat split; auto. discriminate. Qed.

(** ** The bid rule cascade *)

(** C1. When [clicks < min_clicks] and [cost < min_spend] the engine
    returns no change, whatever the other inputs are.  The guard needs both
    conditions: a record for which they do not both hold is not excluded,
    its decision is that of the first rule below the guard that fires, and
    none when none fires.  In particular a record with too few clicks whose
    cost is not below [min_spend] gets a proposal as soon as one of the
    rules that do not ask for clicks fires: high ACOS, low ACOS with sales,
    or a dayparting multiplier other than 1.0. *)
Theorem decide_bid_change_insufficient_data (rules : Rules) (current_hour : Z)
    (ctr acos : float) (clicks : Z) (cost sales current_bid : float) :
  ((clicks < min_clicks rules)%Z -> PyFloat.lt cost (min_spend rules) ->
   decide_bid_change rules current_hour ctr acos clicks cost sales current_bid
   = None)
  /\ (~ ((clicks < min_clicks rules)%Z /\ PyFloat.lt cost (min_spend rules)) ->
      let daypart_mult := get_dayparting_multiplier rules current_hour in
      decide_bid_change rules current_hour ctr acos clicks cost sales
        current_bid
      = match List.find
                (spec_rule_fires rules daypart_mult ctr acos clicks cost sales)
                spec_rules_after_guard with
        | Some r => spec_rule_proposal rules daypart_mult current_bid r
        | None => None
        end)
  /\ ((clicks < min_clicks rules)%Z -> ~ PyFloat.lt cost (min_spend rules) ->
      PyFloat.lt (high_acos rules) acos
      \/ (PyFloat.lt acos (low_acos rules) /\ PyFloat.lt 0 sales)
      \/ PyFloat.neqb (get_dayparting_multiplier rules current_hour) 1.0 = true ->
      exists b,
        decide_bid_change rules current_hour ctr acos clicks cost sales
          current_bid = Some b).
Proof.
  split; [|split].
  - intros Hclicks Hcost. apply Z.ltb_lt in Hclicks.
    unfold decide_bid_change. unfold PyFloat.lt in Hcost.
    now rewrite Hclicks, Hcost.
  - intros Hnot daypart_mult. subst daypart_mult.
    assert (Hguard : (clicks <? min_clicks rules)%Z
                     && (cost <? min_spend rules)%float = false).
    { apply not_true_is_false. intros Hg. apply andb_prop in Hg as [Hc Hs].
      apply Hnot. split; [now apply Z.ltb_lt | exact Hs]. }
    unfold decide_bid_change. rewrite Hguard.
    unfold spec_rules_after_guard. cbn [List.find spec_rule_fires].
    repeat match goal with
           | |- context [if ?c then _ else _] => destruct c
           end; reflexivity.
  - intros Hclicks Hcost Hrule.
    assert (Hlt : (clicks <? min_clicks rules)%Z = true) by now apply Z.ltb_lt.
    assert (Hge : (clicks >=? min_clicks rules)%Z = false).
    { rewrite Z.geb_leb. now apply Z.leb_gt. }
    unfold PyFloat.lt in Hcost. apply not_true_is_false in Hcost.
    unfold decide_bid_change. rewrite Hlt, Hge, Hcost, !andb_false_r.
    cbn [andb]. unfold PyFloat.gtb.
    destruct (high_acos rules <? acos)%float eqn:Hhigh; [eauto|].
    destruct Hrule as [Hh | [[Hlow Hsales] | Hmult]].
    + unfold PyFloat.lt in Hh. congruence.
    + unfold PyFloat.lt in Hlow, Hsales. rewrite Hlow, Hsales. eauto.
    + destruct ((acos <? low_acos rules)%float && (0 <? sales)%float);
        [eauto|]. rewrite Hmult. eauto.
Qed.

Lemma decide_bid_change_insufficient_data_witness :
  decide_bid_change DEFAULT_RULES 12 0.001 infinity 5 2 0 1.00 = None
  /\ exists b,
       decide_bid_change DEFAULT_RULES 12 0.001 0.2 5 6 30 1.00 = Some b.
Proof.
  split.
  - apply (proj1 (decide_bid_change_insufficient_data DEFAULT_RULES 12 0.001
                    infinity 5 2 0 1.00)).
    + simpl. lia.
    + vm_compute. reflexivity.
  - apply (proj2 (proj2 (decide_bid_change_insufficient_data DEFAULT_RULES 12
                           0.001 0.2 5 6 30 1.00))).
    + simpl. lia.
    + unfold PyFloat.lt. vm_compute. discriminate.
    + right. left. split; vm_compute; reflexivity.
Defined.

(** The guard on sample records: few clicks and low spend give no change; few
    clicks with spend at the threshold or above are decided by the cascade. *)
Example insufficient_data_samples :
  decide_bid_change DEFAULT_RULES 12 0.5 infinity 5 2 0 1.00 = None
  /\ decide_bid_change DEFAULT_RULES 12 0.5 0.1 5 2 100 1.00 = None
  /\ decide_bid_change DEFAULT_RULES 12 0.5 infinity 5 9 0 1.00 = Some 1.02%float
  /\ decide_bid_change DEFAULT_RULES 12 0.5 infinity 5 5 0 1.00 = Some 1.02%float.
Proof. vm_compute. auto. Qed.

(** The code's cascade is the specification's table read first match first. *)
Lemma decide_bid_change_refines_cascade (rules : Rules) (current_hour : Z)
    (ctr acos : float) (clicks : Z) (cost sales current_bid : float) :
  decide_bid_change rules current_hour ctr acos clicks cost sales current_bid
  = spec_bid_cascade rules current_hour ctr acos clicks cost sales current_bid.
Proof.
  unfold decide_bid_change, spec_bid_cascade, spec_first_match, spec_rule_order.
  cbn [List.find spec_rule_fires].
  repeat match goal with
         | |- context [if ?c then _ else _] => destruct c
         end; reflexivity.
Qed.

(** C4. [decide_bid_change] is the first-match cascade in the order
    insufficient data, low CTR, no sales, high ACOS, low ACOS with sales,
    dayparting only.  For [current_bid=1.00, clicks=20, impressions=20000,
    cost=6, sales=50] under the default rules, whatever their dayparting
    settings, at an hour where the dayparting multiplier is 1.0: the
    low-CTR rule is the first to fire, although the low-ACOS rule fires
    too, and the proposed bid is [clamp(1.00*0.85*1.0) = 0.85]. *)
Theorem decide_bid_change_first_match :
  (forall (rules : Rules) (current_hour : Z) (ctr acos : float) (clicks : Z)
          (cost sales current_bid : float),
      decide_bid_change rules current_hour ctr acos clicks cost sales current_bid
      = spec_bid_cascade rules current_hour ctr acos clicks cost sales
          current_bid)
  /\ (forall (enabled : option bool) (hours : option (list Z))
             (peak off_peak : option float) (current_hour : Z),
         let rules :=
           with_dayparting DEFAULT_RULES enabled hours peak off_peak in
         get_dayparting_multiplier rules current_hour = 1.0%float ->
         spec_first_match rules 1.0 (20 / 20000) (6 / 50) 20 6 50 = Some LowCTR
         /\ spec_rule_fires rules 1.0 (20 / 20000) (6 / 50) 20 6 50
              LowACOSWithSales = true
         /\ decide_bid_change rules current_hour (20 / 20000) (6 / 50) 20 6 50
              1.00
            = Some (clamp (1.00 * 0.85 * 1.0) 0.25 5.00)
         /\ clamp (1.00 * 0.85 * 1.0) 0.25 5.00 = 0.85%float).
Proof.
  split; [exact decide_bid_change_refines_cascade|].
  intros enabled hours peak off_peak current_hour rules Hmult.
  split; [vm_compute; reflexivity|]. split; [vm_compute; reflexivity|].
  split; [|vm_compute; reflexivity].
  unfold decide_bid_change. rewrite Hmult. vm_compute. reflexivity.
Qed.

Lemma decide_bid_change_first_match_witness :
  decide_bid_change RULES_NO_DAYPARTING 12 (20 / 20000) (6 / 50) 20 6 50 1.00
  = Some 0.85%float.
Proof.
  destruct (proj2 decide_bid_change_first_match (Some false)
              (peak_hours DEFAULT_RULES) (peak_multiplier DEFAULT_RULES)
              (off_peak_multiplier DEFAULT_RULES) 12%Z eq_refl)
    as (_ & _ & Hbid & Hclamp).
  rewrite Hclamp in Hbid. exact Hbid.
Defined.

(** The same record under the default rules as they are, where dayparting
    is on: the multiplier is 1.2 from 9 to 20 and 0.85 otherwise, the
    low-CTR rule is still the first to fire, and the bid is 1.02 or
    [0.85 * 0.85]. *)
Example scenario_A_with_default_dayparting :
  Forall (fun current_hour : Z =>
            let m := get_dayparting_multiplier DEFAULT_RULES current_hour in
            m = (if bool_decide (9 <= current_hour <= 20)%Z
                 then 1.2 else 0.85)%float
            /\ spec_first_match DEFAULT_RULES m (20 / 20000) (6 / 50) 20 6 50
               = Some LowCTR
            /\ decide_bid_change DEFAULT_RULES current_hour (20 / 20000)
                 (6 / 50) 20 6 50 1.00
               = Some (if bool_decide (9 <= current_hour <= 20)%Z
                       then 1.02 else 0.85 * 0.85)%float)
    hours_of_day.
Proof.
  unfold hours_of_day. vm_compute seqZ.
  repeat (constructor; [vm_compute; auto|]). constructor.
Qed.

(** ** What a computation adds to the trace *)

Section Appends.
Variable P : Event -> Prop.

Lemma appends_ret {A : Type} (a : A) : appends P (ret a).
Proof. intros tr. exists []. split; [reflexivity | constructor]. Qed.

Lemma appends_raise {A : Type} (e : exn) : appends P (@raise A e).
Proof. intros tr. exists []. split; [reflexivity | constructor]. Qed.

Lemma appends_diverge {A : Type} : appends P (@diverge A).
Proof. intros tr. exists []. split; [reflexivity | constructor]. Qed.

Lemma appends_lift {A : Type} (o : Outcome A) : appends P (lift o).
Proof. intros tr. exists []. split; [reflexivity | constructor]. Qed.

Lemma appends_call {A : Type} (ev : Event) (answer : Trace -> Outcome A) :
  P ev -> appends P (call ev answer).
Proof.
  intros Hev tr. exists [ev]. split; [reflexivity | now constructor].
Qed.

Lemma appends_bind {A B : Type} (m : M A) (k : A -> M B) :
  appends P m -> (forall a, appends P (k a)) -> appends P (bind m k).
Proof.
  intros Hm Hk tr. unfold bind. destruct (Hm tr) as (new & Hnew & HP).
  destruct (m tr) as [[a|e|] tr1]; simpl in Hnew; subst tr1.
  - destruct (Hk a (new ++ tr)) as (new' & Hnew' & HP').
    exists (new' ++ new). rewrite Hnew', app_assoc. split; [reflexivity|].
    now apply Forall_app.
  - now exists new.
  - now exists new.
Qed.

Lemma appends_try_except {A : Type} (m : M A) (handler : exn -> M A) :
  appends P m -> (forall e, appends P (handler e)) ->
  appends P (try_except m handler).
Proof.
  intros Hm Hh tr. unfold try_except. destruct (Hm tr) as (new & Hnew & HP).
  destruct (m tr) as [[a|e|] tr1]; simpl in Hnew; subst tr1.
  - now exists new.
  - destruct (Hh e (new ++ tr)) as (new' & Hnew' & HP').
    exists (new' ++ new). rewrite Hnew', app_assoc. split; [reflexivity|].
    now apply Forall_app.
  - now exists new.
Qed.

Lemma appends_for_each {A S : Type} (body : S -> A -> M S) (xs : list A) :
  (forall s x, appends P (body s x)) -> forall s, appends P (for_each body xs s).
Proof.
  intros Hbody. induction xs as [|x xs IH]; intros s; simpl.
  - apply appends_ret.
  - apply appends_bind; [apply Hbody | apply IH].
Qed.
End Appends.

(** One step of a proof that a computation only adds events satisfying the
    property: through binds, handlers, loops and case distinctions. *)
Ltac appends_step :=
  match goal with
  | |- appends _ (ret _) => apply appends_ret
  | |- appends _ (raise _) => apply appends_raise
  | |- appends _ diverge => apply appends_diverge
  | |- appends _ (lift _) => apply appends_lift
  | |- appends _ (call _ _) => apply appends_call; reflexivity
  | |- appends _ (bind _ _) => apply appends_bind; [|intros]
  | |- appends _ (try_except _ _) => apply appends_try_except; [|intros]
  | |- appends _ (for_each _ _ _) => apply appends_for_each; intros
  | |- appends _ (if ?c then _ else _) => destruct c
  | |- appends _ (match ?x with _ => _ end) => destruct x
  | |- appends _ (let '(_, _) := ?x in _) => destruct x
  end.

Section ReadOnly.
Variable env : Env.
Variable py_float : string -> option float.
Variable py_int_str : string -> option Z.
Variable py_lower : string -> string.
Variable py_round : float -> Z -> float.

Lemma poll_loop_read_only (fuel : nat) (report_id : string)
    (interval deadline : float) :
  appends read_only (poll_loop env fuel report_id interval deadline).
Proof.
  induction fuel as [|fuel IH]; simpl.
  - apply appends_diverge.
  - unfold time_time, time_sleep. repeat first [exact IH | appends_step].
Qed.

Lemma fetch_report_rows_read_only (fuel : nat) (rules : Rules)
    (report_type : string) :
  appends read_only (fetch_report_rows env fuel rules report_type).
Proof.
  unfold fetch_report_rows, create_sp_report, poll_report, download_report,
    time_time.
  repeat first [apply poll_loop_read_only | appends_step].
Qed.

Lemma manage_campaigns_dry_run_read_only
    (campaign_performance : list (option string * Perf)) (rules : Rules) :
  appends read_only
    (manage_campaigns_by_acos env py_int_str campaign_performance rules true).
Proof.
  unfold manage_campaigns_by_acos, manage_campaign. simpl negb.
  repeat appends_step.
Qed.

Lemma research_dry_run_read_only (ad_groups : list AdGroup) (rules : Rules) :
  appends read_only
    (research_and_add_keywords env py_int_str py_lower ad_groups rules true).
Proof.
  unfold research_and_add_keywords, research_ad_group, get_keywords,
    get_keyword_suggestions. simpl negb.
  repeat appends_step.
Qed.

Lemma main_dry_run_read_only (fuel : nat) (sb sc sk sn : bool) :
  appends read_only
    (main env py_float py_int_str py_lower py_round fuel
       {| dry_run := true; skip_bids := sb; skip_campaigns := sc;
          skip_keywords := sk; skip_new_campaigns := sn |}).
Proof.
  unfold main, run_from_campaign_rows, step_campaigns, step_bids, step_keywords,
    step_new_campaigns, add_campaign_row, bid_row, lookup_current_bid,
    decide_bid_change_now, get_dayparting_multiplier_now, now_hour,
    find_products_without_campaigns, get_campaigns, get_ad_groups,
    get_product_ads, get_keywords.
  cbn [dry_run skip_bids skip_campaigns skip_keywords skip_new_campaigns negb].
  repeat first [ apply fetch_report_rows_read_only
               | apply manage_campaigns_dry_run_read_only
               | apply research_dry_run_read_only
               | appends_step ].
Qed.
End ReadOnly.

(** C7. In dry-run mode campaign state management, keyword addition and the
    run as a whole (whatever stages are skipped) add no call of
    [update_campaign_state], [update_keyword_bids] or [create_keywords] to
    the trace, whatever the platform answers. *)
Theorem dry_run_never_mutates (env : Env) (py_float : string -> option float)
    (py_int_str : string -> option Z) (py_lower : string -> string)
    (py_round : float -> Z -> float) :
  (forall (campaign_performance : list (option string * Perf)) (rules : Rules)
          (tr : Trace),
      exists new : Trace,
        snd (manage_campaigns_by_acos env py_int_str campaign_performance rules
               true tr) = new ++ tr
        /\ Forall (fun ev => mutating ev = false) new)
  /\ (forall (ad_groups : list AdGroup) (rules : Rules) (tr : Trace),
         exists new : Trace,
           snd (research_and_add_keywords env py_int_str py_lower ad_groups
                  rules true tr) = new ++ tr
           /\ Forall (fun ev => mutating ev = false) new)
  /\ (forall (fuel : nat) (sb sc sk sn : bool) (tr : Trace),
         exists new : Trace,
           snd (main env py_float py_int_str py_lower py_round fuel
                  {| dry_run := true; skip_bids := sb; skip_campaigns := sc;
                     skip_keywords := sk; skip_new_campaigns := sn |} tr)
           = new ++ tr
           /\ Forall (fun ev => mutating ev = false) new).
Proof.
  split; [|split].
  - intros cp rules. apply manage_campaigns_dry_run_read_only.
  - intros ags rules. apply research_dry_run_read_only.
  - intros fuel sb sc sk sn. apply main_dry_run_read_only.
Qed.

(** ** Campaign lifecycle management *)

Section CampaignFacts.
Variable env : Env.
Variable py_int_str : string -> option Z.

(** The platform call returns or raises; it never loops. *)
Lemma update_campaign_state_returns (campaign_id : option string)
    (state : string) (tr : Trace) :
  exists tr',
    update_campaign_state env py_int_str campaign_id state tr = (Val tt, tr')
    \/ exists e,
        update_campaign_state env py_int_str campaign_id state tr = (Exn e, tr').
Proof.
  unfold update_campaign_state, bind, lift, call, int_of_id.
  destruct campaign_id as [s|]; [destruct (py_int_str s) as [z|]|].
  - destruct (env_update_campaign_state env tr z state) as [[]|e];
      eexists; [left | right; eexists]; reflexivity.
  - eexists; right; eexists; reflexivity.
  - eexists; right; eexists; reflexivity.
Qed.

(** One campaign: the list of actions is left as it is, or gets one action
    that the campaign's entry licenses. *)
Lemma manage_campaign_step (rules : Rules) (dry_run : bool)
    (actions : list CampaignAction) (entry : option string * Perf)
    (tr : Trace) :
  exists tr',
    manage_campaign env py_int_str rules dry_run actions entry tr
      = (Val actions, tr')
    \/ exists a,
        manage_campaign env py_int_str rules dry_run actions entry tr
          = (Val (actions ++ [a]), tr')
        /\ action_for rules entry a.
Proof.
  unfold manage_campaign, action_for, licensed.
  destruct entry as [cid perf]; cbn [fst snd].
  set (acos := default 0%float (perf_acos perf)).
  set (st := default "enabled"%string (perf_state perf)).
  set (clicks := default 0%Z (perf_clicks perf)).
  destruct (clicks <? min_clicks rules)%Z eqn:Hc; [eexists; left; reflexivity|].
  apply Z.ltb_ge in Hc.
  destruct (flag (auto_deactivate_campaigns rules)
            && PyFloat.gtb acos (deactivate_acos_threshold rules)) eqn:Hd.
  - apply andb_true_iff in Hd as [Hd1 Hd2].
    destruct (String.eqb st "enabled") eqn:Hs; [|eexists; left; reflexivity].
    apply String.eqb_eq in Hs.
    destruct dry_run; cbn [negb].
    + eexists. right. eexists. split; [reflexivity|]. simpl.
      unfold PyFloat.lt, PyFloat.le, PyFloat.gtb in *. intuition auto.
    + unfold try_except, bind; cbv beta.
      destruct (update_campaign_state_returns cid "paused" tr)
        as (tr' & [-> | [e ->]]).
      * eexists. right. eexists. split; [reflexivity|]. simpl.
        unfold PyFloat.lt, PyFloat.le, PyFloat.gtb in *. intuition auto.
      * eexists. left. reflexivity.
  - assert (Hnd : ~ (flag (auto_deactivate_campaigns rules) = true
                     /\ PyFloat.lt (deactivate_acos_threshold rules) acos)).
    { intros [H1 H2]. unfold PyFloat.gtb in Hd. unfold PyFloat.lt in H2.
      rewrite H1, H2 in Hd. discriminate. }
    destruct (flag (auto_activate_campaigns rules)
              && (acos <=? activate_acos_threshold rules)%float) eqn:Ha;
      [|eexists; left; reflexivity].
    apply andb_true_iff in Ha as [Ha1 Ha2].
    destruct (String.eqb st "paused") eqn:Hs; [|eexists; left; reflexivity].
    apply String.eqb_eq in Hs.
    destruct dry_run; cbn [negb].
    + eexists. right. eexists. split; [reflexivity|]. simpl.
      unfold PyFloat.lt, PyFloat.le, PyFloat.gtb in *. intuition auto.
    + unfold try_except, bind; cbv beta.
      destruct (update_campaign_state_returns cid "enabled" tr)
        as (tr' & [-> | [e ->]]).
      * eexists. right. eexists. split; [reflexivity|]. simpl.
        unfold PyFloat.lt, PyFloat.le, PyFloat.gtb in *. intuition auto.
      * eexists. left. reflexivity.
Qed.

(** The loop over the campaigns: the actions added are licensed, one by one
    and in order, by distinct entries. *)
Lemma manage_campaigns_loop (rules : Rules) (dry_run : bool)
    (campaign_performance : list (option string * Perf)) :
  forall (actions : list CampaignAction) (tr : Trace),
  exists added fired tr',
    for_each (manage_campaign env py_int_str rules dry_run)
      campaign_performance actions tr = (Val (actions ++ added), tr')
    /\ sublist fired campaign_performance
    /\ Forall2 (action_for rules) fired added.
Proof.
  induction campaign_performance as [|entry rest IH]; intros actions tr.
  - exists [], [], tr. simpl. rewrite app_nil_r. repeat split; constructor.
  - simpl. unfold bind at 1.
    destruct (manage_campaign_step rules dry_run actions entry tr)
      as (tr1 & [-> | (a & -> & Ha)]).
    + destruct (IH actions tr1) as (added & fired & tr' & -> & Hsub & Hall).
      exists added, fired, tr'. repeat split; auto; now apply sublist_cons.
    + destruct (IH (actions ++ [a]) tr1)
        as (added & fired & tr' & -> & Hsub & Hall).
      exists (a :: added), (entry :: fired), tr'.
      rewrite <- app_assoc.
      repeat split; auto; try (now apply sublist_skip); now constructor.
Qed.
End CampaignFacts.

(** C5. [manage_campaigns_by_acos] always returns, and the actions it
    returns correspond, in order, to distinct entries of
    [campaign_performance]: each action carries the identifier of its entry,
    whose clicks are at least [min_clicks]; a pause action is emitted only
    for an enabled campaign whose ACOS is above the deactivate threshold; an
    enable action only for a paused campaign for which the deactivate test,
    made first, failed and whose ACOS is at most the activate threshold.  So
    no campaign gets more than one action, and none when it is already in
    the target state. *)
Theorem manage_campaigns_actions (env : Env) (py_int_str : string -> option Z)
    (campaign_performance : list (option string * Perf)) (rules : Rules)
    (dry_run : bool) (tr : Trace) :
  exists (actions : list CampaignAction) (fired : list (option string * Perf))
         (tr' : Trace),
    manage_campaigns_by_acos env py_int_str campaign_performance rules dry_run tr
      = (Val actions, tr')
    /\ sublist fired campaign_performance
    /\ Forall2 (action_for rules) fired actions
    /\ length actions <= length campaign_performance.
Proof.
  unfold manage_campaigns_by_acos.
  destruct (negb (flag (auto_activate_campaigns rules))
            && negb (flag (auto_deactivate_campaigns rules))).
  - exists [], [], tr. repeat split; try constructor.
    + apply sublist_nil_l.
    + simpl. lia.
  - destruct (manage_campaigns_loop env py_int_str rules dry_run
                campaign_performance [] tr)
      as (added & fired & tr' & Hrun & Hsub & Hall).
    exists added, fired, tr'. repeat split; auto.
    rewrite <- (Forall2_length _ _ _ Hall). now apply sublist_length.
Qed.

(** ** Keyword research: the switches *)

(** C10. Unless both [keyword_research_enabled] and [auto_add_keywords] are
    truthy, [research_and_add_keywords] returns the empty list at once: no
    event is added to the trace, so nothing is fetched, looked up or
    created. *)
Theorem research_needs_both_flags (env : Env) (py_int_str : string -> option Z)
    (py_lower : string -> string) (ad_groups : list AdGroup) (rules : Rules)
    (dry_run : bool) (tr : Trace) :
  flag (keyword_research_enabled rules) = false
  \/ flag (auto_add_keywords rules) = false ->
  research_and_add_keywords env py_int_str py_lower ad_groups rules dry_run tr
  = (Val [], tr).
Proof.
  unfold research_and_add_keywords.
  intros [-> | ->]; simpl; rewrite ?orb_true_r; reflexivity.
Qed.

(** ** Keyword research: the candidates *)

Section KeywordFacts.
Variable env : Env.
Variable py_int_str : string -> option Z.
Variable py_lower : string -> string.

Lemma proposal_ok_nil (existing : gset string) : proposal_ok py_lower existing [].
Proof. repeat split; simpl; [lia | constructor | constructor]. Qed.

Lemma proposal_ok_sublist (existing : gset string) (t1 t2 : list string) :
  sublist t1 t2 -> proposal_ok py_lower existing t2 ->
  proposal_ok py_lower existing t1.
Proof.
  intros Hsub (Hlen & Hnd & Hall). repeat split.
  - apply sublist_length in Hsub. lia.
  - eapply sublist_NoDup; [exact Hnd | now apply fmap_sublist].
  - apply Forall_forall. intros t Ht. rewrite Forall_forall in Hall.
    apply Hall. eapply elem_of_sublist; eauto.
Qed.

Lemma zip_fst_sublist {A B : Type} (l : list A) (k : list B) :
  sublist ((zip l k).*1) l.
Proof.
  revert k. induction l as [|x l IH]; intros [|y k]; simpl;
    auto using sublist_nil_l, sublist_skip.
Qed.

(** The collecting loop: started with fewer than five keywords, it ends with
    at most five, and what it adds is new to the set and free of repeats. *)
Lemma collect_new_keywords_spec (rules : Rules) (campaign_id ad_group_id : string)
    (suggestions : list Suggestion) :
  forall (existing : gset string) (new_keywords res : list NewKeyword),
    collect_new_keywords py_int_str py_lower rules campaign_id ad_group_id
      suggestions existing new_keywords = Ok res ->
    length new_keywords < 5 ->
    exists added,
      res = new_keywords ++ added
      /\ length res <= 5
      /\ NoDup (py_lower <$> (nk_keywordText <$> added))
      /\ Forall (fun t => py_lower t ∉ existing) (nk_keywordText <$> added).
Proof.
  induction suggestions as [|s rest IH]; intros existing new res; simpl.
  - intros [= <-] Hlen. exists []. rewrite app_nil_r.
    repeat split; simpl; [lia | constructor | constructor].
  - set (text := default ""%string (sg_keywordText s)).
    destruct (bool_decide (py_lower text ∈ existing)) eqn:Hin.
    + apply IH.
    + apply bool_decide_eq_false in Hin. unfold obind.
      destruct (int_of_id py_int_str campaign_id) as [cid|]; [|discriminate].
      destruct (int_of_id py_int_str ad_group_id) as [aid|]; [|discriminate].
      set (kw := {| nk_campaignId := cid; nk_adGroupId := aid;
                    nk_keywordText := text;
                    nk_matchType := default "broad"%string (sg_matchType s);
                    nk_state := "enabled";
                    nk_bid := default 0.50%float (new_keyword_bid rules) |}).
      destruct (Z.of_nat (length (new ++ [kw])) >=? 5)%Z eqn:Hfull.
      * intros [= <-] Hlen. exists [kw]. rewrite length_app in *. simpl.
        repeat split; [lia | apply NoDup_singleton |].
        constructor; [exact Hin | constructor].
      * intros Hres Hlen. rewrite Z.geb_leb in Hfull. apply Z.leb_gt in Hfull.
        apply IH in Hres as (added & -> & Hle & Hnd & Hall); [|lia].
        exists (kw :: added). rewrite <- app_assoc in *. simpl in *.
        repeat split; [exact Hle | |].
        -- apply NoDup_cons_2; [|exact Hnd].
           intros Hdup. apply list_elem_of_fmap in Hdup as (t & Ht & Hmem).
           rewrite Forall_forall in Hall. apply (Hall t Hmem).
           rewrite <- Ht. apply elem_of_union_r, elem_of_singleton. reflexivity.
        -- constructor; [exact Hin|].
           eapply Forall_impl; [exact Hall|]. simpl. intros t Ht Hmem.
           apply Ht. now apply elem_of_union_l.
Qed.

Lemma collect_new_keywords_ok (rules : Rules) (campaign_id ad_group_id : string)
    (suggestions : list Suggestion) (existing : gset string)
    (res : list NewKeyword) :
  collect_new_keywords py_int_str py_lower rules campaign_id ad_group_id
    suggestions existing [] = Ok res ->
  proposal_ok py_lower existing (nk_keywordText <$> res).
Proof.
  intros H. apply collect_new_keywords_spec in H as (added & -> & Hle & Hnd & Hall);
    [|simpl; lia].
  unfold proposal_ok. simpl in *. rewrite length_fmap. repeat split; assumption.
Qed.

(** [get_keyword_suggestions] always returns: the suggestions, or [] when
    the request fails. *)
Lemma get_keyword_suggestions_eq (ad_group_id : string) (n : Z) (tr : Trace) :
  get_keyword_suggestions env ad_group_id n tr
  = (Val (match env_get_keyword_suggestions env tr ad_group_id n with
          | Ok l => l
          | Raise _ => []
          end),
     EvGetKeywordSuggestions ad_group_id n :: tr).
Proof.
  unfold get_keyword_suggestions, try_except, call.
  destruct (env_get_keyword_suggestions env tr ad_group_id n); reflexivity.
Qed.

(** One ad group: every batch sent to [create_keywords], and the entries
    added to the result, respect the ceiling and the dedupe set. *)
Lemma research_ad_group_spec (rules : Rules) (dry_run : bool)
    (added_keywords : list AddedKeyword) (ad_group : AdGroup) (tr : Trace) :
  exists (new : Trace) (res : Res (list AddedKeyword)),
    research_ad_group env py_int_str py_lower rules dry_run added_keywords
      ad_group tr = (res, new ++ tr)
    /\ Forall (creates_ok py_lower (existing_at env py_lower ad_group tr)) new
    /\ (forall added', res = Val added' ->
        exists entries,
          added' = added_keywords ++ entries
          /\ proposal_ok py_lower (existing_at env py_lower ad_group tr)
               (ak_keyword <$> entries)).
Proof.
  unfold research_ad_group, existing_at, get_keywords.
  set (id := ag_adGroupId ad_group).
  set (f := if nonempty id then Some id else None).
  unfold bind at 1. unfold call at 1.
  destruct (env_get_keywords env tr f) as [kws|e].
  2:{ exists [EvGetKeywords f], (Exn e). repeat split.
      - repeat constructor.
      - discriminate. }
  set (existing := existing_texts py_lower kws).
  pose (nil_ok := proposal_ok_nil existing).
  destruct (Z.of_nat (length kws) >=? default 50 (max_keywords_per_campaign rules))%Z.
  { exists [EvGetKeywords f], (Val added_keywords). repeat split.
    - repeat constructor.
    - intros ? [= <-]. exists []. now rewrite app_nil_r. }
  unfold bind at 1. rewrite get_keyword_suggestions_eq.
  set (tr2 := EvGetKeywordSuggestions id 20 :: EvGetKeywords f :: tr).
  set (suggestions := match env_get_keyword_suggestions env _ id 20 with
                      | Ok l => l | Raise _ => [] end).
  unfold bind at 1, lift at 1.
  destruct (collect_new_keywords py_int_str py_lower rules
              (ag_campaignId ad_group) id suggestions existing [])
    as [new_kws|e] eqn:Hcollect.
  2:{ exists [EvGetKeywordSuggestions id 20; EvGetKeywords f], (Exn e).
      repeat split.
      - repeat constructor.
      - discriminate. }
  apply collect_new_keywords_ok in Hcollect.
  destruct new_kws as [|kw kws'].
  { exists [EvGetKeywordSuggestions id 20; EvGetKeywords f], (Val added_keywords).
    repeat split.
    - repeat constructor.
    - intros ? [= <-]. exists []. now rewrite app_nil_r. }
  set (batch := kw :: kws') in *.
  destruct dry_run; cbn [negb].
  - exists [EvGetKeywordSuggestions id 20; EvGetKeywords f],
      (Val (added_keywords ++ (added_entry id "dry-run" <$> batch))).
    repeat split.
    + repeat constructor.
    + intros ? [= <-]. exists (added_entry id "dry-run" <$> batch).
      split; [reflexivity|].
      rewrite <- list_fmap_compose. exact Hcollect.
  - unfold try_except, bind, create_keywords, call; cbv beta.
    destruct (env_create_keywords env tr2 batch) as [results|e].
    + exists [EvCreateKeywords batch; EvGetKeywordSuggestions id 20;
              EvGetKeywords f]. eexists. split; [reflexivity|]. split.
      * constructor; [exact Hcollect | repeat constructor].
      * intros ? [= <-].
        exists ((fun p => added_entry id (default "unknown"%string (kr_code (snd p)))
                            (fst p)) <$> zip batch results).
        split; [reflexivity|].
        rewrite <- list_fmap_compose.
        apply proposal_ok_sublist with (nk_keywordText <$> batch);
          [|exact Hcollect].
        change (ak_keyword ∘ _) with (nk_keywordText ∘ (@fst NewKeyword KeywordResult)).
        rewrite list_fmap_compose. apply fmap_sublist, zip_fst_sublist.
    + exists [EvCreateKeywords batch; EvGetKeywordSuggestions id 20;
              EvGetKeywords f], (Val added_keywords). split; [reflexivity|].
      split.
      * constructor; [exact Hcollect | repeat constructor].
      * intros ? [= <-]. exists []. now rewrite app_nil_r.
Qed.
End KeywordFacts.

Section KeywordRunFacts.
Variable env : Env.
Variable py_int_str : string -> option Z.
Variable py_lower : string -> string.

Lemma creates_ok_weaken (existing : gset string) (ev : Event) :
  creates_ok py_lower existing ev -> creates_ok py_lower ∅ ev.
Proof.
  destruct ev; simpl; auto. intros (Hlen & Hnd & _). repeat split; auto.
  apply Forall_forall. intros t _. apply not_elem_of_empty.
Qed.

Lemma research_ad_group_batches (rules : Rules) (dry_run : bool)
    (added_keywords : list AddedKeyword) (ad_group : AdGroup) :
  appends (creates_ok py_lower ∅)
    (research_ad_group env py_int_str py_lower rules dry_run added_keywords
       ad_group).
Proof.
  intros tr.
  destruct (research_ad_group_spec env py_int_str py_lower rules dry_run
              added_keywords ad_group tr) as (new & res & -> & Hall & _).
  exists new. split; [reflexivity|].
  eapply Forall_impl; [exact Hall | apply creates_ok_weaken].
Qed.

Lemma research_loop_length (rules : Rules) (dry_run : bool)
    (ad_groups : list AdGroup) :
  forall (added_keywords added' : list AddedKeyword) (tr : Trace),
    fst (for_each (research_ad_group env py_int_str py_lower rules dry_run)
           ad_groups added_keywords tr) = Val added' ->
    length added' <= length added_keywords + 5 * length ad_groups.
Proof.
  induction ad_groups as [|ag rest IH]; intros added added' tr; simpl.
  - intros [= <-]. lia.
  - unfold bind at 1.
    destruct (research_ad_group_spec env py_int_str py_lower rules dry_run
                added ag tr) as (new & res & -> & _ & Hres).
    destruct res as [added1| |]; simpl; try discriminate.
    destruct (Hres added1 eq_refl) as (entries & -> & Hlen & _).
    intros H. apply IH in H. rewrite length_app, length_fmap in *. lia.
Qed.
End KeywordRunFacts.

(** C6. For every ad group, at every point of a run: the batch sent to
    [create_keywords] and the entries added to the result hold at most five
    texts, whose lower-cased forms are pairwise distinct and none of which
    is in the set of lower-cased existing texts the platform returned for
    the ad group.  Over a whole run every batch has at most five texts with
    distinct lower-cased forms, and the result has at most five entries per
    ad group visited. *)
Theorem keyword_candidates_deduplicated_and_capped (env : Env)
    (py_int_str : string -> option Z) (py_lower : string -> string)
    (rules : Rules) (dry_run : bool) :
  (forall (added_keywords : list AddedKeyword) (ad_group : AdGroup) (tr : Trace),
      exists (new : Trace) (res : Res (list AddedKeyword)),
        research_ad_group env py_int_str py_lower rules dry_run added_keywords
          ad_group tr = (res, new ++ tr)
        /\ Forall (creates_ok py_lower (existing_at env py_lower ad_group tr)) new
        /\ (forall added', res = Val added' ->
            exists entries,
              added' = added_keywords ++ entries
              /\ proposal_ok py_lower (existing_at env py_lower ad_group tr)
                   (ak_keyword <$> entries)))
  /\ (forall (ad_groups : list AdGroup) (tr : Trace),
         exists new : Trace,
           snd (research_and_add_keywords env py_int_str py_lower ad_groups
                  rules dry_run tr) = new ++ tr
           /\ Forall (creates_ok py_lower ∅) new)
  /\ (forall (ad_groups : list AdGroup) (tr : Trace)
             (added : list AddedKeyword),
         fst (research_and_add_keywords env py_int_str py_lower ad_groups rules
                dry_run tr) = Val added ->
         length added <= 5 * length ad_groups).
Proof.
  split; [|split].
  - intros added ag tr. apply research_ad_group_spec.
  - intros ags. unfold research_and_add_keywords.
    destruct (_ || _); [apply appends_ret|].
    apply appends_for_each. intros s x. apply research_ad_group_batches.
  - intros ags tr added. unfold research_and_add_keywords.
    destruct (_ || _).
    + intros [= <-]. simpl. lia.
    + intros H. apply research_loop_length in H. simpl in H. lia.
Qed.

(** The sample ad group: "organic soil" exists already, "compost" and
    "BIOCHAR" repeat accepted texts, and the sixth new text is not reached. *)
Example research_sample :
  fst (research_and_add_keywords sample_env int_of_digits lower_ascii
         [sample_ad_group] DEFAULT_RULES true [])
  = Val (added_entry "55" "dry-run" <$>
           ((fun text =>
               {| nk_campaignId := 101; nk_adGroupId := 55;
                  nk_keywordText := text; nk_matchType := "broad";
                  nk_state := "enabled"; nk_bid := 0.50 |}) <$>
              ["Compost"; "worm castings"; "Biochar"; "liquid kelp";
               "humic acid"]%string)).
Proof. vm_compute. reflexivity. Qed.

Lemma research_needs_both_flags_witness :
  research_and_add_keywords sample_env int_of_digits lower_ascii
    [sample_ad_group] (with_flags DEFAULT_RULES (Some true) (Some false) (Some true))
    false []
  = (Val [], []).
Proof.
  apply (research_needs_both_flags sample_env int_of_digits lower_ascii
           [sample_ad_group]
           (with_flags DEFAULT_RULES (Some true) (Some false) (Some true))
           false []).
  right. reflexivity.
Defined.

(** ** Report polling *)

Section PollFacts.
Variable env : Env.
Variable report_id : string.
Variables interval deadline : float.

Lemma after_rounds_shift (k : nat) (tr : Trace) :
  after_rounds k report_id interval (poll_round report_id interval ++ tr)
  = poll_round report_id interval ++ after_rounds k report_id interval tr.
Proof.
  induction k as [|k IH]; [reflexivity|]. cbn [after_rounds]. now rewrite IH.
Qed.

Lemma poll_loop_timeout (fuel : nat) (tr : Trace) :
  ~ PyFloat.lt (env_time env tr) deadline ->
  poll_loop env (S fuel) report_id interval deadline tr
  = (Exn TimeoutError, EvTime :: tr).
Proof.
  intros H. apply not_true_is_false in H.
  simpl. unfold bind, time_time, call; cbv beta. now rewrite H.
Qed.

Lemma poll_loop_success (fuel : nat) (tr : Trace) (d : StatusData)
    (location : string) :
  PyFloat.lt (env_time env tr) deadline ->
  env_report_status env (EvTime :: tr) report_id = Ok d ->
  sd_status d = Some "SUCCESS"%string ->
  sd_location d = Some location ->
  poll_loop env (S fuel) report_id interval deadline tr
  = (Val location, EvReportStatus report_id :: EvTime :: tr).
Proof.
  intros Ht Hd Hs Hl. simpl. unfold bind, time_time, call; cbv beta.
  rewrite Ht, Hd, Hs, Hl. reflexivity.
Qed.

Lemma poll_loop_failure (fuel : nat) (tr : Trace) (d : StatusData) :
  PyFloat.lt (env_time env tr) deadline ->
  env_report_status env (EvTime :: tr) report_id = Ok d ->
  sd_status d = Some "FAILURE"%string \/ sd_status d = Some "CANCELLED"%string ->
  poll_loop env (S fuel) report_id interval deadline tr
  = (Exn RuntimeError, EvReportStatus report_id :: EvTime :: tr).
Proof.
  intros Ht Hd Hs. simpl. unfold bind, time_time, call; cbv beta.
  rewrite Ht, Hd. destruct Hs as [-> | ->]; reflexivity.
Qed.

Lemma poll_loop_pending (fuel : nat) (tr : Trace) :
  round_pending env report_id deadline tr ->
  poll_loop env (S fuel) report_id interval deadline tr
  = poll_loop env fuel report_id interval deadline
      (poll_round report_id interval ++ tr).
Proof.
  intros (Ht & d & Hd & Hs1 & Hs2 & Hs3).
  simpl. unfold bind, time_time, time_sleep, call; cbv beta.
  rewrite Ht, Hd.
  rewrite !bool_decide_eq_false_2 by assumption. reflexivity.
Qed.

(** After [k] pending rounds the loop stands at the trace of those rounds,
    with [k] iterations used. *)
Lemma poll_loop_rounds (k fuel : nat) :
  forall tr : Trace,
    (forall i, i < k ->
               round_pending env report_id deadline
                 (after_rounds i report_id interval tr)) ->
    poll_loop env (k + fuel) report_id interval deadline tr
    = poll_loop env fuel report_id interval deadline
        (after_rounds k report_id interval tr).
Proof.
  induction k as [|k IH]; intros tr Hrounds; [reflexivity|].
  change (S k + fuel) with (S (k + fuel)).
  rewrite poll_loop_pending by (apply (Hrounds 0); lia).
  rewrite IH.
  - now rewrite after_rounds_shift.
  - intros i Hi. rewrite after_rounds_shift. apply (Hrounds (S i)). lia.
Qed.
End PollFacts.

Section CallerFacts.
Variable env : Env.
Variable py_float : string -> option float.
Variable py_int_str : string -> option Z.
Variable py_lower : string -> string.
Variable py_round : float -> Z -> float.

Lemma poll_report_unfold (fuel : nat) (report_id : string)
    (interval timeout_s : float) (tr : Trace) :
  poll_report env fuel report_id interval timeout_s tr
  = poll_loop env fuel report_id interval (env_time env tr + timeout_s)%float
      (EvTime :: tr).
Proof. reflexivity. Qed.

(** A report whose polling raises leaves its stage with no rows. *)
Lemma fetch_report_rows_degrades (fuel : nat) (rules : Rules)
    (report_type id : string) (e : exn) (tr tr1 tr2 : Trace) :
  create_sp_report env report_type (lookback_days rules) tr = (Val id, tr1) ->
  poll_report env fuel id 5 180 tr1 = (Exn e, tr2) ->
  fetch_report_rows env fuel rules report_type tr = (Val [], tr2).
Proof.
  intros Hc Hp. unfold fetch_report_rows, try_except, bind; cbv beta.
  rewrite Hc, Hp. reflexivity.
Qed.

Lemma main_continues (fuel : nat) (args : Args) (id : string) (e : exn)
    (tr tr1 tr2 : Trace) :
  create_sp_report env "campaigns" 14 (EvHour :: EvHour :: tr) = (Val id, tr1) ->
  poll_report env fuel id 5 180 tr1 = (Exn e, tr2) ->
  main env py_float py_int_str py_lower py_round fuel args tr
  = run_from_campaign_rows env py_float py_int_str py_lower py_round fuel args
      DEFAULT_RULES
      (get_dayparting_multiplier DEFAULT_RULES (env_hour env (EvHour :: tr)))
      [] tr2.
Proof.
  intros Hc Hp. unfold main.
  unfold bind at 1. unfold now_hour at 1, call at 1.
  unfold bind at 1. unfold get_dayparting_multiplier_now, bind at 1.
  unfold now_hour at 1, call at 1. unfold ret at 1.
  unfold bind at 1.
  change (lookback_days DEFAULT_RULES) with 14%Z in *.
  now rewrite (fetch_report_rows_degrades fuel DEFAULT_RULES "campaigns" id e
                 _ tr1 tr2 Hc Hp).
Qed.

Lemma step_bids_degrades (fuel : nat) (args : Args) (rules : Rules)
    (daypart_mult : float) (id : string) (e : exn) (tr tr1 tr2 : Trace) :
  skip_bids args = false ->
  create_sp_report env "keywords" (lookback_days rules) tr = (Val id, tr1) ->
  poll_report env fuel id 5 180 tr1 = (Exn e, tr2) ->
  step_bids env py_float py_int_str py_round fuel args rules daypart_mult tr
  = (Val tt, tr2).
Proof.
  intros Hs Hc Hp. unfold step_bids. rewrite Hs. cbn [negb].
  unfold bind at 1.
  now rewrite (fetch_report_rows_degrades fuel rules "keywords" id e _ tr1 tr2
                 Hc Hp).
Qed.
End CallerFacts.

(** Polling on the sample platform: success, failure, a deadline that
    passes, and a loop cut short by the bound on its iterations. *)
Example poll_report_samples :
  poll_report sample_env 10 "r-campaigns" 5 180 []
  = (Val "https://reports/r-campaigns"%string,
     [EvReportStatus "r-campaigns"; EvTime; EvSleep 5;
      EvReportStatus "r-campaigns"; EvTime; EvTime])
  /\ fst (poll_report sample_env 10 "r-failed" 5 180 []) = Exn RuntimeError
  /\ poll_report sample_env 10 "r-stuck" 5 4 []
     = (Exn TimeoutError,
        [EvTime; EvSleep 5; EvReportStatus "r-stuck"; EvTime; EvTime])
  /\ fst (poll_report sample_env 3 "r-stuck" 5 180 []) = Diverge.
Proof. vm_compute. auto. Qed.

(** The sample campaigns, live and in dry-run mode: the enabled campaign
    with ACOS 0.6 is paused, the paused one with ACOS 0.1 is enabled, the one
    with five clicks is left alone. *)
Example manage_campaigns_samples :
  manage_campaigns_by_acos sample_env int_of_digits sample_campaign_performance
    DEFAULT_RULES false []
  = (Val [paused_action (Some "101"%string) false 0.6;
          enabled_action (Some "102"%string) false 0.1],
     [EvUpdateCampaignState 102 "enabled"; EvUpdateCampaignState 101 "paused"])
  /\ manage_campaigns_by_acos sample_env int_of_digits
       sample_campaign_performance DEFAULT_RULES true []
     = (Val [paused_action (Some "101"%string) true 0.6;
             enabled_action (Some "102"%string) true 0.1],
        []).
Proof. vm_compute. auto. Qed.

(** A whole run on the sample platform.  Live, it calls the three mutating
    methods; in dry-run mode it calls none of them and still writes the
    audit file. *)
Example main_samples :
  fst (main sample_env float_of_int_literal int_of_digits lower_ascii
         no_rounding 10 ARGS_LIVE []) = Val tt
  /\ length (List.filter mutating
               (snd (main sample_env float_of_int_literal int_of_digits
                       lower_ascii no_rounding 10 ARGS_LIVE []))) = 4
  /\ fst (main sample_env float_of_int_literal int_of_digits lower_ascii
            no_rounding 10 ARGS_DRY_RUN []) = Val tt
  /\ List.filter mutating
       (snd (main sample_env float_of_int_literal int_of_digits lower_ascii
               no_rounding 10 ARGS_DRY_RUN [])) = []
  /\ existsb (fun ev => match ev with EvWriteAudit _ => true | _ => false end)
       (snd (main sample_env float_of_int_literal int_of_digits lower_ascii
               no_rounding 10 ARGS_DRY_RUN [])) = true.
Proof. vm_compute. auto. Qed.

(** A run whose campaign report fails: the keyword report is still
    downloaded and the bid is still pushed; only the campaign stage has
    nothing to act on. *)
Example main_campaign_report_failed :
  fst (main (sample_env_with "r-failed") float_of_int_literal int_of_digits
         lower_ascii no_rounding 10 ARGS_LIVE []) = Val tt
  /\ List.filter
       (fun ev => match ev with
                  | EvUpdateKeywordBids _ | EvUpdateCampaignState _ _
                  | EvDownloadReport _ => true
                  | _ => false
                  end)
       (snd (main (sample_env_with "r-failed") float_of_int_literal
               int_of_digits lower_ascii no_rounding 10 ARGS_LIVE []))
     = [EvUpdateKeywordBids [{| bu_keywordId := 7; bu_bid := 1.02 |}];
        EvDownloadReport "https://reports/r-keywords"].
Proof. vm_compute. auto. Qed.

(** * Further properties *)

(** ** More order facts about binary64 comparisons *)

Module PyFloatOrder.
Import PyFloat PyFloatFacts.
Local Open Scope float_scope.

Lemma SFcompare_irrefl (x : spec_float) : SFcompare x x <> Some Lt.
Proof.
  destruct x as [s|s| |s m e]; simpl; try destruct s; try discriminate;
    rewrite Z.compare_refl, Pcompare_refl; discriminate.
Qed.

Lemma ltb_irrefl (x : float) : (x <? x) = false.
Proof.
  rewrite ltb_spec. unfold SFltb.
  pose proof (SFcompare_irrefl (Prim2SF x)) as H.
  destruct (SFcompare _ _) as [[]|]; congruence.
Qed.

Lemma eq_le (x y : float) : eq x y -> le x y.
Proof. float_cmp. destruct (SFcompare _ _) as [[]|]; congruence. Qed.

Lemma SFcompare_Lt_trans (x y z : spec_float) :
  SFcompare x y = Some Lt -> SFcompare y z = Some Lt -> SFcompare x z = Some Lt.
Proof.
  destruct x as [sx|sx| |sx mx ex], y as [sy|sy| |sy my ey],
    z as [sz|sz| |sz mz ez]; simpl;
    try destruct sx; try destruct sy; try destruct sz; simpl;
    try discriminate; try reflexivity; intros H1 H2; try discriminate.
  all: change (PosDef.Pos.compare_cont Eq) with Pos.compare in *.
  all: destruct (Z.compare_spec ex ey), (Z.compare_spec ey ez),
         (Z.compare_spec ex ez); try lia; simpl in *; try discriminate;
         try reflexivity; subst.
  all: destruct (Pos.compare_spec mx my), (Pos.compare_spec my mz),
         (Pos.compare_spec mx mz); simpl in *; try discriminate;
         try reflexivity; try lia.
Qed.

Lemma SFcompare_Lt_asym (x y : spec_float) :
  SFcompare x y = Some Lt -> SFcompare y x <> Some Lt.
Proof.
  intros H1 H2. exact (SFcompare_irrefl x (SFcompare_Lt_trans _ _ _ H1 H2)).
Qed.

Lemma lt_trans (x y z : float) : lt x y -> lt y z -> lt x z.
Proof.
  float_cmp.
  destruct (SFcompare (Prim2SF x) (Prim2SF y)) as [[]|] eqn:E1; try discriminate.
  destruct (SFcompare (Prim2SF y) (Prim2SF z)) as [[]|] eqn:E2; try discriminate.
  intros _ _. now rewrite (SFcompare_Lt_trans _ _ _ E1 E2).
Qed.

Lemma lt_asym (x y : float) : lt x y -> (y <? x) = false.
Proof.
  float_cmp.
  destruct (SFcompare (Prim2SF x) (Prim2SF y)) as [[]|] eqn:E1; try discriminate.
  intros _. pose proof (SFcompare_Lt_asym _ _ E1) as H.
  destruct (SFcompare (Prim2SF y) (Prim2SF x)) as [[]|]; congruence.
Qed.
End PyFloatOrder.

(** ** Clamping, further *)

(** X1. Whatever the bounds (inverted or NaN included), [clamp] returns its
    argument or one of the two bounds, and clamping twice is clamping once. *)
Theorem clamp_idempotent (v lo hi : float) :
  (clamp v lo hi = v \/ clamp v lo hi = lo \/ clamp v lo hi = hi)
  /\ clamp (clamp v lo hi) lo hi = clamp v lo hi.
Proof.
  unfold clamp, PyFloat.py_max, PyFloat.py_min, PyFloat.gtb.
  destruct (v <? hi)%float eqn:Hv.
  - destruct (lo <? v)%float eqn:Hl.
    + rewrite Hv, Hl. auto.
    + destruct (lo <? hi)%float eqn:Hlh;
        rewrite ?PyFloatOrder.ltb_irrefl, ?Hlh; auto.
  - destruct (lo <? hi)%float eqn:Hlh.
    + rewrite PyFloatOrder.ltb_irrefl, Hlh. auto.
    + rewrite Hlh. rewrite ?PyFloatOrder.ltb_irrefl, ?Hlh. auto.
Qed.

Lemma clamp_inverted (v lo hi : float) : PyFloat.lt hi lo -> clamp v lo hi = lo.
Proof.
  intros Hinv. unfold clamp, PyFloat.py_max, PyFloat.py_min, PyFloat.gtb.
  destruct (v <? hi)%float eqn:Hv.
  - destruct (lo <? v)%float eqn:Hl; [|reflexivity].
    pose proof (PyFloatOrder.lt_trans _ _ _ Hl Hv) as Hlh.
    apply PyFloatOrder.lt_asym in Hlh. unfold PyFloat.lt in Hinv. congruence.
  - now rewrite (PyFloatOrder.lt_asym _ _ Hinv).
Qed.

(** X2. With the bounds inverted ([max_bid < min_bid]) every value clamps to
    [min_bid], so every bid [decide_bid_change] proposes is [min_bid]. *)
Theorem inverted_bounds_give_min_bid (rules : Rules) :
  PyFloat.lt (max_bid rules) (min_bid rules) ->
  (forall v : float, clamp v (min_bid rules) (max_bid rules) = min_bid rules)
  /\ (forall (current_hour : Z) (ctr acos : float) (clicks : Z)
             (cost sales current_bid b : float),
         decide_bid_change rules current_hour ctr acos clicks cost sales
           current_bid = Some b ->
         b = min_bid rules).
Proof.
  intros Hinv. split.
  - intros v. now apply clamp_inverted.
  - intros h ctr acos clicks cost sales bid b Hb.
    apply decide_bid_change_is_clamped in Hb as [v ->].
    now apply clamp_inverted.
Qed.

Lemma inverted_bounds_give_min_bid_witness :
  (forall v : float, clamp v 5.00 0.25 = 5.00%float)
  /\ (forall (current_hour : Z) (ctr acos : float) (clicks : Z)
             (cost sales current_bid b : float),
         decide_bid_change (with_bid_bounds DEFAULT_RULES 5.00 0.25)
           current_hour ctr acos clicks cost sales current_bid = Some b ->
         b = 5.00%float).
Proof.
  apply (inverted_bounds_give_min_bid (with_bid_bounds DEFAULT_RULES 5.00 0.25)).
  reflexivity.
Defined.

(** ** The bid rule cascade, further *)

Lemma default_multiplier_not_one (current_hour : Z) :
  PyFloat.neqb (get_dayparting_multiplier DEFAULT_RULES current_hour) 1.0 = true.
Proof.
  unfold get_dayparting_multiplier. simpl.
  destruct (bool_decide _); reflexivity.
Qed.

Lemma decide_bid_change_passthrough (rules : Rules) (current_hour : Z)
    (ctr acos : float) (clicks : Z) (cost sales current_bid : float) :
  guarded rules clicks cost = false ->
  PyFloat.neqb (get_dayparting_multiplier rules current_hour) 1.0 = true ->
  exists b,
    decide_bid_change rules current_hour ctr acos clicks cost sales current_bid
    = Some b.
Proof.
  unfold guarded, decide_bid_change. intros -> ->.
  repeat match goal with
         | |- context [if ?c then _ else _] => destruct c
         end; eauto.
Qed.

(** X3. A record that passes the insufficient-data guard always gets a
    proposal when the dayparting multiplier differs from 1.0; under
    [DEFAULT_RULES] the multiplier differs from 1.0 at every hour, so there
    every record that passes the guard gets a proposal. *)
Theorem dayparting_forces_proposal :
  (forall (rules : Rules) (current_hour : Z) (ctr acos : float) (clicks : Z)
          (cost sales current_bid : float),
      guarded rules clicks cost = false ->
      PyFloat.neqb (get_dayparting_multiplier rules current_hour) 1.0 = true ->
      exists b,
        decide_bid_change rules current_hour ctr acos clicks cost sales
          current_bid = Some b)
  /\ (forall (current_hour : Z) (ctr acos : float) (clicks : Z)
             (cost sales current_bid : float),
         guarded DEFAULT_RULES clicks cost = false ->
         exists b,
           decide_bid_change DEFAULT_RULES current_hour ctr acos clicks cost
             sales current_bid = Some b).
Proof.
  split.
  - apply decide_bid_change_passthrough.
  - intros h ctr acos clicks cost sales bid Hg.
    apply decide_bid_change_passthrough; [exact Hg|].
    apply default_multiplier_not_one.
Qed.

Lemma dayparting_forces_proposal_witness :
  exists b,
    decide_bid_change DEFAULT_RULES 3 0.01 0.4 20 8 20 1.00 = Some b.
Proof.
  apply (proj2 dayparting_forces_proposal 3%Z 0.01%float 0.4%float 20%Z
           8%float 20%float 1.00%float).
  reflexivity.
Defined.

(** X4. A record without sales but with spend, as [compute_kpis] reads it,
    that passes the insufficient-data guard is always bid down, whatever its
    clicks and CTR, provided [high_acos] is below infinity. *)
Theorem zero_sales_spend_is_bid_down (py_float : string -> option float)
    (row : gmap string string) (rules : Rules) (current_hour : Z)
    (ctr acos cost sales current_bid : float) (clicks : Z) :
  compute_kpis py_float row = Ok (ctr, acos, cost, sales, clicks) ->
  PyFloat.eq sales 0 ->
  PyFloat.lt 0 cost ->
  guarded rules clicks cost = false ->
  PyFloat.lt (high_acos rules) infinity ->
  decide_bid_change rules current_hour ctr acos clicks cost sales current_bid
  = Some (clamp (current_bid * (1 - down_pct rules)
                 * get_dayparting_multiplier rules current_hour)%float
            (min_bid rules) (max_bid rules)).
Proof.
  intros Hk Hs Hc Hg Hh.
  apply compute_kpis_inv in Hk as (_ & _ & _ & _ & _ & _ & _ & _ & ->).
  rewrite (PyFloatFacts.eq_not_gt _ _ Hs). unfold PyFloat.gtb at 1.
  unfold PyFloat.lt in Hc. rewrite Hc.
  unfold guarded in Hg. unfold decide_bid_change. rewrite Hg. clear Hg.
  apply PyFloatOrder.eq_le in Hs. unfold PyFloat.le in Hs. rewrite Hs.
  unfold PyFloat.gtb, PyFloat.inf. unfold PyFloat.lt in Hh. rewrite Hh.
  destruct ((ctr <? _)%float && _); [reflexivity|].
  destruct (clicks >=? min_clicks rules)%Z; reflexivity.
Qed.

Lemma zero_sales_spend_is_bid_down_witness :
  decide_bid_change DEFAULT_RULES 12 (5 / 100) infinity 5 6 0 1.00
  = Some (clamp (1.00 * (1 - down_pct DEFAULT_RULES)
                 * get_dayparting_multiplier DEFAULT_RULES 12)%float
            (min_bid DEFAULT_RULES) (max_bid DEFAULT_RULES)).
Proof.
  apply (zero_sales_spend_is_bid_down float_of_int_literal
           (sample_row "5" "100" "6" "0") DEFAULT_RULES 12 (5 / 100)%float
           infinity 6%float 0%float 1.00%float 5%Z);
    vm_compute; reflexivity.
Defined.

(** ** The KPI normalizer, further *)

Lemma obind_raise {A B : Type} (o : Outcome A) (k : A -> Outcome B) :
  (forall a, exists e, k a = Raise e) -> exists e, obind o k = Raise e.
Proof. intros Hk. destruct o as [a|e]; simpl; eauto. Qed.

(** X5. A record in which the four columns are absent or empty reads as all
    zeros; no cell is handed to [float]. *)
Theorem compute_kpis_absent_columns (py_float : string -> option float)
    (row : gmap string string) :
  Forall (fun k => row !! k = None \/ row !! k = Some ""%string) kpi_columns ->
  compute_kpis py_float row = Ok (0%float, 0%float, 0%float, 0%float, 0%Z).
Proof.
  intros H. unfold kpi_columns in H.
  apply Forall_cons in H as [H1 H]. apply Forall_cons in H as [H2 H].
  apply Forall_cons in H as [H3 H]. apply Forall_cons in H as [H4 _].
  unfold compute_kpis.
  rewrite (cell_float_missing _ _ _ H1), (cell_float_missing _ _ _ H2),
    (cell_float_missing _ _ _ H3), (cell_float_missing _ _ _ H4).
  reflexivity.
Qed.

Lemma compute_kpis_absent_columns_witness :
  compute_kpis float_of_int_literal
    (<["campaignId" := "101"%string]> (<["cost" := ""%string]> ∅))
  = Ok (0%float, 0%float, 0%float, 0%float, 0%Z).
Proof.
  apply (compute_kpis_absent_columns float_of_int_literal
           (<["campaignId" := "101"%string]> (<["cost" := ""%string]> ∅))).
  unfold kpi_columns. repeat (constructor; [vm_compute; auto|]). constructor.
Defined.

(** X6. A record fails as a whole when one of its four cells is present,
    not empty and not a number; and clicks that read as an infinity or as NaN
    make it fail with OverflowError or ValueError. *)
Theorem compute_kpis_bad_cell (py_float : string -> option float)
    (row : gmap string string) :
  (forall k s, k ∈ kpi_columns -> row !! k = Some s -> s <> ""%string ->
               py_float s = None ->
               exists e, compute_kpis py_float row = Raise e)
  /\ (forall s, row !! "clicks" = Some s -> s <> ""%string ->
                (py_float s = None \/ py_float s = Some nan ->
                 compute_kpis py_float row = Raise ValueError)
                /\ (py_float s = Some infinity
                    \/ py_float s = Some neg_infinity ->
                    compute_kpis py_float row = Raise OverflowError)).
Proof.
  assert (Hcell : forall k s, row !! k = Some s -> s <> ""%string ->
                              py_float s = None ->
                              cell_float py_float row k = Raise ValueError).
  { intros k s Hk Hs Hp. unfold cell_float. rewrite Hk, Hp.
    apply String.eqb_neq in Hs. now rewrite Hs. }
  assert (Hnum : forall k s f, row !! k = Some s -> s <> ""%string ->
                               py_float s = Some f ->
                               cell_float py_float row k = Ok f).
  { intros k s f Hk Hs Hp. unfold cell_float. rewrite Hk, Hp.
    apply String.eqb_neq in Hs. now rewrite Hs. }
  split.
  - intros k s Hin Hk Hs Hp. specialize (Hcell k s Hk Hs Hp).
    unfold kpi_columns in Hin. unfold compute_kpis.
    repeat (apply elem_of_cons in Hin as [-> | Hin]);
      [| | | | now apply elem_of_nil in Hin].
    + rewrite Hcell. simpl. eauto.
    + apply obind_raise. intros ?. apply obind_raise. intros ?.
      rewrite Hcell. simpl. eauto.
    + apply obind_raise. intros ?. apply obind_raise. intros ?.
      apply obind_raise. intros ?. rewrite Hcell. simpl. eauto.
    + apply obind_raise. intros ?. apply obind_raise. intros ?.
      apply obind_raise. intros ?. apply obind_raise. intros ?.
      rewrite Hcell. simpl. eauto.
  - intros s Hk Hs. unfold compute_kpis. split.
    + intros [Hp | Hp].
      * now rewrite (Hcell _ _ Hk Hs Hp).
      * now rewrite (Hnum _ _ _ Hk Hs Hp).
    + intros [Hp | Hp]; now rewrite (Hnum _ _ _ Hk Hs Hp).
Qed.

Lemma compute_kpis_bad_cell_witness :
  exists e,
    compute_kpis float_of_int_literal (sample_row "20" "100" "n/a" "50")
    = Raise e.
Proof.
  apply (proj1 (compute_kpis_bad_cell float_of_int_literal
                  (sample_row "20" "100" "n/a" "50")) "cost"%string
           "n/a"%string).
  - vm_compute. set_solver.
  - vm_compute. reflexivity.
  - discriminate.
  - vm_compute. reflexivity.
Defined.

(** ** How a computation ends *)

Section Ends.
Variable Q : exn -> Prop.

Lemma raises_only_ret {A : Type} (a : A) : raises_only Q (ret a).
Proof. intros tr e. discriminate. Qed.

Lemma raises_only_lift {A : Type} (o : Outcome A) :
  (forall e, o = Raise e -> Q e) -> raises_only Q (lift o).
Proof. intros H tr e. unfold lift. destruct o; simpl; [discriminate|]. intros [= <-]. auto. Qed.

Lemma raises_only_call {A : Type} (ev : Event) (answer : Trace -> Outcome A) :
  (forall tr e, answer tr = Raise e -> Q e) -> raises_only Q (call ev answer).
Proof.
  intros H tr e. unfold call. simpl.
  destruct (answer tr) eqn:Ha; [discriminate|]. intros [= <-]. eauto.
Qed.

Lemma raises_only_bind {A B : Type} (m : M A) (k : A -> M B) :
  raises_only Q m -> (forall a, raises_only Q (k a)) -> raises_only Q (bind m k).
Proof.
  intros Hm Hk tr e. unfold bind. specialize (Hm tr).
  destruct (m tr) as [[a|e'|] tr1]; simpl in *.
  - apply Hk.
  - intros [= <-]. now apply Hm.
  - discriminate.
Qed.

Lemma raises_only_try_except {A : Type} (m : M A) (handler : exn -> M A) :
  (forall e, raises_only Q (handler e)) -> raises_only Q (try_except m handler).
Proof.
  intros Hh tr e. unfold try_except.
  destruct (m tr) as [[a|e'|] tr1]; simpl; try discriminate. apply Hh.
Qed.

Lemma raises_only_for_each {A S : Type} (body : S -> A -> M S) (xs : list A) :
  (forall s x, raises_only Q (body s x)) ->
  forall s, raises_only Q (for_each body xs s).
Proof.
  intros Hbody. induction xs as [|x xs IH]; intros s; simpl.
  - apply raises_only_ret.
  - apply raises_only_bind; [apply Hbody | apply IH].
Qed.
End Ends.

Lemma no_diverge_ret {A : Type} (a : A) : no_diverge (ret a).
Proof. intros tr. discriminate. Qed.

Lemma no_diverge_raise {A : Type} (e : exn) : no_diverge (@raise A e).
Proof. intros tr. discriminate. Qed.

Lemma no_diverge_lift {A : Type} (o : Outcome A) : no_diverge (lift o).
Proof. intros tr. unfold lift. destruct o; discriminate. Qed.

Lemma no_diverge_call {A : Type} (ev : Event) (answer : Trace -> Outcome A) :
  no_diverge (call ev answer).
Proof. intros tr. unfold call. simpl. destruct (answer tr); discriminate. Qed.

Lemma no_diverge_bind {A B : Type} (m : M A) (k : A -> M B) :
  no_diverge m -> (forall a, no_diverge (k a)) -> no_diverge (bind m k).
Proof.
  intros Hm Hk tr. unfold bind. specialize (Hm tr).
  destruct (m tr) as [[a|e'|] tr1]; simpl in *.
  - apply Hk.
  - discriminate.
  - contradiction.
Qed.

Lemma no_diverge_try_except {A : Type} (m : M A) (handler : exn -> M A) :
  no_diverge m -> (forall e, no_diverge (handler e)) ->
  no_diverge (try_except m handler).
Proof.
  intros Hm Hh tr. unfold try_except. specialize (Hm tr).
  destruct (m tr) as [[a|e'|] tr1]; simpl in *.
  - discriminate.
  - apply Hh.
  - contradiction.
Qed.

Lemma no_diverge_for_each {A S : Type} (body : S -> A -> M S) (xs : list A) :
  (forall s x, no_diverge (body s x)) -> forall s, no_diverge (for_each body xs s).
Proof.
  intros Hbody. induction xs as [|x xs IH]; intros s; simpl.
  - apply no_diverge_ret.
  - apply no_diverge_bind; [apply Hbody | apply IH].
Qed.

(** One step of a proof that a computation ends. *)
Ltac no_diverge_step :=
  match goal with
  | |- no_diverge (ret _) => apply no_diverge_ret
  | |- no_diverge (raise _) => apply no_diverge_raise
  | |- no_diverge (lift _) => apply no_diverge_lift
  | |- no_diverge (call _ _) => apply no_diverge_call
  | |- no_diverge (bind _ _) => apply no_diverge_bind; [|intros]
  | |- no_diverge (try_except _ _) => apply no_diverge_try_except; [|intros]
  | |- no_diverge (for_each _ _ _) => apply no_diverge_for_each; intros
  | |- no_diverge (if ?c then _ else _) => destruct c
  | |- no_diverge (match ?x with _ => _ end) => destruct x
  end.

(** A computation that ends and raises nothing returns. *)
Lemma returns_unit (m : M unit) :
  no_diverge m -> raises_only (fun _ => False) m ->
  forall tr, fst (m tr) = Val tt.
Proof.
  intros Hd Hr tr. specialize (Hd tr). specialize (Hr tr).
  destruct (fst (m tr)) as [[]|e|]; [reflexivity | | contradiction].
  destruct (Hr e eq_refl).
Qed.

(** ** Report polling, further *)

Section PollSound.
Variable env : Env.
Variable report_id : string.
Variables interval deadline : float.

Lemma poll_loop_sound (fuel : nat) :
  forall t : Trace,
  exists k,
    k <= fuel
    /\ (forall i, i < k ->
                  round_pending env report_id deadline
                    (after_rounds i report_id interval t))
    /\ ((k = fuel
         /\ poll_loop env fuel report_id interval deadline t
            = (Diverge, after_rounds k report_id interval t))
        \/ (k < fuel
            /\ poll_end env report_id deadline
                 (after_rounds k report_id interval t)
                 (poll_loop env fuel report_id interval deadline t))).
Proof.
  induction fuel as [|fuel IH]; intros t.
  { exists 0. split; [lia|]. split; [intros i Hi; lia|]. left. now split. }
  destruct (env_time env t <? deadline)%float eqn:Ht.
  2:{ exists 0. split; [lia|]. split; [intros i Hi; lia|]. cbn [after_rounds].
    right.
      split; [lia|].
      rewrite poll_loop_timeout by (unfold PyFloat.lt; congruence).
      left. split; [reflexivity|].
      split; [unfold PyFloat.lt; congruence | reflexivity]. }
  destruct (env_report_status env (EvTime :: t) report_id) as [d|e] eqn:Hd.
  2:{ exists 0. split; [lia|]. split; [intros i Hi; lia|]. cbn [after_rounds].
    right.
      split; [lia|]. simpl. unfold bind, time_time, call; cbv beta.
      rewrite Ht, Hd. right. repeat split; auto. }
  destruct (decide (sd_status d = Some "SUCCESS"%string)) as [Hs|Hs].
  { exists 0. split; [lia|]. split; [intros i Hi; lia|]. cbn [after_rounds].
    right.
    split; [lia|]. simpl. unfold bind, time_time, call; cbv beta.
    rewrite Ht, Hd, Hs. simpl.
    destruct (sd_location d) as [loc|] eqn:Hl.
    - repeat split; auto. exists d. auto.
    - right. repeat split; auto. right. exists d. split; [auto|]. right. auto. }
  destruct (decide (sd_status d = Some "FAILURE"%string
                    \/ sd_status d = Some "CANCELLED"%string)) as [Hf|Hf].
  { exists 0. split; [lia|]. split; [intros i Hi; lia|]. cbn [after_rounds].
    right.
    split; [lia|]. rewrite (poll_loop_failure _ _ _ _ _ _ d Ht Hd Hf).
    right. repeat split; auto. right. exists d. split; [auto|]. left. auto. }
  assert (Hp : round_pending env report_id deadline t).
  { split; [exact Ht|]. exists d. split; [exact Hd|]. repeat split; tauto. }
  destruct (IH (poll_round report_id interval ++ t))
    as (k & Hk & Hrounds & Hend).
  exists (S k). split; [lia|]. split.
  - intros [|i] Hi; [exact Hp|]. cbn [after_rounds].
    rewrite <- after_rounds_shift. apply Hrounds. lia.
  - rewrite (poll_loop_pending _ _ _ _ _ _ Hp). cbn [after_rounds].
    rewrite <- after_rounds_shift.
    destruct Hend as [[-> Hdiv] | [Hlt Hend]]; [left | right]; split;
      auto; lia.
Qed.
End PollSound.

(** X7. Every run of [poll_report] consists of some rounds that found the
    report pending before the deadline, of which the last is followed by no
    sleep, and then ends in one of these ways only: the location of a report
    whose status is SUCCESS; TimeoutError after a clock reading not before
    the deadline; the exception of a failed status request, which is not
    retried; RuntimeError on FAILURE or CANCELLED; KeyError on a SUCCESS
    with no location. *)
Theorem poll_report_sound (env : Env) (fuel : nat) (report_id : string)
    (interval timeout_s : float) (tr : Trace) :
  let deadline := (env_time env tr + timeout_s)%float in
  let rounds := fun i => after_rounds i report_id interval (EvTime :: tr) in
  exists k,
    k <= fuel
    /\ (forall i, i < k -> round_pending env report_id deadline (rounds i))
    /\ ((k = fuel
         /\ poll_report env fuel report_id interval timeout_s tr
            = (Diverge, rounds k))
        \/ (k < fuel
            /\ poll_end env report_id deadline (rounds k)
                 (poll_report env fuel report_id interval timeout_s tr))).
Proof.
  intros deadline rounds. rewrite poll_report_unfold.
  apply poll_loop_sound.
Qed.

(** ** The stages of a run: what can end them *)

(** One step of a proof that a computation raises only exceptions of a
    kind. *)
Ltac raises_step :=
  match goal with
  | |- raises_only _ (ret _) => apply raises_only_ret
  | |- raises_only _ (call _ _) =>
      apply raises_only_call; intros; try discriminate; eauto
  | |- raises_only _ (bind _ _) => apply raises_only_bind; [|intros]
  | |- raises_only _ (try_except _ _) => apply raises_only_try_except; intros
  | |- raises_only _ (for_each _ _ _) => apply raises_only_for_each; intros
  | |- raises_only _ (if ?c then _ else _) => destruct c
  | |- raises_only _ (match ?x with _ => _ end) => destruct x
  | |- raises_only _ (let '(_, _) := ?x in _) => destruct x
  end.

Section StageEnds.
Variable env : Env.
Variable py_float : string -> option float.
Variable py_int_str : string -> option Z.
Variable py_lower : string -> string.
Variable py_round : float -> Z -> float.

(** [compute_kpis] raises ValueError or OverflowError only. *)
Lemma compute_kpis_raises (row : gmap string string) (e : exn) :
  compute_kpis py_float row = Raise e -> e = ValueError \/ e = OverflowError.
Proof.
  assert (Hcell : forall k e', cell_float py_float row k = Raise e' ->
                               e' = ValueError).
  { intros k e'. unfold cell_float. destruct (row !! k) as [s|]; [|discriminate].
    destruct (String.eqb s ""); [discriminate|].
    destruct (py_float s); [discriminate|]. congruence. }
  unfold compute_kpis, obind.
  destruct (cell_float py_float row "clicks") as [fc|e1] eqn:H1;
    [|intros [= <-]; left; eapply Hcell; eauto].
  destruct (PyFloat.py_int fc) as [k|e2] eqn:H2.
  2:{ intros [= <-]. unfold PyFloat.py_int in H2.
      destruct (Prim2SF fc); inversion H2; auto. }
  destruct (cell_float py_float row "impressions") as [imp|e3] eqn:H3;
    [|intros [= <-]; left; eapply Hcell; eauto].
  destruct (cell_float py_float row "cost") as [co|e4] eqn:H4;
    [|intros [= <-]; left; eapply Hcell; eauto].
  destruct (cell_float py_float row "attributedSales14d") as [sa|e5] eqn:H5;
    [|intros [= <-]; left; eapply Hcell; eauto].
  destruct (PyFloat.truthy imp); [|discriminate].
  destruct (PyFloat.of_int k) as [c|e6] eqn:H6; [discriminate|].
  intros [= <-]. unfold PyFloat.of_int in H6.
  destruct (is_infinity _); inversion H6; auto.
Qed.

Lemma fetch_report_rows_raises_nothing (fuel : nat) (rules : Rules)
    (report_type : string) :
  raises_only (fun _ => False) (fetch_report_rows env fuel rules report_type).
Proof. unfold fetch_report_rows. repeat raises_step. Qed.

Lemma fetch_report_rows_rows (fuel : nat) (rules : Rules) (report_type : string)
    (tr : Trace) (rows : list (gmap string string)) :
  fst (fetch_report_rows env fuel rules report_type tr) = Val rows ->
  rows = [] \/ exists t url, env_download_report env t url = Ok rows.
Proof.
  unfold fetch_report_rows, try_except, bind, download_report, call; cbv beta.
  destruct (create_sp_report env report_type (lookback_days rules) tr)
    as [[id|e|] tr1]; simpl; [|intros [= <-]; auto|discriminate].
  destruct (poll_report env fuel id 5 180 tr1) as [[url|e|] tr2]; simpl;
    [|intros [= <-]; auto|discriminate].
  destruct (env_download_report env tr2 url) as [rs|e] eqn:Hd; simpl.
  - intros [= <-]. right. eauto.
  - intros [= <-]. auto.
Qed.

Lemma fetch_report_rows_unsupported (fuel : nat) (rules : Rules)
    (report_type : string) (tr : Trace) :
  report_type <> "keywords"%string -> report_type <> "campaigns"%string ->
  fetch_report_rows env fuel rules report_type tr = (Val [], tr).
Proof.
  intros H1 H2. apply String.eqb_neq in H1, H2.
  unfold fetch_report_rows, try_except, bind, create_sp_report; cbv beta.
  now rewrite H1, H2.
Qed.

Lemma manage_campaigns_raises_nothing
    (campaign_performance : list (option string * Perf)) (rules : Rules)
    (dry : bool) :
  raises_only (fun _ => False)
    (manage_campaigns_by_acos env py_int_str campaign_performance rules dry).
Proof.
  unfold manage_campaigns_by_acos, manage_campaign. repeat raises_step.
Qed.

Lemma raises_only_weaken {A : Type} (Q : exn -> Prop) (m : M A) :
  raises_only (fun _ => False) m -> raises_only Q m.
Proof. intros H tr e He. destruct (H tr e He). Qed.

Lemma research_no_diverge (ad_groups : list AdGroup) (rules : Rules)
    (dry : bool) :
  no_diverge (research_and_add_keywords env py_int_str py_lower ad_groups rules
                dry).
Proof.
  unfold research_and_add_keywords, research_ad_group, get_keywords,
    get_keyword_suggestions, create_keywords.
  repeat no_diverge_step.
Qed.

Lemma step_keywords_returns (args : Args) (rules : Rules) (tr : Trace) :
  fst (step_keywords env py_int_str py_lower args rules tr) = Val tt.
Proof.
  apply returns_unit.
  - unfold step_keywords, get_ad_groups.
    repeat first [apply research_no_diverge | no_diverge_step].
  - unfold step_keywords. repeat raises_step.
Qed.

Lemma step_new_campaigns_returns (args : Args) (tr : Trace) :
  fst (step_new_campaigns env args tr) = Val tt.
Proof.
  apply returns_unit.
  - unfold step_new_campaigns, find_products_without_campaigns, get_campaigns,
      get_ad_groups, get_product_ads.
    repeat no_diverge_step.
  - unfold step_new_campaigns. repeat raises_step.
Qed.

Lemma step_new_campaigns_read_only (args : Args) :
  appends read_only (step_new_campaigns env args).
Proof.
  unfold step_new_campaigns, find_products_without_campaigns, get_campaigns,
    get_ad_groups, get_product_ads.
  repeat appends_step.
Qed.
End StageEnds.

(** X8. Fetching a report never raises, whatever fails on the way
    (creation, a missing report identifier, polling, the download); the rows
    it returns are those of a download or none; and a report type other than
    "keywords" and "campaigns" gives no rows without any request. *)
Theorem fetch_report_rows_never_raises (env : Env) (fuel : nat) (rules : Rules)
    (report_type : string) (tr : Trace) :
  (forall e : exn,
      fst (fetch_report_rows env fuel rules report_type tr) <> Exn e)
  /\ (forall rows : list (gmap string string),
         fst (fetch_report_rows env fuel rules report_type tr) = Val rows ->
         rows = [] \/ exists t url, env_download_report env t url = Ok rows)
  /\ (report_type <> "keywords"%string -> report_type <> "campaigns"%string ->
      fetch_report_rows env fuel rules report_type tr = (Val [], tr)).
Proof.
  split; [|split].
  - intros e He.
    exact (fetch_report_rows_raises_nothing env fuel rules report_type tr e He).
  - apply fetch_report_rows_rows.
  - apply fetch_report_rows_unsupported.
Qed.

(** X10. Keyword research (Step 4) and new-campaign creation (Step 5)
    always end normally, whatever the platform answers; and Step 5 calls no
    mutating method, in live mode as in dry-run mode. *)
Theorem late_stages_never_abort (env : Env) (py_int_str : string -> option Z)
    (py_lower : string -> string) (args : Args) (rules : Rules) (tr : Trace) :
  fst (step_keywords env py_int_str py_lower args rules tr) = Val tt
  /\ fst (step_new_campaigns env args tr) = Val tt
  /\ exists new : Trace,
       snd (step_new_campaigns env args tr) = new ++ tr
       /\ Forall (fun ev => mutating ev = false) new.
Proof.
  split; [apply step_keywords_returns|].
  split; [apply step_new_campaigns_returns|].
  apply step_new_campaigns_read_only.
Qed.

(** ** Bid optimization in the run *)

Ltac quiet_step :=
  match goal with
  | |- appends _ (ret _) => apply appends_ret
  | |- appends _ (raise _) => apply appends_raise
  | |- appends _ diverge => apply appends_diverge
  | |- appends _ (lift _) => apply appends_lift
  | |- appends _ (call _ _) => apply appends_call; exact I
  | |- appends _ (bind _ _) => apply appends_bind; [|intros]
  | |- appends _ (try_except _ _) => apply appends_try_except; [|intros]
  | |- appends _ (for_each _ _ _) => apply appends_for_each; intros
  | |- appends _ (if ?c then _ else _) => destruct c
  | |- appends _ (match ?x with _ => _ end) => destruct x
  | |- appends _ (let '(_, _) := ?x in _) => destruct x
  end.

Section BidFacts.
Variable env : Env.
Variable py_float : string -> option float.
Variable py_int_str : string -> option Z.
Variable py_round : float -> Z -> float.
Variable rules : Rules.
Hypothesis bounds_ok : PyFloat.le (min_bid rules) (max_bid rules).

Lemma poll_loop_quiet (fuel : nat) (report_id : string)
    (interval deadline : float) :
  appends quiet (poll_loop env fuel report_id interval deadline).
Proof.
  induction fuel as [|fuel IH]; simpl.
  - apply appends_diverge.
  - unfold time_time, time_sleep. repeat first [exact IH | quiet_step].
Qed.

Lemma fetch_report_rows_quiet (fuel : nat) (rules' : Rules)
    (report_type : string) :
  appends quiet (fetch_report_rows env fuel rules' report_type).
Proof.
  unfold fetch_report_rows, create_sp_report, poll_report, download_report,
    time_time.
  repeat first [apply poll_loop_quiet | quiet_step].
Qed.

Lemma bid_row_quiet (daypart_mult : float)
    (acc : list BidUpdate * list AuditLine) (row : gmap string string) :
  appends quiet (bid_row env py_float py_int_str py_round rules daypart_mult
                   acc row).
Proof.
  unfold bid_row, lookup_current_bid, get_keywords, decide_bid_change_now,
    now_hour.
  repeat quiet_step.
Qed.

(** One row: the lists are left as they are, or get one update and its
    audit line. *)
Lemma bid_row_step (daypart_mult : float)
    (acc : list BidUpdate * list AuditLine) (row : gmap string string)
    (tr : Trace) (acc' : list BidUpdate * list AuditLine) :
  fst (bid_row env py_float py_int_str py_round rules daypart_mult acc row tr)
    = Val acc' ->
  acc' = acc
  \/ exists u a, acc' = (fst acc ++ [u], snd acc ++ [a])
                 /\ pushed py_int_str py_round rules u a.
Proof.
  unfold bid_row.
  destruct (row !! "keywordId") as [keyword_id|]; [|intros [= <-]; auto].
  destruct (negb (nonempty keyword_id)); [intros [= <-]; auto|].
  unfold bind at 1, lift at 1.
  destruct (compute_kpis py_float row) as [[[[[ctr acos] cost] sales] clicks]|e];
    [|discriminate].
  unfold bind at 1.
  destruct (lookup_current_bid env keyword_id tr) as [[[current_bid|]|e|] tr1];
    try discriminate; [|intros [= <-]; auto].
  unfold bind at 1, decide_bid_change_now, bind at 1, now_hour, call, ret.
  set (h := env_hour env tr1).
  destruct (decide_bid_change rules h ctr acos clicks cost sales current_bid)
    as [new_bid|] eqn:Hd; [|intros [= <-]; auto].
  destruct (PyFloat.gtb (abs (new_bid - current_bid)) 0.01) eqn:Hband;
    [|intros [= <-]; auto].
  unfold bind, lift, int_of_id.
  destruct (py_int_str keyword_id) as [kid|] eqn:Hid; [|discriminate].
  intros [= <-]. right. eexists. eexists. split; [reflexivity|].
  unfold pushed. simpl. repeat split; auto.
  exists new_bid, current_bid.
  apply decide_bid_change_is_clamped in Hd as [v ->].
  destruct (clamp_in_range _ _ bounds_ok v) as [Hlo Hhi].
  repeat split; auto.
Qed.

(** The loop over the keyword rows: events of neither kind, and as many
    updates as audit lines, pair by pair. *)
Lemma bid_loop_spec (daypart_mult : float) (rows : list (gmap string string)) :
  forall (acc : list BidUpdate * list AuditLine) (tr : Trace),
  exists (new : Trace) (res : Res (list BidUpdate * list AuditLine)),
    for_each (bid_row env py_float py_int_str py_round rules daypart_mult)
      rows acc tr = (res, new ++ tr)
    /\ Forall quiet new
    /\ (forall acc', res = Val acc' ->
        exists updates lines,
          acc' = (fst acc ++ updates, snd acc ++ lines)
          /\ Forall2 (pushed py_int_str py_round rules) updates lines).
Proof.
  induction rows as [|row rows IH]; intros acc tr.
  - exists [], (Val acc). repeat split; [constructor|].
    intros ? [= <-]. exists [], []. rewrite !app_nil_r.
    split; [now destruct acc | constructor].
  - simpl. unfold bind at 1.
    destruct (bid_row_quiet daypart_mult acc row tr) as (new1 & Hnew1 & Hq1).
    pose proof (bid_row_step daypart_mult acc row tr) as Hstep.
    destruct (bid_row env py_float py_int_str py_round rules daypart_mult acc
                row tr) as [[acc1|e|] tr1]; simpl in Hnew1, Hstep; subst tr1.
    + destruct (IH acc1 (new1 ++ tr)) as (new2 & res & -> & Hq2 & Hres).
      exists (new2 ++ new1), res. rewrite app_assoc.
      split; [reflexivity|]. split; [now apply Forall_app|].
      intros acc' Hacc'. destruct (Hres acc' Hacc') as (us & ls & -> & Hall).
      destruct (Hstep acc1 eq_refl) as [-> | (u & a & -> & Hp)].
      * exists us, ls. auto.
      * exists (u :: us), (a :: ls). simpl. rewrite <- !app_assoc. simpl.
        split; [reflexivity | now constructor].
    + exists new1, (Exn e). repeat split; auto. discriminate.
    + exists new1, Diverge. repeat split; auto. discriminate.
Qed.

Lemma step_bids_trace (fuel : nat) (args : Args) (daypart_mult : float)
    (tr : Trace) :
  exists (reads : Trace) (updates : list BidUpdate) (lines : list AuditLine),
    Forall quiet reads
    /\ Forall2 (pushed py_int_str py_round rules) updates lines
    /\ snd (step_bids env py_float py_int_str py_round fuel args rules
              daypart_mult tr)
       = audit_events lines ++ push_events (dry_run args) updates ++ reads ++ tr.
Proof.
  unfold step_bids. destruct (negb (skip_bids args)).
  2:{ exists [], [], []. repeat split; constructor. }
  unfold bind at 1.
  destruct (fetch_report_rows_quiet fuel rules "keywords" tr)
    as (new1 & Hnew1 & Hq1).
  destruct (fetch_report_rows env fuel rules "keywords" tr)
    as [[rows|e|] tr1]; simpl in Hnew1; subst tr1.
  2,3: exists new1, [], []; repeat split; auto; constructor.
  unfold bind at 1.
  destruct (bid_loop_spec daypart_mult rows ([], []) (new1 ++ tr))
    as (new2 & res & -> & Hq2 & Hres).
  assert (Hq : Forall quiet (new2 ++ new1)) by now apply Forall_app.
  destruct res as [acc| |].
  2,3: exists (new2 ++ new1), [], []; rewrite <- app_assoc;
    repeat split; auto; constructor.
  destruct (Hres acc eq_refl) as (us & ls & -> & Hall). simpl fst. simpl snd.
  exists (new2 ++ new1), us, ls. split; [exact Hq|]. split; [exact Hall|].
  rewrite <- (app_assoc new2 new1 tr).
  destruct Hall as [|u a us ls Hp Hall]; [reflexivity|].
  unfold bind, try_except, update_keyword_bids, call, ret; cbv beta.
  destruct (dry_run args); simpl; [reflexivity|].
  destruct (env_update_keyword_bids env (new2 ++ new1 ++ tr) (u :: us));
    reflexivity.
Qed.
End BidFacts.

(** X11. Step 3, given [min_bid <= max_bid]: besides reads, it adds to the
    trace at most one call of [update_keyword_bids] (none in dry-run mode)
    and at most one writing of the audit file; the updates pushed and the
    audit lines written are non-empty lists that correspond pair by pair,
    each update carrying its line's keyword identifier and new bid; and each
    new bid is the rounding of a bid within [[min_bid, max_bid]] that differs
    from the keyword's current bid by more than 0.01. *)
Theorem step_bids_pushes_once (env : Env) (py_float : string -> option float)
    (py_int_str : string -> option Z) (py_round : float -> Z -> float)
    (rules : Rules) (fuel : nat) (args : Args) (daypart_mult : float)
    (tr : Trace) :
  PyFloat.le (min_bid rules) (max_bid rules) ->
  exists (reads : Trace) (updates : list BidUpdate) (lines : list AuditLine),
    Forall quiet reads
    /\ Forall2 (pushed py_int_str py_round rules) updates lines
    /\ snd (step_bids env py_float py_int_str py_round fuel args rules
              daypart_mult tr)
       = audit_events lines ++ push_events (dry_run args) updates ++ reads ++ tr.
Proof. intros Hb. now apply step_bids_trace. Qed.

Lemma step_bids_pushes_once_witness :
  exists (reads : Trace) (updates : list BidUpdate) (lines : list AuditLine),
    Forall quiet reads
    /\ Forall2 (pushed int_of_digits no_rounding DEFAULT_RULES) updates lines
    /\ snd (step_bids sample_env float_of_int_literal int_of_digits no_rounding
              10 ARGS_LIVE DEFAULT_RULES 1.2 [])
       = audit_events lines ++ push_events (dry_run ARGS_LIVE) updates
         ++ reads ++ [].
Proof.
  apply (step_bids_pushes_once sample_env float_of_int_literal int_of_digits
           no_rounding DEFAULT_RULES 10 ARGS_LIVE 1.2 []).
  reflexivity.
Defined.

(** Step 3 on the sample platform: one update and its audit line. *)
Example step_bids_sample :
  List.filter
    (fun ev => match ev with
               | EvUpdateKeywordBids _ | EvWriteAudit _ => true
               | _ => false
               end)
    (snd (step_bids sample_env float_of_int_literal int_of_digits no_rounding
            10 ARGS_LIVE DEFAULT_RULES 1.2 []))
  = [EvWriteAudit
       [{| au_keyword_id := "7"; au_keyword_text := "organic soil";
           au_old_bid := 1; au_new_bid := 1.02;
           au_change := 1.02 - 1; au_ctr := 20 / 20000;
           au_acos := Some (6 / 50)%float; au_clicks := 20; au_cost := 6;
           au_sales := 50; au_daypart_mult := 1.2 |}];
     EvUpdateKeywordBids [{| bu_keywordId := 7; bu_bid := 1.02 |}]].
Proof. vm_compute. reflexivity. Qed.

(** ** The campaign performance map *)

Section DictFacts.
Context {K V : Type} `{EqDecision K}.

Lemma dict_get_set_eq (k : K) (v : V) (d : list (K * V)) :
  dict_get k (dict_set k v d) = Some v.
Proof.
  induction d as [|[k' v'] d IH]; simpl.
  - now rewrite decide_True.
  - destruct (decide (k = k')) as [->|Hne]; simpl.
    + now rewrite decide_True.
    + now rewrite decide_False.
Qed.

Lemma dict_get_set_ne (k k' : K) (v : V) (d : list (K * V)) :
  k <> k' -> dict_get k' (dict_set k v d) = dict_get k' d.
Proof.
  intros Hne. induction d as [|[k0 v0] d IH]; simpl.
  - rewrite decide_False; [reflexivity | congruence].
  - destruct (decide (k = k0)) as [->|Hne0]; simpl.
    + rewrite !decide_False; [reflexivity | congruence | congruence].
    + destruct (decide (k' = k0)); [reflexivity | exact IH].
Qed.

Lemma dict_set_keys (k : K) (v : V) (d : list (K * V)) :
  (fst <$> dict_set k v d) = (fst <$> d)
  \/ ((k ∉ (fst <$> d)) /\ (fst <$> dict_set k v d) = (fst <$> d) ++ [k]).
Proof.
  induction d as [|[k' v'] d IH].
  - right. split; [apply not_elem_of_nil | reflexivity].
  - cbn [dict_set]. destruct (decide (k = k')) as [->|Hne]; [now left|].
    rewrite !fmap_cons. cbn [fst].
    destruct IH as [IH | [Hnot IH]].
    + left. now rewrite IH.
    + right. split; [|now rewrite IH].
      intros Hin. apply elem_of_cons in Hin as [?|?]; congruence.
Qed.

Lemma dict_set_NoDup (k : K) (v : V) (d : list (K * V)) :
  NoDup d.*1 -> NoDup (dict_set k v d).*1.
Proof.
  intros Hnd. destruct (dict_set_keys k v d) as [-> | [Hnot ->]]; [exact Hnd|].
  apply NoDup_app. split; [exact Hnd|]. split.
  - intros x Hx Hx'. apply list_elem_of_singleton in Hx'. congruence.
  - apply NoDup_singleton.
Qed.

Lemma dict_get_elem_of (k : K) (v : V) (d : list (K * V)) :
  dict_get k d = Some v -> (k, v) ∈ d.
Proof.
  induction d as [|[k' v'] d IH]; simpl; [discriminate|].
  destruct (decide (k = k')) as [->|Hne].
  - intros [= ->]. apply list_elem_of_here.
  - intros Hd. apply list_elem_of_further. auto.
Qed.
End DictFacts.

Section CampaignMapFacts.
Variable env : Env.
Variable py_float : string -> option float.
Variable py_int_str : string -> option Z.

(** One row: no event; the row's campaign gets the row's entry, the other
    campaigns keep theirs, and the identifiers stay distinct. *)
Lemma add_campaign_row_step (d : list (option string * Perf))
    (row : gmap string string) (tr : Trace) (d' : list (option string * Perf))
    (tr' : Trace) :
  add_campaign_row py_float d row tr = (Val d', tr') ->
  tr' = tr
  /\ (exists perf, perf_of_row py_float row perf
                   /\ d' = dict_set (row !! "campaignId") perf d).
Proof.
  unfold add_campaign_row, bind, lift, ret.
  destruct (compute_kpis py_float row)
    as [[[[[ctr acos] cost] sales] clicks]|e] eqn:Hk; [|discriminate].
  intros [= <- <-]. split; [reflexivity|].
  eexists. split; [|reflexivity]. unfold perf_of_row. eauto 10.
Qed.

Lemma campaign_map_loop (rows : list (gmap string string)) :
  forall (d d' : list (option string * Perf)) (tr tr' : Trace),
    for_each (add_campaign_row py_float) rows d tr = (Val d', tr') ->
    tr' = tr
    /\ (NoDup d.*1 -> NoDup d'.*1)
    /\ (forall k, Forall (fun r => r !! "campaignId" <> k) rows ->
                  dict_get k d' = dict_get k d)
    /\ (forall rows1 row rows2,
           rows = rows1 ++ row :: rows2 ->
           Forall (fun r => r !! "campaignId" <> row !! "campaignId") rows2 ->
           exists perf, dict_get (row !! "campaignId") d' = Some perf
                        /\ perf_of_row py_float row perf).
Proof.
  induction rows as [|row rows IH]; intros d d' tr tr'; simpl.
  - intros [= <- <-]. repeat split; auto.
    intros [|? ?] ? ? Heq; discriminate.
  - unfold bind at 1.
    destruct (add_campaign_row py_float d row tr) as [[d1|e|] tr1] eqn:Hrow;
      try discriminate.
    apply add_campaign_row_step in Hrow as (-> & perf & Hperf & ->).
    intros Hloop. apply IH in Hloop as (-> & Hnd & Hother & Hlast).
    split; [reflexivity|]. split; [|split].
    + intros H. apply Hnd. now apply dict_set_NoDup.
    + intros k Hall. apply Forall_cons in Hall as [Hk Hall].
      rewrite (Hother k Hall). now apply dict_get_set_ne.
    + intros [|r0 rows1] row' rows2 Heq Hall; simpl in Heq;
        injection Heq as <- ->.
      * exists perf. split; [|exact Hperf].
        rewrite (Hother _ Hall). apply dict_get_set_eq.
      * eapply Hlast; eauto.
Qed.

Lemma action_ids_of_fired (rules : Rules) (fired : list (option string * Perf))
    (actions : list CampaignAction) :
  Forall2 (action_for rules) fired actions ->
  ca_campaign_id <$> actions = fired.*1.
Proof.
  induction 1 as [|e a fired actions [Hid _] _ IH]; [reflexivity|].
  rewrite !fmap_cons. now rewrite Hid, IH.
Qed.

Lemma manage_campaigns_ids (rules : Rules) (dry : bool)
    (campaign_performance : list (option string * Perf)) (tr : Trace) :
  exists actions tr',
    manage_campaigns_by_acos env py_int_str campaign_performance rules dry tr
      = (Val actions, tr')
    /\ sublist (ca_campaign_id <$> actions) campaign_performance.*1.
Proof.
  unfold manage_campaigns_by_acos. destruct (_ && _).
  - exists [], tr. split; [reflexivity | apply sublist_nil_l].
  - destruct (manage_campaigns_loop env py_int_str rules dry
                campaign_performance [] tr)
      as (added & fired & tr' & Hrun & Hsub & Hall).
    exists added, tr'. split; [exact Hrun|].
    rewrite (action_ids_of_fired _ _ _ Hall). now apply fmap_sublist.
Qed.
End CampaignMapFacts.

(** X12. Building [campaign_performance] from the campaign rows makes no
    call; the map has one entry per campaign identifier, the entry of the
    last row with that identifier (so with the KPIs [compute_kpis] gives
    for that row and its status, "enabled" when the column is absent), and
    nothing for identifiers that no row has. *)
Theorem campaign_performance_last_row_wins (py_float : string -> option float)
    (rows : list (gmap string string))
    (campaign_performance : list (option string * Perf)) (tr tr' : Trace) :
  for_each (add_campaign_row py_float) rows [] tr
    = (Val campaign_performance, tr') ->
  tr' = tr
  /\ NoDup campaign_performance.*1
  /\ (forall k, Forall (fun r => r !! "campaignId" <> k) rows ->
                dict_get k campaign_performance = None)
  /\ (forall rows1 row rows2,
         rows = rows1 ++ row :: rows2 ->
         Forall (fun r => r !! "campaignId" <> row !! "campaignId") rows2 ->
         exists perf,
           dict_get (row !! "campaignId") campaign_performance = Some perf
           /\ perf_of_row py_float row perf).
Proof.
  intros H. apply campaign_map_loop in H as (-> & Hnd & Hother & Hlast).
  repeat split; auto.
  apply Hnd. constructor.
Qed.

Lemma campaign_performance_last_row_wins_witness :
  [] = ([] : Trace)
  /\ NoDup sample_campaign_map.*1
  /\ (forall k, Forall (fun r => r !! "campaignId" <> k) sample_campaign_rows ->
                dict_get k sample_campaign_map = None)
  /\ (forall rows1 row rows2,
         sample_campaign_rows = rows1 ++ row :: rows2 ->
         Forall (fun r => r !! "campaignId" <> row !! "campaignId") rows2 ->
         exists perf,
           dict_get (row !! "campaignId") sample_campaign_map = Some perf
           /\ perf_of_row float_of_int_literal row perf).
Proof.
  apply (campaign_performance_last_row_wins float_of_int_literal
           sample_campaign_rows sample_campaign_map [] []).
  vm_compute. reflexivity.
Defined.

(** X13. A run changes the state of a campaign at most once: for the map
    built from any campaign rows, the campaign identifiers of the actions
    [manage_campaigns_by_acos] returns are pairwise distinct. *)
Theorem one_action_per_campaign (env : Env) (py_float : string -> option float)
    (py_int_str : string -> option Z) (rows : list (gmap string string))
    (campaign_performance : list (option string * Perf)) (rules : Rules)
    (dry : bool) (tr tr' tr2 : Trace) :
  for_each (add_campaign_row py_float) rows [] tr
    = (Val campaign_performance, tr') ->
  exists actions tr3,
    manage_campaigns_by_acos env py_int_str campaign_performance rules dry tr2
      = (Val actions, tr3)
    /\ NoDup (ca_campaign_id <$> actions).
Proof.
  intros H. apply campaign_map_loop in H as (_ & Hnd & _ & _).
  destruct (manage_campaigns_ids env py_int_str rules dry campaign_performance
              tr2) as (actions & tr3 & Hrun & Hsub).
  exists actions, tr3. split; [exact Hrun|].
  eapply sublist_NoDup; [|exact Hsub]. apply Hnd. constructor.
Qed.

Lemma one_action_per_campaign_witness :
  exists actions tr3,
    manage_campaigns_by_acos sample_env int_of_digits sample_campaign_map
      DEFAULT_RULES false [] = (Val actions, tr3)
    /\ NoDup (ca_campaign_id <$> actions).
Proof.
  apply (one_action_per_campaign sample_env float_of_int_literal int_of_digits
           sample_campaign_rows sample_campaign_map DEFAULT_RULES false [] []
           []).
  vm_compute. reflexivity.
Defined.

(** ** Campaign management: dry run against live run *)

Section DryLive.
Variable env : Env.
Variable py_int_str : string -> option Z.
Variable rules : Rules.

(** One campaign, in dry-run mode and live, from any two traces: what the
    live run adds the dry run adds too. *)
Lemma manage_campaign_dry_live (acc_d acc_l : list CampaignAction)
    (entry : option string * Perf) (tr_d tr_l : Trace) :
  exists (add_d add_l : list CampaignAction) (tr_d' tr_l' : Trace),
    manage_campaign env py_int_str rules true acc_d entry tr_d
      = (Val (acc_d ++ add_d), tr_d')
    /\ manage_campaign env py_int_str rules false acc_l entry tr_l
       = (Val (acc_l ++ add_l), tr_l')
    /\ sublist (action_key <$> add_l) (action_key <$> add_d)
    /\ ((forall st, exists tr'',
            update_campaign_state env py_int_str (fst entry) st tr_l
            = (Val tt, tr'')) ->
        action_key <$> add_l = action_key <$> add_d).
Proof.
  unfold manage_campaign. destruct entry as [cid perf]; cbn [fst snd negb].
  set (acos := default 0%float (perf_acos perf)).
  set (st := default "enabled"%string (perf_state perf)).
  set (clicks := default 0%Z (perf_clicks perf)).
  assert (Hnone : exists (add_d add_l : list CampaignAction) (tr_d' tr_l' : Trace),
             ret acc_d tr_d = (Val (acc_d ++ add_d), tr_d')
             /\ ret acc_l tr_l = (Val (acc_l ++ add_l), tr_l')
             /\ sublist (action_key <$> add_l) (action_key <$> add_d)
             /\ ((forall st, exists tr'',
                     update_campaign_state env py_int_str cid st tr_l
                     = (Val tt, tr'')) ->
                 action_key <$> add_l = action_key <$> add_d)).
  { exists [], [], tr_d, tr_l. rewrite !app_nil_r.
    repeat split; auto. }
  destruct (clicks <? min_clicks rules)%Z; [exact Hnone|].
  destruct (_ && _).
  - destruct (String.eqb st "enabled"); [|exact Hnone].
    unfold try_except, bind; cbv beta.
    destruct (update_campaign_state_returns env py_int_str cid "paused" tr_l)
      as (tr' & [Hu | [e Hu]]); rewrite Hu.
    + exists [paused_action cid true acos], [paused_action cid false acos],
        tr_d, tr'. repeat split; auto.
    + exists [paused_action cid true acos], [], tr_d, tr'.
      rewrite app_nil_r. repeat split; auto.
      * apply sublist_nil_l.
      * intros Hok. destruct (Hok "paused"%string) as [tr'' Hok'].
        congruence.
  - destruct (_ && _); [|exact Hnone].
    destruct (String.eqb st "paused"); [|exact Hnone].
    unfold try_except, bind; cbv beta.
    destruct (update_campaign_state_returns env py_int_str cid "enabled" tr_l)
      as (tr' & [Hu | [e Hu]]); rewrite Hu.
    + exists [enabled_action cid true acos], [enabled_action cid false acos],
        tr_d, tr'. repeat split; auto.
    + exists [enabled_action cid true acos], [], tr_d, tr'.
      rewrite app_nil_r. repeat split; auto.
      * apply sublist_nil_l.
      * intros Hok. destruct (Hok "enabled"%string) as [tr'' Hok'].
        congruence.
Qed.

Lemma manage_loop_dry_live (campaign_performance : list (option string * Perf)) :
  forall (acc_d acc_l : list CampaignAction) (tr_d tr_l : Trace),
  exists (add_d add_l : list CampaignAction) (tr_d' tr_l' : Trace),
    for_each (manage_campaign env py_int_str rules true) campaign_performance
      acc_d tr_d = (Val (acc_d ++ add_d), tr_d')
    /\ for_each (manage_campaign env py_int_str rules false)
         campaign_performance acc_l tr_l = (Val (acc_l ++ add_l), tr_l')
    /\ sublist (action_key <$> add_l) (action_key <$> add_d)
    /\ ((forall entry st tr, entry ∈ campaign_performance ->
            exists tr'',
              update_campaign_state env py_int_str (fst entry) st tr
              = (Val tt, tr'')) ->
        action_key <$> add_l = action_key <$> add_d).
Proof.
  induction campaign_performance as [|entry rest IH]; intros acc_d acc_l tr_d tr_l.
  - exists [], [], tr_d, tr_l. simpl. rewrite !app_nil_r. repeat split; auto.
  - simpl. unfold bind at 1 2.
    destruct (manage_campaign_dry_live acc_d acc_l entry tr_d tr_l)
      as (d1 & l1 & td1 & tl1 & -> & -> & Hsub1 & Heq1).
    destruct (IH (acc_d ++ d1) (acc_l ++ l1) td1 tl1)
      as (d2 & l2 & td2 & tl2 & -> & -> & Hsub2 & Heq2).
    exists (d1 ++ d2), (l1 ++ l2), td2, tl2. rewrite !app_assoc.
    repeat split; auto.
    + rewrite !fmap_app. now apply sublist_app.
    + intros Hok. rewrite !fmap_app. rewrite Heq1, Heq2; auto.
      * intros e st tr He. apply Hok. now apply list_elem_of_further.
      * intros st. apply Hok. apply list_elem_of_here.
Qed.
End DryLive.

(** X14. A dry run reports every action a live run can take: on the same
    campaigns, whatever the platform answers in either run, the actions of
    the live run are, in order, among those of the dry run (same campaign,
    same reason, same ACOS); and they are all of them when the platform
    accepts every update of a campaign of the map, which asks for each
    campaign identifier of the map to be a number. *)
Theorem dry_run_previews_campaign_actions (env : Env)
    (py_int_str : string -> option Z)
    (campaign_performance : list (option string * Perf)) (rules : Rules)
    (tr_d tr_l : Trace) :
  exists (dry live : list CampaignAction) (tr_d' tr_l' : Trace),
    manage_campaigns_by_acos env py_int_str campaign_performance rules true tr_d
      = (Val dry, tr_d')
    /\ manage_campaigns_by_acos env py_int_str campaign_performance rules false
         tr_l = (Val live, tr_l')
    /\ sublist (action_key <$> live) (action_key <$> dry)
    /\ ((forall entry st tr, entry ∈ campaign_performance ->
            exists tr'',
              update_campaign_state env py_int_str (fst entry) st tr
              = (Val tt, tr'')) ->
        action_key <$> live = action_key <$> dry).
Proof.
  unfold manage_campaigns_by_acos. destruct (_ && _).
  - exists [], [], tr_d, tr_l. repeat split; auto.
  - destruct (manage_loop_dry_live env py_int_str rules campaign_performance
                [] [] tr_d tr_l) as (d & l & td & tl & Hd & Hl & Hsub & Heq).
    exists d, l, td, tl. auto.
Qed.

Lemma dry_run_previews_campaign_actions_witness :
  exists dry live : list CampaignAction,
    fst (manage_campaigns_by_acos sample_env int_of_digits
           sample_campaign_performance DEFAULT_RULES true []) = Val dry
    /\ fst (manage_campaigns_by_acos sample_env int_of_digits
              sample_campaign_performance DEFAULT_RULES false []) = Val live
    /\ action_key <$> live = action_key <$> dry
    /\ length live = 2.
Proof.
  destruct (dry_run_previews_campaign_actions sample_env int_of_digits
              sample_campaign_performance DEFAULT_RULES [] [])
    as (dry & live & tr_d' & tr_l' & Hdry & Hlive & _ & Hall).
  exists dry, live. rewrite Hdry, Hlive.
  split; [reflexivity|]. split; [reflexivity|]. split.
  - apply Hall. intros entry st tr Hin.
    unfold sample_campaign_performance in Hin.
    repeat (apply elem_of_cons in Hin as [-> | Hin]);
      [| | |now apply elem_of_nil in Hin];
      eexists; reflexivity.
  - vm_compute in Hlive. injection Hlive as <- _. reflexivity.
Defined.

(** ** Keyword research, further *)

Section CollectFacts.
Variable py_int_str : string -> option Z.
Variable py_lower : string -> string.
Variable rules : Rules.
Variables campaign_id ad_group_id : string.

Lemma collect_new_keywords_origin (suggestions : list Suggestion) :
  forall (existing : gset string) (new_keywords res : list NewKeyword),
    collect_new_keywords py_int_str py_lower rules campaign_id ad_group_id
      suggestions existing new_keywords = Ok res ->
    exists added,
      res = new_keywords ++ added
      /\ Forall (candidate_of py_int_str rules campaign_id ad_group_id) added
      /\ sublist (nk_keywordText <$> added) (suggestion_text <$> suggestions)
      /\ (length res < 5 ->
          Forall (fun s => py_lower (suggestion_text s) ∈ existing
                           \/ py_lower (suggestion_text s)
                              ∈ (py_lower <$> (nk_keywordText <$> added)))
            suggestions).
Proof.
  induction suggestions as [|s rest IH]; intros existing new res;
    cbn [collect_new_keywords].
  - intros [= <-]. exists []. rewrite app_nil_r.
    repeat split; constructor.
  - fold (suggestion_text s).
    destruct (bool_decide (py_lower (suggestion_text s) ∈ existing)) eqn:Hin.
    + apply bool_decide_eq_true in Hin. intros H.
      apply IH in H as (added & -> & Hc & Hsub & Hall).
      exists added. split; [reflexivity|]. split; [exact Hc|]. split.
      * rewrite fmap_cons. now apply sublist_cons.
      * intros Hlen. constructor; auto.
    + unfold obind, int_of_id.
      destruct (py_int_str campaign_id) as [cid|] eqn:Hcid; [|discriminate].
      destruct (py_int_str ad_group_id) as [aid|] eqn:Haid; [|discriminate].
      set (kw := {| nk_campaignId := cid; nk_adGroupId := aid;
                    nk_keywordText := suggestion_text s;
                    nk_matchType := default "broad"%string (sg_matchType s);
                    nk_state := "enabled";
                    nk_bid := default 0.50%float (new_keyword_bid rules) |}).
      assert (Hkw : candidate_of py_int_str rules campaign_id ad_group_id kw)
        by (repeat split; assumption).
      destruct (Z.of_nat (length (new ++ [kw])) >=? 5)%Z eqn:Hfull.
      * intros [= <-]. exists [kw]. split; [reflexivity|].
        split; [now repeat constructor|]. split.
        -- rewrite !fmap_cons. apply sublist_skip, sublist_nil_l.
        -- intros Hlen. rewrite Z.geb_leb in Hfull. apply Z.leb_le in Hfull. lia.
      * intros H. apply IH in H as (added & -> & Hc & Hsub & Hall).
        exists (kw :: added). rewrite <- app_assoc. split; [reflexivity|].
        split; [now constructor|]. split.
        -- rewrite !fmap_cons. now apply sublist_skip.
        -- intros Hlen. rewrite <- app_assoc in Hall.
           constructor.
           ++ right. rewrite !fmap_cons. apply list_elem_of_here.
           ++ eapply Forall_impl; [exact (Hall Hlen)|]. cbv beta.
              intros s' [Hs'|Hs'].
              ** apply elem_of_union in Hs' as [Hs'|Hs']; [now left|].
                 apply elem_of_singleton in Hs'. right. rewrite !fmap_cons.
                 rewrite Hs'. apply list_elem_of_here.
              ** right. rewrite !fmap_cons. now apply list_elem_of_further.
Qed.
End CollectFacts.

(** X15. The candidates collected for an ad group are made from the
    suggestions, in their order; each carries the ad group's campaign and ad
    group identifiers as numbers, the state "enabled" and the new-keyword bid
    of the rules (0.50 when absent); and when fewer than five are collected,
    no new text was passed over: every suggestion is, lower-cased, an
    existing text or the text of a candidate. *)
Theorem collected_candidates_come_from_suggestions
    (py_int_str : string -> option Z) (py_lower : string -> string)
    (rules : Rules) (campaign_id ad_group_id : string)
    (suggestions : list Suggestion) (existing : gset string)
    (res : list NewKeyword) :
  collect_new_keywords py_int_str py_lower rules campaign_id ad_group_id
    suggestions existing [] = Ok res ->
  Forall (candidate_of py_int_str rules campaign_id ad_group_id) res
  /\ sublist (nk_keywordText <$> res) (suggestion_text <$> suggestions)
  /\ (length res < 5 ->
      Forall (fun s => py_lower (suggestion_text s) ∈ existing
                       \/ py_lower (suggestion_text s)
                          ∈ (py_lower <$> (nk_keywordText <$> res)))
        suggestions).
Proof.
  intros H. apply collect_new_keywords_origin in H as (added & -> & H).
  exact H.
Qed.

Lemma collected_candidates_come_from_suggestions_witness :
  Forall (candidate_of int_of_digits DEFAULT_RULES "101" "55")
    (sample_candidate <$> ["Compost"; "worm castings"]%string)
  /\ sublist (nk_keywordText <$>
                (sample_candidate <$> ["Compost"; "worm castings"]%string))
       (suggestion_text <$> sample_suggestions)
  /\ (length (sample_candidate <$> ["Compost"; "worm castings"]%string) < 5 ->
      Forall (fun s => lower_ascii (suggestion_text s)
                         ∈ ({[ "organic soil"%string ]} : gset string)
                       \/ lower_ascii (suggestion_text s)
                          ∈ (lower_ascii <$>
                               (nk_keywordText <$>
                                  (sample_candidate <$>
                                     ["Compost"; "worm castings"]%string))))
        sample_suggestions).
Proof.
  apply (collected_candidates_come_from_suggestions int_of_digits lower_ascii
           DEFAULT_RULES "101" "55" sample_suggestions
           {[ "organic soil"%string ]}
           (sample_candidate <$> ["Compost"; "worm castings"]%string)).
  vm_compute. reflexivity.
Defined.

Section ResearchEdges.
Variable env : Env.
Variable py_int_str : string -> option Z.
Variable py_lower : string -> string.
Variable rules : Rules.

(** The batch collected for an ad group from the platform's answers at
    trace [tr]; [None] when the ad group is skipped or the step raises
    before a batch is made. *)
Lemma research_ad_group_dry_live (added_keywords : list AddedKeyword)
    (ad_group : AdGroup) (tr : Trace) :
  exists batch : list NewKeyword,
    snd (research_ad_group env py_int_str py_lower rules false added_keywords
           ad_group tr)
    = create_events batch
      ++ snd (research_ad_group env py_int_str py_lower rules true
                added_keywords ad_group tr)
    /\ (forall added', fst (research_ad_group env py_int_str py_lower rules
                              true added_keywords ad_group tr) = Val added' ->
                       added' = added_keywords
                                ++ (added_entry (ag_adGroupId ad_group)
                                      "dry-run" <$> batch))
    /\ (batch = [] ->
        fst (research_ad_group env py_int_str py_lower rules false
               added_keywords ad_group tr)
        = fst (research_ad_group env py_int_str py_lower rules true
                 added_keywords ad_group tr)).
Proof.
  unfold research_ad_group, get_keywords, get_keyword_suggestions,
    create_keywords, bind, call, lift, try_except, ret; cbv beta.
  set (id := ag_adGroupId ad_group).
  set (f := if nonempty id then Some id else None).
  destruct (env_get_keywords env tr f) as [kws|e].
  2:{ exists []. repeat split; auto. discriminate. }
  destruct (Z.of_nat (length kws) >=? default 50 (max_keywords_per_campaign rules))%Z.
  { exists []. repeat split; auto. intros ? [= <-]. now rewrite app_nil_r. }
  destruct (env_get_keyword_suggestions env _ id 20) as [suggestions|e].
  - destruct (collect_new_keywords _ _ _ _ _ suggestions _ _) as [batch|e].
    2:{ exists []. repeat split; auto. discriminate. }
    exists batch. destruct batch as [|kw batch].
    { repeat split; auto. intros ? [= <-]. now rewrite app_nil_r. }
    cbn [negb].
    destruct (env_create_keywords env _ (kw :: batch));
      repeat split; auto; try discriminate; intros ? [= <-]; reflexivity.
  - destruct (collect_new_keywords _ _ _ _ _ [] _ _) as [batch|e'].
    2:{ exists []. repeat split; auto. discriminate. }
    exists batch. destruct batch as [|kw batch].
    { repeat split; auto. intros ? [= <-]. now rewrite app_nil_r. }
    cbn [negb].
    destruct (env_create_keywords env _ (kw :: batch));
      repeat split; auto; try discriminate; intros ? [= <-]; reflexivity.
Qed.

Lemma research_ad_group_skips (dry : bool) (added_keywords : list AddedKeyword)
    (ad_group : AdGroup) (tr : Trace) (existing_keywords : list Keyword) :
  env_get_keywords env tr (keyword_filter ad_group) = Ok existing_keywords ->
  let tr1 := EvGetKeywords (keyword_filter ad_group) :: tr in
  ((Z.of_nat (length existing_keywords)
    >= default 50 (max_keywords_per_campaign rules))%Z ->
   research_ad_group env py_int_str py_lower rules dry added_keywords ad_group tr
   = (Val added_keywords, tr1))
  /\ ((Z.of_nat (length existing_keywords)
       < default 50 (max_keywords_per_campaign rules))%Z ->
      (forall e, env_get_keyword_suggestions env tr1 (ag_adGroupId ad_group) 20
                 = Raise e ->
                 research_ad_group env py_int_str py_lower rules dry
                   added_keywords ad_group tr
                 = (Val added_keywords,
                    EvGetKeywordSuggestions (ag_adGroupId ad_group) 20 :: tr1))).
Proof.
  intros Hk tr1. subst tr1. unfold keyword_filter in *.
  unfold research_ad_group, get_keywords, get_keyword_suggestions, bind, call,
    lift, try_except, ret; cbv beta.
  rewrite Hk. split.
  - intros Hq. apply Z.geb_ge in Hq. now rewrite Hq.
  - intros Hq e He. rewrite Z.geb_leb.
    apply Z.leb_gt in Hq. now rewrite Hq, He.
Qed.

End ResearchEdges.

(** X16. An ad group that already has as many keywords as
    [max_keywords_per_campaign] allows (50 when absent) is skipped after the
    one request for its keywords; and an ad group below the quota whose
    suggestion request fails gets no candidate: in both cases the result is
    left as it is and nothing is created. *)
Theorem research_skips_ad_group (env : Env) (py_int_str : string -> option Z)
    (py_lower : string -> string) (rules : Rules) (dry : bool)
    (added_keywords : list AddedKeyword) (ad_group : AdGroup) (tr : Trace)
    (existing_keywords : list Keyword) :
  env_get_keywords env tr (keyword_filter ad_group) = Ok existing_keywords ->
  let tr1 := EvGetKeywords (keyword_filter ad_group) :: tr in
  ((Z.of_nat (length existing_keywords)
    >= default 50 (max_keywords_per_campaign rules))%Z ->
   research_ad_group env py_int_str py_lower rules dry added_keywords ad_group tr
   = (Val added_keywords, tr1))
  /\ ((Z.of_nat (length existing_keywords)
       < default 50 (max_keywords_per_campaign rules))%Z ->
      (forall e, env_get_keyword_suggestions env tr1 (ag_adGroupId ad_group) 20
                 = Raise e ->
                 research_ad_group env py_int_str py_lower rules dry
                   added_keywords ad_group tr
                 = (Val added_keywords,
                    EvGetKeywordSuggestions (ag_adGroupId ad_group) 20 :: tr1))).
Proof. apply research_ad_group_skips. Qed.

Lemma research_skips_ad_group_witness :
  research_ad_group sample_env_full int_of_digits lower_ascii DEFAULT_RULES
    false [] sample_ad_group []
  = (Val [], [EvGetKeywords (Some "55"%string)]).
Proof.
  refine (proj1 (research_skips_ad_group sample_env_full int_of_digits
                   lower_ascii DEFAULT_RULES false [] sample_ad_group []
                   (replicate 50 {| kw_keywordId := "7";
                                    kw_keywordText := Some "soil"%string;
                                    kw_bid := None |}) _) _).
  - reflexivity.
  - vm_compute. discriminate.
Defined.

(** X17. For one ad group and the same answers of the platform, the dry run
    previews the live run: there is a batch of candidates such that the live
    run makes exactly the calls of the dry run followed, when the batch is
    not empty, by one [create_keywords] call with that batch, and the dry
    run, when it returns, adds exactly the batch's entries marked
    "dry-run". *)
Theorem dry_run_previews_keyword_batch (env : Env)
    (py_int_str : string -> option Z) (py_lower : string -> string)
    (rules : Rules) (added_keywords : list AddedKeyword) (ad_group : AdGroup)
    (tr : Trace) :
  exists batch : list NewKeyword,
    snd (research_ad_group env py_int_str py_lower rules false added_keywords
           ad_group tr)
    = create_events batch
      ++ snd (research_ad_group env py_int_str py_lower rules true
                added_keywords ad_group tr)
    /\ (forall added', fst (research_ad_group env py_int_str py_lower rules
                              true added_keywords ad_group tr) = Val added' ->
                       added' = added_keywords
                                ++ (added_entry (ag_adGroupId ad_group)
                                      "dry-run" <$> batch))
    /\ (batch = [] ->
        fst (research_ad_group env py_int_str py_lower rules false
               added_keywords ad_group tr)
        = fst (research_ad_group env py_int_str py_lower rules true
                 added_keywords ad_group tr)).
Proof. apply research_ad_group_dry_live. Qed.

(** ** Bid optimization in the run: the rows that change nothing *)

Section BidRowSkips.
Variable env : Env.
Variable py_float : string -> option float.
Variable py_int_str : string -> option Z.
Variable py_round : float -> Z -> float.
Variable rules : Rules.
Variable daypart_mult : float.

Lemma lookup_current_bid_eq (keyword_id : string) (tr : Trace) :
  lookup_current_bid env keyword_id tr
  = (Val (match env_get_keywords env tr None with
          | Ok keywords =>
              match List.find (fun k => String.eqb (kw_keywordId k) keyword_id)
                      keywords with
              | Some keyword_data => Some (default 0%float (kw_bid keyword_data))
              | None => None
              end
          | Raise _ => None
          end),
     EvGetKeywords None :: tr).
Proof.
  unfold lookup_current_bid, try_except, bind, get_keywords, call, ret; cbv beta.
  destruct (env_get_keywords env tr None) as [kws|e]; [|reflexivity].
  destruct (List.find _ kws); reflexivity.
Qed.

Lemma find_none_of_Forall (keyword_id : string) (keywords : list Keyword) :
  Forall (fun k => kw_keywordId k <> keyword_id) keywords ->
  List.find (fun k => String.eqb (kw_keywordId k) keyword_id) keywords = None.
Proof.
  induction 1 as [|k ks Hk _ IH]; simpl; [reflexivity|].
  apply String.eqb_neq in Hk. now rewrite Hk.
Qed.

Lemma bid_row_unlisted (acc : list BidUpdate * list AuditLine)
    (row : gmap string string) (tr : Trace) (keyword_id : string)
    (kpis : float * float * float * float * Z) :
  row !! "keywordId" = Some keyword_id -> keyword_id <> ""%string ->
  compute_kpis py_float row = Ok kpis ->
  (forall e, env_get_keywords env tr None = Raise e ->
             bid_row env py_float py_int_str py_round rules daypart_mult acc
               row tr = (Val acc, EvGetKeywords None :: tr))
  /\ (forall keywords,
         env_get_keywords env tr None = Ok keywords ->
         Forall (fun k => kw_keywordId k <> keyword_id) keywords ->
         bid_row env py_float py_int_str py_round rules daypart_mult acc row tr
         = (Val acc, EvGetKeywords None :: tr)).
Proof.
  intros Hid Hne Hk. apply String.eqb_neq in Hne.
  destruct kpis as [[[[ctr acos] cost] sales] clicks].
  assert (Hrow : forall found,
             lookup_current_bid env keyword_id tr
             = (Val found, EvGetKeywords None :: tr) ->
             found = None ->
             bid_row env py_float py_int_str py_round rules daypart_mult acc
               row tr = (Val acc, EvGetKeywords None :: tr)).
  { intros found Hl ->. unfold bid_row, nonempty. rewrite Hid, Hne. cbn [negb].
    unfold bind at 1, lift at 1. rewrite Hk. unfold bind at 1.
    rewrite Hl. reflexivity. }
  split.
  - intros e He. eapply Hrow; [apply lookup_current_bid_eq|].
    now rewrite He.
  - intros kws Hkws Hall. eapply Hrow; [apply lookup_current_bid_eq|].
    now rewrite Hkws, (find_none_of_Forall _ _ Hall).
Qed.

Lemma bid_row_no_id (acc : list BidUpdate * list AuditLine)
    (row : gmap string string) (tr : Trace) :
  row !! "keywordId" = None \/ row !! "keywordId" = Some ""%string ->
  bid_row env py_float py_int_str py_round rules daypart_mult acc row tr
  = (Val acc, tr).
Proof. unfold bid_row. intros [-> | ->]; reflexivity. Qed.
End BidRowSkips.

(** X19. A keyword row whose [keywordId] is absent or empty is passed over
    without any call, before its cells are read; a row with an identifier
    and readable cells whose keyword the keywords API does not list, or for
    which the keywords request fails, is passed over after that one request:
    no update, no audit line. *)
Theorem bid_row_passes_over (env : Env) (py_float : string -> option float)
    (py_int_str : string -> option Z) (py_round : float -> Z -> float)
    (rules : Rules) (daypart_mult : float)
    (acc : list BidUpdate * list AuditLine) (row : gmap string string)
    (tr : Trace) :
  (row !! "keywordId" = None \/ row !! "keywordId" = Some ""%string ->
   bid_row env py_float py_int_str py_round rules daypart_mult acc row tr
   = (Val acc, tr))
  /\ (forall keyword_id kpis,
         row !! "keywordId" = Some keyword_id -> keyword_id <> ""%string ->
         compute_kpis py_float row = Ok kpis ->
         (forall e, env_get_keywords env tr None = Raise e ->
                    bid_row env py_float py_int_str py_round rules daypart_mult
                      acc row tr = (Val acc, EvGetKeywords None :: tr))
         /\ (forall keywords,
                env_get_keywords env tr None = Ok keywords ->
                Forall (fun k => kw_keywordId k <> keyword_id) keywords ->
                bid_row env py_float py_int_str py_round rules daypart_mult acc
                  row tr = (Val acc, EvGetKeywords None :: tr))).
Proof.
  split.
  - apply bid_row_no_id.
  - intros keyword_id kpis. apply bid_row_unlisted.
Qed.

Lemma bid_row_passes_over_witness :
  bid_row sample_env float_of_int_literal int_of_digits no_rounding
    DEFAULT_RULES 1.2 ([], [])
    (<["keywordId" := "8"%string]> (sample_row "20" "20000" "6" "50")) []
  = (Val ([], []), [EvGetKeywords None]).
Proof.
  refine (proj2 (proj2 (bid_row_passes_over sample_env float_of_int_literal
                          int_of_digits no_rounding DEFAULT_RULES 1.2 ([], [])
                          (<["keywordId" := "8"%string]>
                             (sample_row "20" "20000" "6" "50")) [])
                   "8"%string
                   ((20 / 20000)%float, (6 / 50)%float, 6%float, 50%float, 20%Z)
                   _ _ _)
            [ {| kw_keywordId := "7"; kw_keywordText := Some "Organic Soil"%string;
                 kw_bid := Some 1.00%float |} ] _ _).
  - vm_compute. reflexivity.
  - discriminate.
  - vm_compute. reflexivity.
  - reflexivity.
  - repeat constructor. discriminate.
Defined.

(** ** The run after a failed report *)

Lemma begins_with_call {A : Type} (ev : Event) (answer : Trace -> Outcome A) :
  begins_with ev (call ev answer).
Proof. intros tr. exists []. reflexivity. Qed.

Lemma begins_with_bind {A B : Type} (ev : Event) (m : M A) (k : A -> M B) :
  begins_with ev m -> (forall a, appends (fun _ => True) (k a)) ->
  begins_with ev (bind m k).
Proof.
  intros Hm Hk tr. unfold bind. destruct (Hm tr) as (new & Hnew).
  destruct (m tr) as [[a|e|] tr1]; simpl in Hnew; subst tr1.
  - destruct (Hk a (new ++ ev :: tr)) as (new' & Hnew' & _).
    exists (new' ++ new). rewrite Hnew'. now rewrite app_assoc.
  - now exists new.
  - now exists new.
Qed.

Lemma begins_with_try_except {A : Type} (ev : Event) (m : M A)
    (handler : exn -> M A) :
  begins_with ev m -> (forall e, appends (fun _ => True) (handler e)) ->
  begins_with ev (try_except m handler).
Proof.
  intros Hm Hh tr. unfold try_except. destruct (Hm tr) as (new & Hnew).
  destruct (m tr) as [[a|e|] tr1]; simpl in Hnew; subst tr1.
  - now exists new.
  - destruct (Hh e (new ++ ev :: tr)) as (new' & Hnew' & _).
    exists (new' ++ new). rewrite Hnew'. now rewrite app_assoc.
  - now exists new.
Qed.

Section RunContinues.
Variable env : Env.
Variable py_float : string -> option float.
Variable py_int_str : string -> option Z.
Variable py_lower : string -> string.
Variable py_round : float -> Z -> float.

Lemma poll_loop_extends (fuel : nat) (report_id : string)
    (interval deadline : float) :
  appends (fun _ => True) (poll_loop env fuel report_id interval deadline).
Proof.
  induction fuel as [|fuel IH]; simpl.
  - apply appends_diverge.
  - unfold time_time, time_sleep. repeat first [exact IH | quiet_step].
Qed.

Lemma step_keywords_extends (args : Args) (rules : Rules) :
  appends (fun _ => True) (step_keywords env py_int_str py_lower args rules).
Proof.
  unfold step_keywords, get_ad_groups, research_and_add_keywords,
    research_ad_group, get_keywords, get_keyword_suggestions, create_keywords.
  repeat quiet_step.
Qed.

Lemma step_new_campaigns_extends (args : Args) :
  appends (fun _ => True) (step_new_campaigns env args).
Proof.
  unfold step_new_campaigns, find_products_without_campaigns, get_campaigns,
    get_ad_groups, get_product_ads.
  repeat quiet_step.
Qed.

(** Step 2 on the empty map does nothing. *)
Lemma step_campaigns_no_rows (args : Args) (rules : Rules) (tr : Trace) :
  step_campaigns env py_int_str args rules [] tr = (Val tt, tr).
Proof.
  unfold step_campaigns, manage_campaigns_by_acos.
  destruct (negb (skip_campaigns args)); [|reflexivity].
  destruct (_ && _); reflexivity.
Qed.

(** Step 3, when not skipped, begins by asking for the keyword report. *)
Lemma step_bids_begins (fuel : nat) (args : Args) (rules : Rules)
    (daypart_mult : float) :
  skip_bids args = false ->
  begins_with (EvCreateReport "keywords" (lookback_days rules))
    (step_bids env py_float py_int_str py_round fuel args rules daypart_mult).
Proof.
  intros Hs. unfold step_bids. rewrite Hs. cbn [negb].
  apply begins_with_bind.
  - unfold fetch_report_rows. apply begins_with_try_except.
    + apply begins_with_bind.
      * unfold create_sp_report.
        change (String.eqb "keywords" "keywords" || String.eqb "keywords" "campaigns")
          with true.
        cbv iota. apply begins_with_bind; [apply begins_with_call|].
        intros a. repeat quiet_step.
      * intros id. unfold poll_report, download_report, time_time.
        repeat first [apply poll_loop_extends | quiet_step].
    + intros e. quiet_step.
  - intros rows. unfold bid_row, lookup_current_bid, get_keywords,
      decide_bid_change_now, now_hour, update_keyword_bids.
    repeat quiet_step.
Qed.

(** Step 4, when not skipped, begins by asking for the ad groups, and
    Step 5 by asking for the campaigns. *)
Lemma step_keywords_begins (args : Args) (rules : Rules) :
  skip_keywords args = false ->
  begins_with EvGetAdGroups
    (step_keywords env py_int_str py_lower args rules).
Proof.
  intros Hs. unfold step_keywords. rewrite Hs. cbn [negb].
  apply begins_with_try_except.
  - apply begins_with_bind; [apply begins_with_call|].
    intros ad_groups.
    unfold research_and_add_keywords, research_ad_group, get_keywords,
      get_keyword_suggestions, create_keywords.
    repeat quiet_step.
  - intros e. quiet_step.
Qed.

Lemma step_new_campaigns_begins (args : Args) :
  skip_new_campaigns args = false ->
  begins_with EvGetCampaigns (step_new_campaigns env args).
Proof.
  intros Hs. unfold step_new_campaigns. rewrite Hs. cbn [negb].
  apply begins_with_try_except.
  - unfold find_products_without_campaigns, get_campaigns, get_ad_groups,
      get_product_ads.
    apply begins_with_bind; [apply begins_with_bind; [apply begins_with_call|]|];
      intros; repeat quiet_step.
  - intros e. quiet_step.
Qed.

(** The run from the campaign rows on, without rows: Step 2 does nothing
    and the run goes on with Step 3. *)
Lemma run_without_campaign_rows (fuel : nat) (args : Args) (rules : Rules)
    (daypart_mult : float) (tr : Trace) :
  run_from_campaign_rows env py_float py_int_str py_lower py_round fuel args
    rules daypart_mult [] tr
  = bind (step_bids env py_float py_int_str py_round fuel args rules
            daypart_mult)
      (fun _ => bind (step_keywords env py_int_str py_lower args rules)
                  (fun _ => step_new_campaigns env args)) tr.
Proof.
  unfold run_from_campaign_rows. cbn [for_each].
  unfold bind at 1, ret at 1. unfold bind at 1.
  now rewrite step_campaigns_no_rows.
Qed.

(** After a campaign report whose polling raises, Step 3 is reached: its
    request for the keyword report is the next call of the run. *)
Lemma main_reaches_bids (fuel : nat) (args : Args) (id : string) (e : exn)
    (tr tr1 tr2 : Trace) :
  skip_bids args = false ->
  create_sp_report env "campaigns" 14 (EvHour :: EvHour :: tr) = (Val id, tr1) ->
  poll_report env fuel id 5 180 tr1 = (Exn e, tr2) ->
  exists new : Trace,
    snd (main env py_float py_int_str py_lower py_round fuel args tr)
    = new ++ EvCreateReport "keywords" 14 :: tr2.
Proof.
  intros Hs Hc Hp.
  rewrite (main_continues env py_float py_int_str py_lower py_round fuel args id
             e tr tr1 tr2 Hc Hp).
  rewrite run_without_campaign_rows.
  assert (Hb : begins_with (EvCreateReport "keywords" 14)
                 (bind (step_bids env py_float py_int_str py_round fuel args
                          DEFAULT_RULES
                          (get_dayparting_multiplier DEFAULT_RULES
                             (env_hour env (EvHour :: tr))))
                    (fun _ => bind (step_keywords env py_int_str py_lower args
                                      DEFAULT_RULES)
                                (fun _ => step_new_campaigns env args)))).
  { apply begins_with_bind.
    - exact (step_bids_begins fuel args DEFAULT_RULES _ Hs).
    - intros _. apply appends_bind; [apply step_keywords_extends|].
      intros _. apply step_new_campaigns_extends. }
  exact (Hb tr2).
Qed.

(** When the keyword report fails in the same way, the run still ends
    normally, after Step 4 has asked for the ad groups and Step 5 for the
    campaigns. *)
Lemma main_completes (fuel : nat) (args : Args) (id id' : string) (e e' : exn)
    (tr tr1 tr2 tr3 tr4 : Trace) :
  skip_bids args = false -> skip_keywords args = false ->
  skip_new_campaigns args = false ->
  create_sp_report env "campaigns" 14 (EvHour :: EvHour :: tr) = (Val id, tr1) ->
  poll_report env fuel id 5 180 tr1 = (Exn e, tr2) ->
  create_sp_report env "keywords" 14 tr2 = (Val id', tr3) ->
  poll_report env fuel id' 5 180 tr3 = (Exn e', tr4) ->
  exists new4 new5 : Trace,
    main env py_float py_int_str py_lower py_round fuel args tr
    = (Val tt, new5 ++ EvGetCampaigns :: new4 ++ EvGetAdGroups :: tr4).
Proof.
  intros Hsb Hsk Hsn Hc Hp Hc' Hp'.
  rewrite (main_continues env py_float py_int_str py_lower py_round fuel args id
             e tr tr1 tr2 Hc Hp).
  rewrite run_without_campaign_rows. unfold bind at 1.
  rewrite (step_bids_degrades env py_float py_int_str py_round fuel args
             DEFAULT_RULES _ id' e' tr2 tr3 tr4 Hsb Hc' Hp').
  unfold bind.
  pose proof (step_keywords_returns env py_int_str py_lower args DEFAULT_RULES
                tr4) as Hr4.
  destruct (step_keywords_begins args DEFAULT_RULES Hsk tr4) as (new4 & Hn4).
  destruct (step_keywords env py_int_str py_lower args DEFAULT_RULES tr4)
    as [r4 t4]. simpl in Hr4, Hn4. subst r4 t4.
  pose proof (step_new_campaigns_returns env args
                (new4 ++ EvGetAdGroups :: tr4)) as Hr5.
  destruct (step_new_campaigns_begins args Hsn (new4 ++ EvGetAdGroups :: tr4))
    as (new5 & Hn5).
  destruct (step_new_campaigns env args (new4 ++ EvGetAdGroups :: tr4))
    as [r5 t5]. simpl in Hr5, Hn5. subst r5 t5.
  now exists new4, new5.
Qed.
End RunContinues.

(** C8. After [k] rounds that found the report pending before the deadline,
    [poll_report] (given at least one more iteration) returns the download
    location when the status polled is SUCCESS, raises RuntimeError when it
    is FAILURE or CANCELLED, and raises TimeoutError when the clock is no
    longer before the deadline.  In the caller an exception of
    [poll_report] is fatal for that report only: the stage has the empty
    row set and the run continues.  After a failed campaign report Step 2
    adds nothing and the next call of the run is Step 3's request for the
    keyword report; a failed keyword report ends Step 3 normally; and when
    both reports fail the run still ends normally, after Step 4 has asked
    for the ad groups and Step 5 for the campaigns. *)
Theorem poll_report_outcomes (env : Env) (py_float : string -> option float)
    (py_int_str : string -> option Z) (py_lower : string -> string)
    (py_round : float -> Z -> float) (report_id : string)
    (interval timeout_s : float) (tr : Trace) (k fuel : nat) :
  let deadline := (env_time env tr + timeout_s)%float in
  let rounds := fun i => after_rounds i report_id interval (EvTime :: tr) in
  (forall i, i < k -> round_pending env report_id deadline (rounds i)) ->
  (forall (d : StatusData) (location : string),
      PyFloat.lt (env_time env (rounds k)) deadline ->
      env_report_status env (EvTime :: rounds k) report_id = Ok d ->
      sd_status d = Some "SUCCESS"%string ->
      sd_location d = Some location ->
      poll_report env (k + S fuel) report_id interval timeout_s tr
      = (Val location, EvReportStatus report_id :: EvTime :: rounds k))
  /\ (forall d : StatusData,
         PyFloat.lt (env_time env (rounds k)) deadline ->
         env_report_status env (EvTime :: rounds k) report_id = Ok d ->
         sd_status d = Some "FAILURE"%string
         \/ sd_status d = Some "CANCELLED"%string ->
         poll_report env (k + S fuel) report_id interval timeout_s tr
         = (Exn RuntimeError, EvReportStatus report_id :: EvTime :: rounds k))
  /\ (~ PyFloat.lt (env_time env (rounds k)) deadline ->
      poll_report env (k + S fuel) report_id interval timeout_s tr
      = (Exn TimeoutError, EvTime :: rounds k))
  /\ (forall (n : nat) (rules : Rules) (report_type id : string) (e : exn)
             (tr0 tr1 tr2 : Trace),
         create_sp_report env report_type (lookback_days rules) tr0
           = (Val id, tr1) ->
         poll_report env n id 5 180 tr1 = (Exn e, tr2) ->
         fetch_report_rows env n rules report_type tr0 = (Val [], tr2))
  /\ (forall (n : nat) (args : Args) (id : string) (e : exn)
             (tr0 tr1 tr2 : Trace),
         create_sp_report env "campaigns" 14 (EvHour :: EvHour :: tr0)
           = (Val id, tr1) ->
         poll_report env n id 5 180 tr1 = (Exn e, tr2) ->
         main env py_float py_int_str py_lower py_round n args tr0
         = run_from_campaign_rows env py_float py_int_str py_lower py_round n
             args DEFAULT_RULES
             (get_dayparting_multiplier DEFAULT_RULES
                (env_hour env (EvHour :: tr0)))
             [] tr2
         /\ (skip_bids args = false ->
             exists new : Trace,
               snd (main env py_float py_int_str py_lower py_round n args tr0)
               = new ++ EvCreateReport "keywords" 14 :: tr2)
         /\ (skip_bids args = false -> skip_keywords args = false ->
             skip_new_campaigns args = false ->
             forall (id' : string) (e' : exn) (tr3 tr4 : Trace),
               create_sp_report env "keywords" 14 tr2 = (Val id', tr3) ->
               poll_report env n id' 5 180 tr3 = (Exn e', tr4) ->
               exists new4 new5 : Trace,
                 main env py_float py_int_str py_lower py_round n args tr0
                 = (Val tt,
                    new5 ++ EvGetCampaigns :: new4 ++ EvGetAdGroups :: tr4)))
  /\ (forall (n : nat) (args : Args) (rules : Rules) (daypart_mult : float)
             (id : string) (e : exn) (tr0 tr1 tr2 : Trace),
         skip_bids args = false ->
         create_sp_report env "keywords" (lookback_days rules) tr0
           = (Val id, tr1) ->
         poll_report env n id 5 180 tr1 = (Exn e, tr2) ->
         step_bids env py_float py_int_str py_round n args rules daypart_mult tr0
         = (Val tt, tr2)).
Proof.
  intros deadline rounds Hrounds.
  assert (Hk : poll_report env (k + S fuel) report_id interval timeout_s tr
               = poll_loop env (S fuel) report_id interval deadline (rounds k)).
  { rewrite poll_report_unfold. now apply poll_loop_rounds. }
  rewrite Hk. split; [|split; [|split; [|split; [|split]]]].
  - intros d location. apply poll_loop_success.
  - intros d. apply poll_loop_failure.
  - apply poll_loop_timeout.
  - intros n rules report_type id e tr0 tr1 tr2. apply fetch_report_rows_degrades.
  - intros n args id e tr0 tr1 tr2 Hc Hp. split; [|split].
    + now apply main_continues with (id := id) (e := e) (tr1 := tr1).
    + intros Hs. now apply main_reaches_bids with (id := id) (e := e) (tr1 := tr1).
    + intros Hsb Hsk Hsn id' e' tr3 tr4 Hc' Hp'.
      now apply main_completes
        with (id := id) (id' := id') (e := e) (e' := e') (tr1 := tr1)
             (tr2 := tr2) (tr3 := tr3).
  - intros n args rules mult id e tr0 tr1 tr2. apply step_bids_degrades.
Qed.

Lemma poll_report_outcomes_witness :
  exists new4 new5 tr4 : Trace,
    main sample_env_reports_fail float_of_int_literal int_of_digits lower_ascii
      no_rounding 2 ARGS_LIVE []
    = (Val tt, new5 ++ EvGetCampaigns :: new4 ++ EvGetAdGroups :: tr4).
Proof.
  pose (env := sample_env_reports_fail).
  pose (tr1 := [EvCreateReport "campaigns" 14; EvHour; EvHour]).
  assert (Hrounds : forall i, i < 1 ->
            round_pending env "r-failed" (env_time env tr1 + 180)%float
              (after_rounds i "r-failed" 5 (EvTime :: tr1))).
  { intros i Hi. assert (i = 0) as -> by lia.
    split; [vm_compute; reflexivity|].
    eexists. split; [vm_compute; reflexivity|].
    repeat split; discriminate. }
  destruct (poll_report_outcomes env float_of_int_literal int_of_digits
              lower_ascii no_rounding "r-failed" 5 180 tr1 1 0 Hrounds)
    as (_ & Hfail & _ & _ & Hmain & _).
  assert (Hpoll := Hfail FAILED).
  assert (Hp : poll_report env 2 "r-failed" 5 180 tr1
               = (Exn RuntimeError,
                  EvReportStatus "r-failed" :: EvTime
                    :: after_rounds 1 "r-failed" 5 (EvTime :: tr1))).
  { apply Hpoll; [vm_compute; reflexivity | vm_compute; reflexivity
                 | left; reflexivity]. }
  destruct (Hmain 2 ARGS_LIVE "r-failed"%string RuntimeError [] tr1 _ eq_refl Hp)
    as (_ & _ & Hdone).
  edestruct (Hdone eq_refl eq_refl eq_refl "r-failed"%string RuntimeError)
    as (new4 & new5 & Hrun);
    [vm_compute; reflexivity | vm_compute; reflexivity |].
  eexists new4, new5, _. exact Hrun.
Defined.

(** ** A run that skips the bid stage *)

Section SkipBids.
Variable env : Env.
Variable py_float : string -> option float.
Variable py_int_str : string -> option Z.
Variable py_lower : string -> string.
Variable py_round : float -> Z -> float.

(** The loop that builds [campaign_performance] raises only what
    [compute_kpis] raises on one of the rows. *)
Lemma campaign_rows_raise (rows : list (gmap string string)) (e : exn) :
  forall (acc : list (option string * Perf)) (tr : Trace),
    fst (for_each (add_campaign_row py_float) rows acc tr) = Exn e ->
    exists row, row ∈ rows /\ compute_kpis py_float row = Raise e.
Proof.
  induction rows as [|row rows IH]; intros acc tr; cbn [for_each];
    [discriminate|].
  unfold bind at 1. unfold add_campaign_row at 1.
  unfold bind at 1, lift at 1.
  destruct (compute_kpis py_float row)
    as [[[[[ctr acos] cost] sales] clicks]|e'] eqn:Hk.
  - unfold ret at 1. intros He. destruct (IH _ _ He) as (r & Hin & Hr).
    exists r. split; [now apply list_elem_of_further | exact Hr].
  - intros [= <-]. exists row. split; [apply list_elem_of_here | exact Hk].
Qed.

(** With the bid stage skipped, nothing after the map is built raises. *)
Lemma stages_without_bids_raise_nothing (fuel : nat) (args : Args)
    (rules : Rules) (daypart_mult : float)
    (campaign_performance : list (option string * Perf)) :
  skip_bids args = true ->
  raises_only (fun _ => False)
    (bind (step_campaigns env py_int_str args rules campaign_performance)
       (fun _ =>
          bind (step_bids env py_float py_int_str py_round fuel args rules
                  daypart_mult)
            (fun _ =>
               bind (step_keywords env py_int_str py_lower args rules)
                 (fun _ => step_new_campaigns env args)))).
Proof.
  intros Hs. unfold step_campaigns, step_bids, step_keywords,
    step_new_campaigns. rewrite Hs. cbn [negb].
  repeat first [ apply manage_campaigns_raises_nothing | raises_step ].
Qed.

Lemma main_without_bids_raises (fuel : nat) (args : Args) (tr : Trace)
    (e : exn) :
  skip_bids args = true ->
  fst (main env py_float py_int_str py_lower py_round fuel args tr) = Exn e ->
  exists t url rows row,
    env_download_report env t url = Ok rows
    /\ row ∈ rows /\ compute_kpis py_float row = Raise e.
Proof.
  intros Hs. unfold main.
  unfold bind at 1. unfold now_hour at 1, call at 1.
  unfold bind at 1. unfold get_dayparting_multiplier_now, bind at 1.
  unfold now_hour at 1, call at 1. unfold ret at 1.
  unfold bind at 1.
  pose proof (fetch_report_rows_raises_nothing env fuel DEFAULT_RULES
                "campaigns" (EvHour :: EvHour :: tr)) as Hnone.
  pose proof (fetch_report_rows_rows env fuel DEFAULT_RULES "campaigns"
                (EvHour :: EvHour :: tr)) as Hrows.
  destruct (fetch_report_rows env fuel DEFAULT_RULES "campaigns"
              (EvHour :: EvHour :: tr)) as [[rows|e'|] tr1];
    cbn [fst snd] in *; [|intros [= ->]; destruct (Hnone e eq_refl)
                         |discriminate].
  unfold run_from_campaign_rows. unfold bind at 1.
  pose proof (campaign_rows_raise rows e [] tr1) as Hloop.
  destruct (for_each (add_campaign_row py_float) rows [] tr1)
    as [[campaign_performance|e'|] tr2]; cbn [fst] in *.
  - intros He. exfalso.
    exact (stages_without_bids_raise_nothing fuel args DEFAULT_RULES _
             campaign_performance Hs tr2 e He).
  - intros [= ->]. destruct (Hloop eq_refl) as (row & Hin & Hrow).
    destruct (Hrows rows eq_refl) as [-> | (t & url & Hd)].
    + now apply elem_of_nil in Hin.
    + now exists t, url, rows, row.
  - discriminate.
Qed.
End SkipBids.

(** X9. With [--skip-bids] no failure of the advertising platform ends the
    run: if [main] raises, a row of a downloaded report has a cell that is
    not a number, and the exception is the ValueError or OverflowError that
    [compute_kpis] raises on that row. *)
Theorem skip_bids_run_aborts_only_on_bad_cell (env : Env)
    (py_float : string -> option float) (py_int_str : string -> option Z)
    (py_lower : string -> string) (py_round : float -> Z -> float)
    (fuel : nat) (args : Args) (tr : Trace) (e : exn) :
  skip_bids args = true ->
  fst (main env py_float py_int_str py_lower py_round fuel args tr) = Exn e ->
  (e = ValueError \/ e = OverflowError)
  /\ exists t url rows row,
       env_download_report env t url = Ok rows
       /\ row ∈ rows /\ compute_kpis py_float row = Raise e.
Proof.
  intros Hs He.
  destruct (main_without_bids_raises env py_float py_int_str py_lower py_round
              fuel args tr e Hs He) as (t & url & rows & row & Hd & Hin & Hk).
  split; [exact (compute_kpis_raises py_float row e Hk)|].
  now exists t, url, rows, row.
Qed.

Lemma skip_bids_run_aborts_only_on_bad_cell_witness :
  fst (main sample_env_bad_cell float_of_int_literal int_of_digits lower_ascii
         no_rounding 10 ARGS_SKIP_BIDS []) = Exn ValueError
  /\ exists t url rows row,
       env_download_report sample_env_bad_cell t url = Ok rows
       /\ row ∈ rows
       /\ compute_kpis float_of_int_literal row = Raise ValueError.
Proof.
  split; [vm_compute; reflexivity|].
  apply (skip_bids_run_aborts_only_on_bad_cell sample_env_bad_cell
           float_of_int_literal int_of_digits lower_ascii no_rounding 10
           ARGS_SKIP_BIDS [] ValueError).
  - reflexivity.
  - vm_compute. reflexivity.
Defined.

(** ** Keyword research: the answer to [create_keywords] *)

Section CreateAnswer.
Variable env : Env.
Variable py_int_str : string -> option Z.
Variable py_lower : string -> string.
Variable rules : Rules.

(** A live ad group up to the [create_keywords] call. *)
Lemma research_ad_group_creates (added_keywords : list AddedKeyword)
    (ad_group : AdGroup) (tr : Trace) (existing_keywords : list Keyword)
    (suggestions : list Suggestion) (batch : list NewKeyword) :
  env_get_keywords env tr (keyword_filter ad_group) = Ok existing_keywords ->
  (Z.of_nat (length existing_keywords)
   < default 50 (max_keywords_per_campaign rules))%Z ->
  let tr1 := EvGetKeywords (keyword_filter ad_group) :: tr in
  let tr2 := EvGetKeywordSuggestions (ag_adGroupId ad_group) 20 :: tr1 in
  fst (get_keyword_suggestions env (ag_adGroupId ad_group) 20 tr1)
    = Val suggestions ->
  collect_new_keywords py_int_str py_lower rules (ag_campaignId ad_group)
    (ag_adGroupId ad_group) suggestions
    (existing_texts py_lower existing_keywords) [] = Ok batch ->
  batch <> [] ->
  research_ad_group env py_int_str py_lower rules false added_keywords ad_group
    tr
  = (match env_create_keywords env tr2 batch with
     | Ok results =>
         Val (added_keywords ++
                ((fun p => added_entry (ag_adGroupId ad_group)
                             (default "unknown"%string (kr_code (snd p)))
                             (fst p))
                   <$> zip batch results))
     | Raise _ => Val added_keywords
     end,
     EvCreateKeywords batch :: tr2).
Proof.
  intros Hk Hq tr1 tr2 Hs Hc Hb. subst tr1 tr2. unfold keyword_filter in *.
  rewrite get_keyword_suggestions_eq in Hs. cbn [fst] in Hs.
  injection Hs as Hs.
  unfold research_ad_group, get_keywords. unfold bind at 1, call at 1.
  rewrite Hk. rewrite Z.geb_leb. apply Z.leb_gt in Hq. rewrite Hq.
  unfold bind at 1. rewrite get_keyword_suggestions_eq. rewrite Hs.
  unfold bind at 1, lift at 1. rewrite Hc.
  destruct batch as [|kw batch]; [congruence|]. cbn [negb].
  unfold try_except, bind, create_keywords, call, ret; cbv beta.
  destruct (env_create_keywords env _ (kw :: batch)); reflexivity.
Qed.
End CreateAnswer.

(** X18. For an ad group whose keywords were fetched, which is below the
    quota and for which a non-empty batch of candidates was collected, the
    answer to the live [create_keywords] call decides what is recorded: a
    call that raises is not passed on and leaves the result as it was; a
    call that answers records one entry per pair of a candidate and a
    result, in order, so as many entries as the shorter of the two lists
    has, each with the candidate's text and the result's code, "unknown"
    when the result has none. *)
Theorem create_keywords_answer_decides_entries (env : Env)
    (py_int_str : string -> option Z) (py_lower : string -> string)
    (rules : Rules) (added_keywords : list AddedKeyword) (ad_group : AdGroup)
    (tr : Trace) (existing_keywords : list Keyword)
    (suggestions : list Suggestion) (batch : list NewKeyword) :
  env_get_keywords env tr (keyword_filter ad_group) = Ok existing_keywords ->
  (Z.of_nat (length existing_keywords)
   < default 50 (max_keywords_per_campaign rules))%Z ->
  let tr1 := EvGetKeywords (keyword_filter ad_group) :: tr in
  let tr2 := EvGetKeywordSuggestions (ag_adGroupId ad_group) 20 :: tr1 in
  fst (get_keyword_suggestions env (ag_adGroupId ad_group) 20 tr1)
    = Val suggestions ->
  collect_new_keywords py_int_str py_lower rules (ag_campaignId ad_group)
    (ag_adGroupId ad_group) suggestions
    (existing_texts py_lower existing_keywords) [] = Ok batch ->
  batch <> [] ->
  (forall e, env_create_keywords env tr2 batch = Raise e ->
     research_ad_group env py_int_str py_lower rules false added_keywords
       ad_group tr
     = (Val added_keywords, EvCreateKeywords batch :: tr2))
  /\ (forall results, env_create_keywords env tr2 batch = Ok results ->
       exists entries,
         research_ad_group env py_int_str py_lower rules false added_keywords
           ad_group tr
         = (Val (added_keywords ++ entries), EvCreateKeywords batch :: tr2)
         /\ length entries = Nat.min (length batch) (length results)
         /\ (forall i kw result,
               batch !! i = Some kw -> results !! i = Some result ->
               entries !! i
               = Some (added_entry (ag_adGroupId ad_group)
                         (default "unknown"%string (kr_code result)) kw))).
Proof.
  intros Hk Hq tr1 tr2 Hs Hc Hb.
  pose proof (research_ad_group_creates env py_int_str py_lower rules
                added_keywords ad_group tr existing_keywords suggestions batch
                Hk Hq Hs Hc Hb) as Hrun.
  cbv zeta in Hrun. fold tr1 tr2 in Hrun. split.
  - intros e He. now rewrite Hrun, He.
  - intros results Hr. rewrite Hrun, Hr. eexists. split; [reflexivity|]. split.
    + now rewrite length_fmap, length_zip_with.
    + intros i kw result Hi Hj. rewrite list_lookup_fmap.
      assert (Hz : zip batch results !! i = Some (kw, result))
        by now apply lookup_zip_Some.
      now rewrite Hz.
Qed.

Lemma create_keywords_answer_decides_entries_witness :
  research_ad_group sample_env_create_fails int_of_digits lower_ascii
    DEFAULT_RULES false [] sample_ad_group []
  = (Val [],
     [EvCreateKeywords
        (sample_candidate <$>
           ["Compost"; "worm castings"; "Biochar"; "liquid kelp";
            "humic acid"]%string);
      EvGetKeywordSuggestions "55" 20; EvGetKeywords (Some "55"%string)]).
Proof.
  refine (proj1 (create_keywords_answer_decides_entries sample_env_create_fails
                   int_of_digits lower_ascii DEFAULT_RULES [] sample_ad_group []
                   [ {| kw_keywordId := "7";
                        kw_keywordText := Some "Organic Soil"%string;
                        kw_bid := Some 1.00%float |} ]
                   (sample_suggestion <$>
                      ["organic soil"; "Compost"; "compost"; "worm castings";
                       "Biochar"; "liquid kelp"; "BIOCHAR"; "humic acid";
                       "bone meal"; "lawn food"]%string)
                   (sample_candidate <$>
                      ["Compost"; "worm castings"; "Biochar"; "liquid kelp";
                       "humic acid"]%string) _ _ _ _ _) HTTPError _).
  - reflexivity.
  - vm_compute. reflexivity.
  - reflexivity.
  - vm_compute. reflexivity.
  - discriminate.
  - reflexivity.
Defined.

(** ** Start-up: credentials *)

Section CredentialFacts.
Variable getenv : string -> option string.

Lemma env_fallback_same (key var : string) (creds : gmap string Json) :
  env_fallback getenv key var creds !! key
  = if creds_truthy creds key then creds !! key
    else Some (JStr (default ""%string (getenv var))).
Proof.
  unfold env_fallback. destruct (creds_truthy creds key); [reflexivity|].
  apply lookup_insert_eq.
Qed.

Lemma env_fallback_other (key var k : string) (creds : gmap string Json) :
  k <> key -> env_fallback getenv key var creds !! k = creds !! k.
Proof.
  intros Hne. unfold env_fallback.
  destruct (creds_truthy creds key); [reflexivity|].
  now apply lookup_insert_ne.
Qed.

Lemma creds_truthy_other (key var k : string) (creds : gmap string Json) :
  k <> key ->
  creds_truthy (env_fallback getenv key var creds) k = creds_truthy creds k.
Proof.
  intros Hne. unfold creds_truthy. now rewrite env_fallback_other.
Qed.

Lemma creds_truthy_same (key var : string) (creds : gmap string Json) :
  creds_truthy (env_fallback getenv key var creds) key
  = creds_truthy creds key || nonempty (default ""%string (getenv var)).
Proof.
  unfold creds_truthy at 1. rewrite env_fallback_same.
  destruct (creds_truthy creds key) eqn:Ht; [|reflexivity].
  unfold creds_truthy in Ht. now rewrite Ht.
Qed.

Lemma creds_truthy_lookup (creds : gmap string Json) (key : string) :
  creds_truthy creds key = true ->
  exists v, creds !! key = Some v /\ json_truthy v = true.
Proof.
  unfold creds_truthy. destruct (creds !! key) as [v|]; [|discriminate].
  intros Hv. now exists v.
Qed.

(** The credentials after the three fall-backs, key by key. *)
Lemma fallbacks_lookup (file : SecretsFile) (key var : string) :
  (key, var) ∈ REQUIRED_CREDENTIALS ->
  let creds :=
    env_fallback getenv "refresh_token" "AMAZON_REFRESH_TOKEN"
      (env_fallback getenv "client_secret" "AMAZON_CLIENT_SECRET"
         (env_fallback getenv "client_id" "AMAZON_CLIENT_ID"
            (creds_from_file file))) in
  creds !! key
  = (if creds_truthy (creds_from_file file) key
     then creds_from_file file !! key
     else Some (JStr (default ""%string (getenv var))))
  /\ creds_truthy creds key
     = creds_truthy (creds_from_file file) key
       || nonempty (default ""%string (getenv var)).
Proof.
  intros Hin creds. subst creds. unfold REQUIRED_CREDENTIALS in Hin.
  repeat (apply elem_of_cons in Hin as [[= -> ->] | Hin]);
    [| | |now apply elem_of_nil in Hin].
  - rewrite !env_fallback_other, !creds_truthy_other by discriminate.
    now rewrite env_fallback_same, creds_truthy_same.
  - rewrite env_fallback_other, creds_truthy_other by discriminate.
    rewrite env_fallback_same, creds_truthy_same.
    now rewrite env_fallback_other, creds_truthy_other by discriminate.
  - rewrite env_fallback_same, creds_truthy_same.
    now rewrite !env_fallback_other, !creds_truthy_other by discriminate.
Qed.

Lemma fallbacks_access_token (file : SecretsFile) :
  env_fallback getenv "refresh_token" "AMAZON_REFRESH_TOKEN"
    (env_fallback getenv "client_secret" "AMAZON_CLIENT_SECRET"
       (env_fallback getenv "client_id" "AMAZON_CLIENT_ID"
          (creds_from_file file))) !! "access_token"
  = creds_from_file file !! "access_token".
Proof. now rewrite !env_fallback_other by discriminate. Qed.

Lemma load_credentials_returns (file : SecretsFile)
    (creds : gmap string Json) :
  load_credentials getenv file = Returns creds ->
  forall key var, (key, var) ∈ REQUIRED_CREDENTIALS ->
    exists v, creds !! key = Some v /\ json_truthy v = true
              /\ v = credential getenv file key var.
Proof.
  unfold load_credentials.
  set (c := env_fallback getenv "refresh_token" _ _).
  destruct (creds_truthy c "client_id" && creds_truthy c "client_secret"
            && creds_truthy c "refresh_token") eqn:Hall; [|discriminate].
  intros [= <-] key var Hin.
  destruct (fallbacks_lookup file key var Hin) as [Hl Ht]. fold c in Hl, Ht.
  assert (Hk : creds_truthy c key = true).
  { apply andb_prop in Hall as [Hall H3]. apply andb_prop in Hall as [H1 H2].
    unfold REQUIRED_CREDENTIALS in Hin.
    repeat (apply elem_of_cons in Hin as [[= -> ->] | Hin]); auto.
    now apply elem_of_nil in Hin. }
  destruct (creds_truthy_lookup c key Hk) as (v & Hv & Htv).
  exists v. split; [exact Hv|]. split; [exact Htv|].
  unfold credential. rewrite Hv in Hl.
  destruct (creds_truthy (creds_from_file file) key).
  - now rewrite <- Hl.
  - now injection Hl.
Qed.

Lemma load_credentials_exits (file : SecretsFile) (code : Z) :
  load_credentials getenv file = SysExit code ->
  code = 2%Z
  /\ exists key var,
       (key, var) ∈ REQUIRED_CREDENTIALS
       /\ creds_truthy (creds_from_file file) key = false
       /\ default ""%string (getenv var) = ""%string.
Proof.
  unfold load_credentials.
  set (c := env_fallback getenv "refresh_token" _ _).
  destruct (creds_truthy c "client_id" && creds_truthy c "client_secret"
            && creds_truthy c "refresh_token") eqn:Hall; [discriminate|].
  intros [= <-]. split; [reflexivity|].
  assert (Hex : exists key var, (key, var) ∈ REQUIRED_CREDENTIALS
                                /\ creds_truthy c key = false).
  { unfold REQUIRED_CREDENTIALS.
    destruct (creds_truthy c "client_id") eqn:H1;
      [|do 2 eexists; split; [apply list_elem_of_here|exact H1]].
    destruct (creds_truthy c "client_secret") eqn:H2;
      [|do 2 eexists; split;
        [apply list_elem_of_further, list_elem_of_here|exact H2]].
    destruct (creds_truthy c "refresh_token") eqn:H3; [discriminate|].
    do 2 eexists; split;
      [apply list_elem_of_further, list_elem_of_further, list_elem_of_here
      |exact H3]. }
  destruct Hex as (key & var & Hin & Hf). exists key, var.
  split; [exact Hin|].
  destruct (fallbacks_lookup file key var Hin) as [_ Ht]. fold c in Ht.
  rewrite Hf in Ht. symmetry in Ht. apply orb_false_elim in Ht as [Ht1 Ht2].
  split; [exact Ht1|].
  unfold nonempty in Ht2. apply negb_false_iff, String.eqb_eq in Ht2.
  exact Ht2.
Qed.

Lemma load_credentials_access_token (file : SecretsFile)
    (creds : gmap string Json) :
  load_credentials getenv file = Returns creds ->
  creds !! "access_token" = creds_from_file file !! "access_token".
Proof.
  unfold load_credentials.
  set (c := env_fallback getenv "refresh_token" _ _).
  destruct (_ && _); [|discriminate]. intros [= <-].
  apply fallbacks_access_token.
Qed.
End CredentialFacts.

(** X20. When [load_credentials] returns, each of the three required
    credentials is present and truthy, and is the value the secrets file
    gave when that value is truthy, else the text of its environment
    variable; the file's [access_token] is passed on as it is.  When it
    does not return it exits with code 2, and then some required
    credential has neither a truthy value in the file nor a non-empty
    environment variable. *)
Theorem load_credentials_prefers_file (getenv : string -> option string)
    (file : SecretsFile) :
  (forall creds, load_credentials getenv file = Returns creds ->
     (forall key var, (key, var) ∈ REQUIRED_CREDENTIALS ->
        exists v, creds !! key = Some v /\ json_truthy v = true
                  /\ v = credential getenv file key var)
     /\ creds !! "access_token" = creds_from_file file !! "access_token")
  /\ (forall code, load_credentials getenv file = SysExit code ->
        code = 2%Z
        /\ exists key var,
             (key, var) ∈ REQUIRED_CREDENTIALS
             /\ creds_truthy (creds_from_file file) key = false
             /\ default ""%string (getenv var) = ""%string).
Proof.
  split.
  - intros creds Hc. split.
    + now apply load_credentials_returns.
    + now apply load_credentials_access_token with (getenv := getenv).
  - apply load_credentials_exits.
Qed.

Lemma load_credentials_prefers_file_witness :
  let getenv := env_of [("AMAZON_CLIENT_SECRET", "s3");
                        ("AMAZON_REFRESH_TOKEN", "r3");
                        ("AMAZON_CLIENT_ID", "from-env")]%string in
  let file := SecretsJson
                (secrets_data
                   [("client_id"%string, secret_entry (JStr "from-file"))]) in
  exists creds,
    load_credentials getenv file = Returns creds
    /\ creds !! "client_id" = Some (JStr "from-file")
    /\ creds !! "client_secret" = Some (JStr "s3").
Proof.
  intros getenv file.
  destruct (load_credentials getenv file) as [creds|code] eqn:Hl;
    [|exfalso; vm_compute in Hl; discriminate].
  exists creds. split; [reflexivity|].
  pose proof (proj1 (proj1 (load_credentials_prefers_file getenv file)
                       creds Hl)) as Hkeys.
  split.
  - destruct (Hkeys "client_id"%string "AMAZON_CLIENT_ID"%string)
      as (v & -> & _ & ->); [apply list_elem_of_here|].
    vm_compute. reflexivity.
  - destruct (Hkeys "client_secret"%string "AMAZON_CLIENT_SECRET"%string)
      as (v & -> & _ & ->);
      [apply list_elem_of_further, list_elem_of_here|].
    vm_compute. reflexivity.
Defined.

Section SecretsFileFacts.
Variable getenv : string -> option string.

Lemma read_secrets_lookup_other (amazon_api : Json) (names : list string)
    (k : string) :
  k ∉ names ->
  forall creds, read_secrets amazon_api names creds !! k = creds !! k.
Proof.
  induction names as [|name names IH]; intros Hk creds; [reflexivity|].
  apply not_elem_of_cons in Hk as [Hne Hk]. cbn [read_secrets].
  destruct (read_secret amazon_api name) as [v|]; [|reflexivity].
  rewrite (IH Hk). now apply lookup_insert_ne.
Qed.

(** Reading stops at the first entry that raises. *)
Lemma read_secrets_stops (amazon_api : Json) (before : list string)
    (bad : string) (after : list string) :
  read_secret amazon_api bad = None ->
  forall creds,
    read_secrets amazon_api (before ++ bad :: after) creds
    = read_secrets amazon_api before creds.
Proof.
  intros Hbad. induction before as [|name before IH]; intros creds.
  - cbn [app read_secrets]. now rewrite Hbad.
  - cbn [app read_secrets].
    destruct (read_secret amazon_api name); [apply IH|reflexivity].
Qed.

(** When no entry raises, each name holds what its entry gave. *)
Lemma read_secrets_all (amazon_api : Json) (names : list string) :
  NoDup names ->
  Forall (fun name => read_secret amazon_api name <> None) names ->
  forall creds name, name ∈ names ->
    read_secrets amazon_api names creds !! name = read_secret amazon_api name.
Proof.
  induction 1 as [|n names Hn Hnd IH]; intros Hall creds name Hin;
    [now apply elem_of_nil in Hin|].
  apply Forall_cons_1 in Hall as [Hread Hall]. cbn [read_secrets].
  destruct (read_secret amazon_api n) as [v|] eqn:Hv; [|congruence].
  apply elem_of_cons in Hin as [-> | Hin].
  - rewrite (read_secrets_lookup_other _ _ _ Hn). rewrite Hv.
    apply lookup_insert_eq.
  - now apply IH.
Qed.

Lemma SECRET_NAMES_NoDup : NoDup SECRET_NAMES.
Proof.
  unfold SECRET_NAMES.
  repeat (apply NoDup_cons_2;
          [rewrite ?elem_of_cons, elem_of_nil; intuition discriminate|]).
  apply NoDup_nil_2.
Qed.

Lemma creds_after_bad_entry (data amazon_api : Json) (before : list string)
    (bad : string) (after : list string) (name : string) :
  secrets_object data = Some amazon_api ->
  SECRET_NAMES = before ++ bad :: after ->
  read_secret amazon_api bad = None ->
  name ∈ bad :: after ->
  creds_from_file (SecretsJson data) !! name = None.
Proof.
  intros Hobj Hnames Hbad Hin. cbn [creds_from_file]. rewrite Hobj, Hnames.
  rewrite (read_secrets_stops _ _ _ _ Hbad).
  pose proof SECRET_NAMES_NoDup as Hnd. rewrite Hnames in Hnd.
  apply NoDup_app in Hnd as (_ & Hdisj & _).
  rewrite read_secrets_lookup_other; [apply lookup_empty|].
  intros Hb. exact (Hdisj name Hb Hin).
Qed.

Lemma creds_all_entries (data amazon_api : Json) (name : string) :
  secrets_object data = Some amazon_api ->
  Forall (fun name => read_secret amazon_api name <> None) SECRET_NAMES ->
  name ∈ SECRET_NAMES ->
  creds_from_file (SecretsJson data) !! name = read_secret amazon_api name.
Proof.
  intros Hobj Hall Hin. cbn [creds_from_file]. rewrite Hobj.
  now apply read_secrets_all; [apply SECRET_NAMES_NoDup| |].
Qed.

Lemma credential_absent (file : SecretsFile) (key var : string) :
  creds_from_file file !! key = None ->
  credential getenv file key var = JStr (default ""%string (getenv var)).
Proof.
  intros Hnone. unfold credential, creds_truthy. now rewrite Hnone.
Qed.
End SecretsFileFacts.

(** X21. The secrets are read from the file one after the other, and an
    entry that is not of the expected shape ends the reading: it and the
    entries listed after it are not taken from the file, whatever the file
    holds for them, and the required ones among them come from the
    environment.  When all four entries have the expected shape, each is
    what the file holds. *)
Theorem malformed_secret_hides_later_ones (getenv : string -> option string)
    (data amazon_api : Json) :
  secrets_object data = Some amazon_api ->
  (forall before bad after,
     SECRET_NAMES = before ++ bad :: after ->
     read_secret amazon_api bad = None ->
     forall name, name ∈ bad :: after ->
       creds_from_file (SecretsJson data) !! name = None
       /\ (forall creds var,
             load_credentials getenv (SecretsJson data) = Returns creds ->
             (name, var) ∈ REQUIRED_CREDENTIALS ->
             creds !! name = Some (JStr (default ""%string (getenv var)))))
  /\ (Forall (fun name => read_secret amazon_api name <> None) SECRET_NAMES ->
      forall name, name ∈ SECRET_NAMES ->
        creds_from_file (SecretsJson data) !! name
        = read_secret amazon_api name).
Proof.
  intros Hobj. split.
  - intros before bad after Hnames Hbad name Hin.
    pose proof (creds_after_bad_entry _ _ _ _ _ _ Hobj Hnames Hbad Hin)
      as Hnone.
    split; [exact Hnone|].
    intros creds var Hl Hreq.
    destruct (load_credentials_returns getenv _ _ Hl name var Hreq)
      as (v & -> & _ & ->).
    now rewrite (credential_absent getenv _ _ _ Hnone).
  - intros Hall name Hin. now apply creds_all_entries.
Qed.

Lemma malformed_secret_hides_later_ones_witness :
  let getenv := env_of [("AMAZON_CLIENT_ID", "id-env");
                        ("AMAZON_CLIENT_SECRET", "secret-env");
                        ("AMAZON_REFRESH_TOKEN", "refresh-env")]%string in
  let amazon_api :=
    JObj [("client_id", secret_entry (JStr "id-file"));
          ("client_secret", JStr "secret-file");
          ("refresh_token", secret_entry (JStr "refresh-file"))]%string in
  creds_from_file (SecretsJson (secrets_data
                                  [("client_id", secret_entry (JStr "id-file"));
                                   ("client_secret", JStr "secret-file");
                                   ("refresh_token",
                                    secret_entry (JStr "refresh-file"))]%string))
    !! "refresh_token" = None
  /\ load_credentials getenv
       (SecretsJson (secrets_data
                       [("client_id", secret_entry (JStr "id-file"));
                        ("client_secret", JStr "secret-file");
                        ("refresh_token",
                         secret_entry (JStr "refresh-file"))]%string))
     = Returns (<["refresh_token" := JStr "refresh-env"]>
                  (<["client_secret" := JStr "secret-env"]>
                     (<["client_id" := JStr "id-file"]> ∅))).
Proof.
  intros getenv amazon_api. split.
  - refine (proj1 (proj1 (malformed_secret_hides_later_ones getenv _ amazon_api
                            _)
                     ["client_id"%string] "client_secret"%string
                     ["refresh_token"; "access_token"]%string _ _
                     "refresh_token"%string _)).
    + reflexivity.
    + reflexivity.
    + reflexivity.
    + apply list_elem_of_further, list_elem_of_here.
  - vm_compute. reflexivity.
Defined.

(** X22. Without a usable secrets file (absent, not readable as JSON, or
    not an object holding objects where the secrets are looked up) the
    credentials are exactly the three environment variables:
    [load_credentials] returns them, and nothing else, when all three are
    set and not empty, and exits with code 2 otherwise. *)
Theorem load_credentials_from_environment (getenv : string -> option string)
    (file : SecretsFile) :
  file = NoSecretsFile \/ file = UnreadableSecretsFile
  \/ (exists data, file = SecretsJson data /\ secrets_object data = None) ->
  let id := default ""%string (getenv "AMAZON_CLIENT_ID") in
  let secret := default ""%string (getenv "AMAZON_CLIENT_SECRET") in
  let refresh := default ""%string (getenv "AMAZON_REFRESH_TOKEN") in
  load_credentials getenv file
  = if nonempty id && nonempty secret && nonempty refresh
    then Returns (<["refresh_token" := JStr refresh]>
                    (<["client_secret" := JStr secret]>
                       (<["client_id" := JStr id]> ∅)))
    else SysExit 2.
Proof.
  intros Hfile id secret refresh.
  assert (Hempty : creds_from_file file = ∅).
  { destruct Hfile as [-> | [-> | (data & -> & Hobj)]]; try reflexivity.
    cbn [creds_from_file]. now rewrite Hobj. }
  unfold load_credentials. rewrite Hempty.
  assert (H1 : env_fallback getenv "client_id" "AMAZON_CLIENT_ID" ∅
               = <["client_id" := JStr id]> ∅).
  { unfold env_fallback, creds_truthy. now rewrite lookup_empty. }
  rewrite H1.
  assert (H2 : env_fallback getenv "client_secret" "AMAZON_CLIENT_SECRET"
                 (<["client_id" := JStr id]> ∅)
               = <["client_secret" := JStr secret]>
                   (<["client_id" := JStr id]> ∅)).
  { unfold env_fallback, creds_truthy.
    rewrite lookup_insert_ne by discriminate. now rewrite lookup_empty. }
  rewrite H2.
  assert (H3 : env_fallback getenv "refresh_token" "AMAZON_REFRESH_TOKEN"
                 (<["client_secret" := JStr secret]>
                    (<["client_id" := JStr id]> ∅))
               = <["refresh_token" := JStr refresh]>
                   (<["client_secret" := JStr secret]>
                      (<["client_id" := JStr id]> ∅))).
  { unfold env_fallback, creds_truthy.
    rewrite !lookup_insert_ne by discriminate. now rewrite lookup_empty. }
  rewrite H3. unfold creds_truthy.
  rewrite lookup_insert_eq.
  rewrite (lookup_insert_ne _ "refresh_token"%string "client_secret"%string)
    by discriminate.
  rewrite lookup_insert_eq.
  rewrite !(lookup_insert_ne _ _ "client_id"%string) by discriminate.
  rewrite lookup_insert_eq.
  cbn [json_truthy]. reflexivity.
Qed.

Lemma load_credentials_from_environment_witness :
  load_credentials
    (env_of [("AMAZON_CLIENT_ID", "id-env");
             ("AMAZON_REFRESH_TOKEN", "refresh-env")]%string)
    (SecretsJson (JArr []))
  = SysExit 2.
Proof.
  refine (load_credentials_from_environment
            (env_of [("AMAZON_CLIENT_ID", "id-env");
                     ("AMAZON_REFRESH_TOKEN", "refresh-env")]%string)
            (SecretsJson (JArr [])) _).
  right. right. exists (JArr []). split; reflexivity.
Defined.

(** ** Start-up: the token request *)

(** X23. [oauth] never raises: it returns an [Auth] or exits, with code 2
    exactly when [load_credentials] exits and with code 1 when the token
    request or the reading of its answer fails.  The [Auth] it returns
    holds the client identifier of the credentials and the access token of
    the answer to the request made with the three credentials, and expires
    at the clock reading plus the answer's [expires_in] as an int, 3600
    when the answer has none. *)
Theorem oauth_ends (getenv : string -> option string)
    (py_int_str : string -> option Z) (file : SecretsFile)
    (post_token : Json -> Json -> Json -> option Json) (now : float) :
  exists r,
    oauth getenv py_int_str file post_token now = Ok r
    /\ match r with
       | SysExit code =>
           (code = 2%Z /\ load_credentials getenv file = SysExit 2)
           \/ (code = 1%Z
               /\ exists creds, load_credentials getenv file = Returns creds)
       | Returns auth =>
           exists creds data expires_in seconds delta,
             load_credentials getenv file = Returns creds
             /\ creds !! "client_id" = Some (client_id auth)
             /\ post_token
                  (credential getenv file "refresh_token" "AMAZON_REFRESH_TOKEN")
                  (client_id auth)
                  (credential getenv file "client_secret" "AMAZON_CLIENT_SECRET")
                = Some data
             /\ json_item data "access_token" = Some (access_token auth)
             /\ json_get data "token_type" (JStr "Bearer")
                = Some (token_type auth)
             /\ json_get data "expires_in" (JInt 3600) = Some expires_in
             /\ json_int py_int_str expires_in = Some seconds
             /\ PyFloat.of_int seconds = Ok delta
             /\ expires_at auth = (now + delta)%float
       end.
Proof.
  unfold oauth.
  destruct (load_credentials getenv file) as [creds|code] eqn:Hl.
  - pose proof (load_credentials_returns getenv file creds Hl) as Hkeys.
    destruct (Hkeys "client_id"%string "AMAZON_CLIENT_ID"%string)
      as (cid & Hcid & _ & Hcid'); [apply list_elem_of_here|].
    destruct (Hkeys "client_secret"%string "AMAZON_CLIENT_SECRET"%string)
      as (sec & Hsec & _ & Hsec');
      [apply list_elem_of_further, list_elem_of_here|].
    destruct (Hkeys "refresh_token"%string "AMAZON_REFRESH_TOKEN"%string)
      as (ref & Href & _ & Href');
      [apply list_elem_of_further, list_elem_of_further, list_elem_of_here|].
    unfold creds_item. rewrite Href, Hcid, Hsec. cbn [obind].
    destruct (request_token py_int_str post_token now ref cid sec)
      as [auth|] eqn:Hreq.
    + exists (Returns auth). split; [reflexivity|].
      unfold request_token in Hreq.
      destruct (post_token ref cid sec) as [data|] eqn:Hpost; [|discriminate].
      destruct (json_item data "access_token") as [token|] eqn:Htok;
        [|discriminate].
      destruct (json_get data "token_type" (JStr "Bearer")) as [kind|] eqn:Hk;
        [|discriminate].
      destruct (json_get data "expires_in" (JInt 3600)) as [ei|] eqn:Hei;
        [|discriminate].
      destruct (json_int py_int_str ei) as [seconds|] eqn:Hs; [|discriminate].
      destruct (PyFloat.of_int seconds) as [delta|e] eqn:Hd; [|discriminate].
      injection Hreq as <-. cbn [client_id access_token token_type expires_at].
      exists creds, data, ei, seconds, delta.
      rewrite <- Href', <- Hsec'. repeat split; auto.
    + exists (SysExit 1). split; [reflexivity|]. right.
      split; [reflexivity|]. now exists creds.
  - exists (SysExit code). split; [reflexivity|].
    destruct (load_credentials_exits getenv file code Hl) as [-> _].
    left. now split.
Qed.

Lemma oauth_ends_witness :
  exists auth,
    oauth (env_of [("AMAZON_CLIENT_ID", "id-env");
                   ("AMAZON_CLIENT_SECRET", "secret-env");
                   ("AMAZON_REFRESH_TOKEN", "refresh-env")]%string)
      int_of_digits NoSecretsFile
      (fun _ _ _ => Some (JObj [("access_token", JStr "Atza")]%string)) 1000
    = Ok (Returns auth)
    /\ expires_at auth = 4600%float.
Proof.
  destruct (oauth_ends (env_of [("AMAZON_CLIENT_ID", "id-env");
                                ("AMAZON_CLIENT_SECRET", "secret-env");
                                ("AMAZON_REFRESH_TOKEN", "refresh-env")]%string)
              int_of_digits NoSecretsFile
              (fun _ _ _ => Some (JObj [("access_token", JStr "Atza")]%string))
              1000) as (r & Hr & Hspec).
  destruct r as [auth|code].
  - exists auth. split; [exact Hr|].
    vm_compute in Hr. injection Hr as <-. reflexivity.
  - exfalso. vm_compute in Hr. discriminate.
Defined.

(** ** Start-up: the endpoint *)

Lemma ENDPOINTS_lookup (scope : string) :
  ENDPOINTS !! scope
  = if String.eqb scope "NA" then Some ENDPOINT_NA
    else if String.eqb scope "EU" then Some ENDPOINT_EU
    else if String.eqb scope "FE" then Some ENDPOINT_FE
    else None.
Proof.
  unfold ENDPOINTS. rewrite !lookup_insert, lookup_empty.
  repeat match goal with
         | |- context [decide (?a = scope)] =>
             let Hne := fresh "Hne" in
             destruct (decide (a = scope)) as [<- | Hne];
             [reflexivity
             |apply not_eq_sym, String.eqb_neq in Hne; rewrite Hne]
         end.
  reflexivity.
Qed.

Lemma endpoint_of_scope (scope : string) :
  default ENDPOINT_NA (ENDPOINTS !! scope)
  = if String.eqb scope "EU" then ENDPOINT_EU
    else if String.eqb scope "FE" then ENDPOINT_FE
    else ENDPOINT_NA.
Proof.
  rewrite ENDPOINTS_lookup.
  destruct (String.eqb_spec scope "NA") as [-> | _]; [reflexivity|].
  destruct (String.eqb scope "EU"); [reflexivity|].
  destruct (String.eqb scope "FE"); reflexivity.
Qed.

(** X24. [resolve_endpoint] always gives one of the three endpoints.  A
    scope that is given and not empty is matched as it is written, without
    upper-casing and without looking at the environment: anything but
    exactly "EU" or "FE" gives the NA endpoint.  Only when no scope is given
    is the environment variable read and upper-cased; and [main] always
    gives a scope, so there the environment variable is matched as it is
    written too. *)
Theorem resolve_endpoint_matches_exactly (getenv : string -> option string)
    (py_upper : string -> string) :
  (forall scope,
      resolve_endpoint getenv py_upper scope
      ∈ [ENDPOINT_NA; ENDPOINT_EU; ENDPOINT_FE])
  /\ (forall s, s <> ""%string ->
        resolve_endpoint getenv py_upper (Some s)
        = if String.eqb s "EU" then ENDPOINT_EU
          else if String.eqb s "FE" then ENDPOINT_FE
          else ENDPOINT_NA)
  /\ (forall scope, scope = None \/ scope = Some ""%string ->
        let upper :=
          py_upper (default "NA"%string (getenv "AMAZON_API_SCOPE")) in
        resolve_endpoint getenv py_upper scope
        = if String.eqb upper "EU" then ENDPOINT_EU
          else if String.eqb upper "FE" then ENDPOINT_FE
          else ENDPOINT_NA)
  /\ (forall v, getenv "AMAZON_API_SCOPE" = Some v -> v <> ""%string ->
        main_endpoint getenv py_upper None
        = if String.eqb v "EU" then ENDPOINT_EU
          else if String.eqb v "FE" then ENDPOINT_FE
          else ENDPOINT_NA).
Proof.
  assert (Hexplicit : forall s, s <> ""%string ->
            resolve_endpoint getenv py_upper (Some s)
            = if String.eqb s "EU" then ENDPOINT_EU
              else if String.eqb s "FE" then ENDPOINT_FE
              else ENDPOINT_NA).
  { intros s Hs. unfold resolve_endpoint, nonempty.
    apply String.eqb_neq in Hs. rewrite Hs. cbn [negb].
    apply endpoint_of_scope. }
  split; [|split; [exact Hexplicit|split]].
  - intros scope. unfold resolve_endpoint. rewrite endpoint_of_scope.
    match goal with |- context [String.eqb ?s "EU"] =>
      destruct (String.eqb s "EU");
      [apply list_elem_of_further, list_elem_of_here|];
      destruct (String.eqb s "FE");
      [apply list_elem_of_further, list_elem_of_further, list_elem_of_here
      |apply list_elem_of_here]
    end.
  - intros scope Hscope upper. subst upper.
    rewrite <- endpoint_of_scope.
    destruct Hscope as [-> | ->]; reflexivity.
  - intros v Hv Hne. unfold main_endpoint, env_scope. rewrite Hv.
    cbn [default]. now apply Hexplicit.
Qed.

Lemma resolve_endpoint_matches_exactly_witness :
  main_endpoint (env_of [("AMAZON_API_SCOPE", "eu")]%string) upper_ascii None
  = ENDPOINT_NA
  /\ resolve_endpoint (env_of [("AMAZON_API_SCOPE", "eu")]%string) upper_ascii
       None = ENDPOINT_EU.
Proof.
  split.
  - refine (proj2 (proj2 (proj2 (resolve_endpoint_matches_exactly
                                   (env_of [("AMAZON_API_SCOPE", "eu")]%string)
                                   upper_ascii))) "eu"%string _ _).
    + reflexivity.
    + discriminate.
  - reflexivity.
Defined.

(** ** Start-up: the profile *)

Lemma find_first {A : Type} (f : A -> bool) (l : list A) (x : A) :
  List.find f l = Some x ->
  f x = true
  /\ exists before after,
       l = before ++ x :: after /\ Forall (fun y => f y = false) before.
Proof.
  induction l as [|a l IH]; [discriminate|]. cbn [List.find].
  destruct (f a) eqn:Ha.
  - intros [= <-]. split; [exact Ha|]. exists [], l. split; [reflexivity|].
    constructor.
  - intros Hx. destruct (IH Hx) as (Hfx & before & after & -> & Hall).
    split; [exact Hfx|]. exists (a :: before), after.
    split; [reflexivity|]. now constructor.
Qed.

Lemma find_none_all {A : Type} (f : A -> bool) (l : list A) :
  Forall (fun y => f y = false) l -> List.find f l = None.
Proof.
  induction 1 as [|a l Ha _ IH]; [reflexivity|].
  cbn [List.find]. now rewrite Ha.
Qed.

Section ProfileFacts.
Variable py_str : Json -> string.

Lemma select_profile_requested (profiles : list (list (string * Json)))
    (w : string) :
  w <> ""%string ->
  select_profile py_str profiles (Some w)
  = match List.find (fun p => String.eqb (profile_id_text py_str p) w)
            profiles with
    | None | Some [] => Ok (SysExit 1)
    | Some p =>
        match fields_get p "profileId" with
        | Some v => Ok (Returns (py_str v))
        | None => Raise KeyError
        end
    end.
Proof.
  intros Hw. apply String.eqb_neq in Hw. unfold select_profile, nonempty.
  rewrite Hw. cbn [negb]. destruct profiles as [|first rest]; reflexivity.
Qed.

Lemma select_profile_found (profiles : list (list (string * Json)))
    (w id : string) :
  w <> ""%string ->
  select_profile py_str profiles (Some w) = Ok (Returns id) ->
  id = w
  /\ exists before p after,
       profiles = before ++ p :: after
       /\ profile_id_text py_str p = w
       /\ Forall (fun q => profile_id_text py_str q <> w) before.
Proof.
  intros Hw. rewrite (select_profile_requested _ _ Hw).
  destruct (List.find _ profiles) as [p|] eqn:Hf; [|discriminate].
  apply find_first in Hf as (Hp & before & after & -> & Hall).
  apply String.eqb_eq in Hp.
  destruct p as [|kv p]; [discriminate|].
  destruct (fields_get (kv :: p) "profileId") as [v|] eqn:Hv; [|discriminate].
  intros [= <-]. unfold profile_id_text in Hp. rewrite Hv in Hp.
  split; [exact Hp|]. exists before, (kv :: p), after.
  split; [reflexivity|]. split.
  - unfold profile_id_text. now rewrite Hv.
  - eapply Forall_impl; [exact Hall|]. intros q Hq. now apply String.eqb_neq.
Qed.

Lemma select_profile_raises (profiles : list (list (string * Json)))
    (w : string) (e : exn) :
  w <> ""%string ->
  select_profile py_str profiles (Some w) = Raise e ->
  w = "None"%string.
Proof.
  intros Hw. rewrite (select_profile_requested _ _ Hw).
  destruct (List.find _ profiles) as [p|] eqn:Hf; [|discriminate].
  apply find_first in Hf as (Hp & _). apply String.eqb_eq in Hp.
  destruct p as [|kv p]; [discriminate|].
  unfold profile_id_text in Hp.
  destruct (fields_get (kv :: p) "profileId") as [v|]; [discriminate|].
  intros _. now symmetry.
Qed.

Lemma select_profile_missing (profiles : list (list (string * Json)))
    (w : string) :
  w <> ""%string ->
  Forall (fun p => profile_id_text py_str p <> w) profiles ->
  select_profile py_str profiles (Some w) = Ok (SysExit 1).
Proof.
  intros Hw Hall. rewrite (select_profile_requested _ _ Hw).
  rewrite find_none_all; [reflexivity|].
  eapply Forall_impl; [exact Hall|]. intros q Hq. now apply String.eqb_neq.
Qed.

Lemma select_profile_default (profiles : list (list (string * Json)))
    (profile_id : option string) (id : string) :
  profile_id = None \/ profile_id = Some ""%string ->
  select_profile py_str profiles profile_id = Ok (Returns id) ->
  exists first rest v,
    profiles = first :: rest
    /\ fields_get first "profileId" = Some v /\ id = py_str v.
Proof.
  intros Hp. unfold select_profile.
  destruct profiles as [|first rest]; [discriminate|].
  assert (Hwanted : match profile_id with
                    | Some w => if nonempty w then Some w else None
                    | None => None
                    end = None) by (destruct Hp as [-> | ->]; reflexivity).
  rewrite Hwanted. destruct first as [|kv p]; [discriminate|].
  destruct (fields_get (kv :: p) "profileId") as [v|] eqn:Hv; [|discriminate].
  intros [= <-]. now exists (kv :: p), rest, v.
Qed.
End ProfileFacts.

(** X25. The choice of the profile.  With [--profile-id] given, the run
    uses the first profile whose identifier prints as that text, so the
    identifier it uses is the text itself; it exits with code 1 when no
    profile prints so; and it can only raise when the text is "None",
    which matches a profile without identifier.  Without [--profile-id]
    the identifier is that of the first profile. *)
Theorem select_profile_uses_requested_id (py_str : Json -> string)
    (profiles : list (list (string * Json))) :
  (forall w, w <> ""%string ->
     (forall id, select_profile py_str profiles (Some w) = Ok (Returns id) ->
        id = w
        /\ exists before p after,
             profiles = before ++ p :: after
             /\ profile_id_text py_str p = w
             /\ Forall (fun q => profile_id_text py_str q <> w) before)
     /\ (Forall (fun p => profile_id_text py_str p <> w) profiles ->
         select_profile py_str profiles (Some w) = Ok (SysExit 1))
     /\ (forall e, select_profile py_str profiles (Some w) = Raise e ->
         w = "None"%string))
  /\ (forall profile_id id,
        profile_id = None \/ profile_id = Some ""%string ->
        select_profile py_str profiles profile_id = Ok (Returns id) ->
        exists first rest v,
          profiles = first :: rest
          /\ fields_get first "profileId" = Some v /\ id = py_str v).
Proof.
  split.
  - intros w Hw. split; [|split].
    + intros id. now apply select_profile_found.
    + now apply select_profile_missing.
    + intros e. now apply select_profile_raises.
  - intros profile_id id. apply select_profile_default.
Qed.

Lemma select_profile_uses_requested_id_witness :
  select_profile str_of_text
    [[("profileId", JStr "111")]; [("countryCode", JStr "US")];
     [("profileId", JStr "222")]]%string (Some "333"%string)
  = Ok (SysExit 1)
  /\ select_profile str_of_text
       [[("profileId", JStr "111")]; [("countryCode", JStr "US")];
        [("profileId", JStr "222")]]%string (Some "None"%string)
     = Raise KeyError.
Proof.
  split.
  - refine (proj1 (proj2 (proj1 (select_profile_uses_requested_id str_of_text
                                   [[("profileId", JStr "111")];
                                    [("countryCode", JStr "US")];
                                    [("profileId", JStr "222")]]%string)
                            "333"%string _)) _).
    + discriminate.
    + repeat constructor; discriminate.
  - reflexivity.
Defined.

(** ** New campaign creation *)

Section NewCampaignFacts.
Import NewCampaign.
Variable env : NewCampaign.Env.
Variable py_int_str : string -> option Z.

Lemma create_campaign_for_product_disabled (product : Product) (rules : Rules)
    (dry : bool) (tr : NewCampaign.Trace) :
  flag (auto_create_campaigns rules) = false ->
  create_campaign_for_product env py_int_str product rules dry tr = (None, tr).
Proof.
  intros Hflag. unfold create_campaign_for_product. now rewrite Hflag.
Qed.

Lemma create_campaign_for_product_dry (product : Product) (rules : Rules)
    (tr : NewCampaign.Trace) :
  flag (auto_create_campaigns rules) = true ->
  create_campaign_for_product env py_int_str product rules true tr
  = (Some {| cr_asin := pr_asin product;
             cr_campaign_id := None;
             cr_campaign_name :=
               campaign_name product (env_now env tr "%Y-%m-%d");
             cr_ad_group_id := None;
             cr_daily_budget :=
               default 10.00%float (new_campaign_daily_budget rules);
             cr_status := "dry-run" |},
     EvNow "%Y-%m-%d" :: tr).
Proof.
  intros Hflag. unfold create_campaign_for_product. now rewrite Hflag.
Qed.

(** The live run, stage by stage. *)
Lemma create_campaign_for_product_live (product : Product) (rules : Rules)
    (tr : NewCampaign.Trace) :
  flag (auto_create_campaigns rules) = true ->
  let name := campaign_name product (env_now env tr "%Y-%m-%d") in
  let budget := default 10.00%float (new_campaign_daily_budget rules) in
  let tr1 := EvNow "%Y%m%d" :: EvNow "%Y-%m-%d" :: tr in
  let start_date := env_now env (EvNow "%Y-%m-%d" :: tr) "%Y%m%d" in
  let tr2 := EvCreateCampaign name budget start_date :: tr1 in
  let group_name := ("AG - " ++ product_name product)%string in
  create_campaign_for_product env py_int_str product rules false tr
  = match env_create_campaign env tr1 name budget start_date with
    | None => (None, tr2)
    | Some campaign_id =>
        match py_int_str campaign_id with
        | None => (None, tr2)
        | Some cid =>
            let tr3 := EvCreateAdGroup cid group_name 0.50 :: tr2 in
            match env_create_ad_group env tr2 cid group_name 0.50 with
            | None => (None, tr3)
            | Some ad_group_id =>
                match py_int_str ad_group_id with
                | None => (None, tr3)
                | Some gid =>
                    let tr4 :=
                      EvCreateProductAd cid gid (pr_sku product)
                        (pr_asin product) :: tr3 in
                    match env_create_product_ad env tr3 cid gid
                            (pr_sku product) (pr_asin product) with
                    | None => (None, tr4)
                    | Some _ =>
                        (Some {| cr_asin := pr_asin product;
                                 cr_campaign_id := Some campaign_id;
                                 cr_campaign_name := name;
                                 cr_ad_group_id := Some ad_group_id;
                                 cr_daily_budget := budget;
                                 cr_status := "created" |}, tr4)
                    end
                end
            end
        end
    end.
Proof.
  intros Hflag name budget tr1 start_date tr2 group_name.
  unfold create_campaign_for_product. rewrite Hflag. cbn [negb].
  unfold now_text at 1. unfold create_campaign, now_text.
  fold name budget start_date tr1 tr2.
  destruct (env_create_campaign env tr1 name budget start_date)
    as [campaign_id|]; [|reflexivity].
  unfold create_ad_group. fold group_name.
  destruct (py_int_str campaign_id) as [cid|] eqn:Hcid; [|reflexivity].
  destruct (env_create_ad_group env tr2 cid group_name 0.50)
    as [ad_group_id|]; [|reflexivity].
  unfold create_product_ad. rewrite Hcid.
  destruct (py_int_str ad_group_id) as [gid|]; [|reflexivity].
  destruct (env_create_product_ad env _ cid gid (pr_sku product)
              (pr_asin product)) as [[]|]; reflexivity.
Qed.
End NewCampaignFacts.

(** X26. [create_campaign_for_product] does nothing and returns nothing
    when [auto_create_campaigns] is off.  When it is on, a dry run makes no
    creation call: it reads the date once and returns the preview, marked
    "dry-run", with the budget of the rules (10.00 when absent) and no
    identifiers; and a live run that succeeds from the same point reports
    the same ASIN, campaign name and budget, marked "created". *)
Theorem create_campaign_dry_run_previews (env : NewCampaign.Env)
    (py_int_str : string -> option Z) (product : NewCampaign.Product)
    (rules : Rules) (tr : NewCampaign.Trace) :
  (flag (auto_create_campaigns rules) = false ->
   forall dry,
     NewCampaign.create_campaign_for_product env py_int_str product rules dry
       tr = (None, tr))
  /\ (flag (auto_create_campaigns rules) = true ->
      exists preview,
        NewCampaign.create_campaign_for_product env py_int_str product rules
          true tr = (Some preview, NewCampaign.EvNow "%Y-%m-%d" :: tr)
        /\ NewCampaign.cr_status preview = "dry-run"%string
        /\ NewCampaign.cr_campaign_id preview = None
        /\ NewCampaign.cr_ad_group_id preview = None
        /\ NewCampaign.cr_daily_budget preview
           = default 10.00%float (new_campaign_daily_budget rules)
        /\ (forall created tr',
              NewCampaign.create_campaign_for_product env py_int_str product
                rules false tr = (Some created, tr') ->
              NewCampaign.cr_asin created = NewCampaign.cr_asin preview
              /\ NewCampaign.cr_campaign_name created
                 = NewCampaign.cr_campaign_name preview
              /\ NewCampaign.cr_daily_budget created
                 = NewCampaign.cr_daily_budget preview
              /\ NewCampaign.cr_status created = "created"%string)).
Proof.
  split.
  - intros Hflag dry. now apply create_campaign_for_product_disabled.
  - intros Hflag. eexists.
    split; [now apply create_campaign_for_product_dry|].
    cbn [NewCampaign.cr_status NewCampaign.cr_campaign_id
         NewCampaign.cr_ad_group_id NewCampaign.cr_daily_budget
         NewCampaign.cr_asin NewCampaign.cr_campaign_name].
    do 4 (split; [reflexivity|]).
    intros created tr' Hlive.
    rewrite (create_campaign_for_product_live env py_int_str product rules
               tr Hflag) in Hlive.
    cbv zeta in Hlive.
    repeat match type of Hlive with
           | match ?x with _ => _ end = _ => destruct x; try discriminate
           end.
    injection Hlive as <- _. repeat split; reflexivity.
Qed.

Lemma create_campaign_dry_run_previews_witness :
  exists preview,
    NewCampaign.create_campaign_for_product (NewCampaign.sample_env false)
      int_of_digits NewCampaign.sample_product DEFAULT_RULES true []
    = (Some preview, [NewCampaign.EvNow "%Y-%m-%d"])
    /\ NewCampaign.cr_campaign_name preview
       = "Auto - Product B000TEST01 - 2024-01-02"%string.
Proof.
  destruct (proj2 (create_campaign_dry_run_previews
                     (NewCampaign.sample_env false) int_of_digits
                     NewCampaign.sample_product DEFAULT_RULES []) eq_refl)
    as (preview & Hrun & _).
  exists preview. split; [exact Hrun|].
  vm_compute in Hrun. injection Hrun as <-. reflexivity.
Defined.

(** X27. A live [create_campaign_for_product] never raises and never takes
    back what it has created.  After reading the date it makes its calls
    in one order (the start date, the campaign, the ad group with default
    bid 0.50, the product ad) and stops at the first that fails or whose
    answer carries no numeric identifier; it returns a result only when all
    four were made; and when the campaign has been created but the ad group
    call fails, it returns nothing and the campaign and the ad group call
    stay in the trace as the last two events. *)
Theorem create_campaign_keeps_partial_work (env : NewCampaign.Env)
    (py_int_str : string -> option Z) (product : NewCampaign.Product)
    (rules : Rules) (tr : NewCampaign.Trace) :
  flag (auto_create_campaigns rules) = true ->
  let name :=
    NewCampaign.campaign_name product (NewCampaign.env_now env tr "%Y-%m-%d") in
  let budget := default 10.00%float (new_campaign_daily_budget rules) in
  let tr0 := NewCampaign.EvNow "%Y-%m-%d" :: tr in
  let start_date := NewCampaign.env_now env tr0 "%Y%m%d" in
  let group_name := ("AG - " ++ NewCampaign.product_name product)%string in
  let run :=
    NewCampaign.create_campaign_for_product env py_int_str product rules false
      tr in
  (exists (made : list NewCampaign.Event) (cid gid : Z),
      snd run = rev made ++ tr0
      /\ made `prefix_of`
           NewCampaign.full_sequence name budget start_date cid gid group_name
             (NewCampaign.pr_sku product) (NewCampaign.pr_asin product)
      /\ 2 <= length made
      /\ (forall created, fst run = Some created -> length made = 4))
  /\ (forall campaign_id cid,
         NewCampaign.env_create_campaign env (NewCampaign.EvNow "%Y%m%d" :: tr0)
           name budget start_date = Some campaign_id ->
         py_int_str campaign_id = Some cid ->
         NewCampaign.env_create_ad_group env
           (NewCampaign.EvCreateCampaign name budget start_date
              :: NewCampaign.EvNow "%Y%m%d" :: tr0) cid group_name 0.50 = None ->
         run = (None,
                NewCampaign.EvCreateAdGroup cid group_name 0.50
                  :: NewCampaign.EvCreateCampaign name budget start_date
                  :: NewCampaign.EvNow "%Y%m%d" :: tr0)).
Proof.
  intros Hflag name budget tr0 start_date group_name run.
  assert (Hrun := create_campaign_for_product_live env py_int_str product rules
                    tr Hflag).
  cbv zeta in Hrun. fold name budget tr0 start_date group_name run in Hrun.
  split.
  - destruct (NewCampaign.env_create_campaign env _ name budget start_date)
      as [campaign_id|].
    2:{ exists [NewCampaign.EvNow "%Y%m%d";
                NewCampaign.EvCreateCampaign name budget start_date], 0%Z, 0%Z.
        rewrite Hrun. cbn [fst snd rev app length].
        split; [reflexivity|]. split; [eexists; reflexivity|].
        split; [lia|discriminate]. }
    destruct (py_int_str campaign_id) as [cid|].
    2:{ exists [NewCampaign.EvNow "%Y%m%d";
                NewCampaign.EvCreateCampaign name budget start_date], 0%Z, 0%Z.
        rewrite Hrun. cbn [fst snd rev app length].
        split; [reflexivity|]. split; [eexists; reflexivity|].
        split; [lia|discriminate]. }
    destruct (NewCampaign.env_create_ad_group env _ cid group_name 0.50)
      as [ad_group_id|].
    2:{ exists [NewCampaign.EvNow "%Y%m%d";
                NewCampaign.EvCreateCampaign name budget start_date;
                NewCampaign.EvCreateAdGroup cid group_name 0.50], cid, 0%Z.
        rewrite Hrun. cbn [fst snd rev app length].
        split; [reflexivity|]. split; [eexists; reflexivity|].
        split; [lia|discriminate]. }
    destruct (py_int_str ad_group_id) as [gid|].
    2:{ exists [NewCampaign.EvNow "%Y%m%d";
                NewCampaign.EvCreateCampaign name budget start_date;
                NewCampaign.EvCreateAdGroup cid group_name 0.50], cid, 0%Z.
        rewrite Hrun. cbn [fst snd rev app length].
        split; [reflexivity|]. split; [eexists; reflexivity|].
        split; [lia|discriminate]. }
    exists (NewCampaign.full_sequence name budget start_date cid gid group_name
              (NewCampaign.pr_sku product) (NewCampaign.pr_asin product)),
      cid, gid.
    destruct (NewCampaign.env_create_product_ad env _ cid gid _ _);
      rewrite Hrun; cbn [fst snd rev app length NewCampaign.full_sequence];
      (split; [reflexivity|]); (split; [exists []; reflexivity|]);
      (split; [lia|]); intros; reflexivity.
  - intros campaign_id cid Hc Hcid Hg. rewrite Hrun, Hc, Hcid, Hg. reflexivity.
Qed.

Lemma create_campaign_keeps_partial_work_witness :
  NewCampaign.create_campaign_for_product (NewCampaign.sample_env true)
    int_of_digits NewCampaign.sample_product DEFAULT_RULES false []
  = (None,
     [NewCampaign.EvCreateAdGroup 11 "AG - Product B000TEST01" 0.50;
      NewCampaign.EvCreateCampaign "Auto - Product B000TEST01 - 2024-01-02"
        10.00 "20240102";
      NewCampaign.EvNow "%Y%m%d"; NewCampaign.EvNow "%Y-%m-%d"]).
Proof.
  refine (proj2 (create_campaign_keeps_partial_work
                   (NewCampaign.sample_env true) int_of_digits
                   NewCampaign.sample_product DEFAULT_RULES [] eq_refl)
            "11"%string 11%Z _ _ _); reflexivity.
Defined.
